(** * The Gadget-2 snapshot decoder of [scripts/download_snapshot.py]

    A shallow embedding of [read_gadget_snapshot], the one binary-format
    routine of the repository, together with the parts of [io.BytesIO],
    [struct] and [numpy] it relies on.  The decoder walks a byte stream
    that holds a length-framed header record followed by the position,
    velocity, identifier and mass blocks, in that order. *)

From Stdlib Require Import String ZArith List Bool Lia DecimalString.
From Stdlib.Strings Require Import Byte.
Import ListNotations.
Open Scope Z_scope.

(** ** Python helpers *)

(** [sum(l)] on a sequence of integers. *)
Fixpoint py_sum (l : list Z) : Z :=
  match l with
  | [] => 0
  | x :: r => x + py_sum r
  end.

(** [any(l)] on a sequence of booleans. *)
Fixpoint py_any (l : list bool) : bool :=
  match l with
  | [] => false
  | x :: r => x || py_any r
  end.

(** [l[a:b]] for [0 <= a <= b]. *)
Definition py_slice {A} (a b : nat) (l : list A) : list A :=
  firstn (b - a) (skipn a l).

(** [l[i] = v]; the decoder only assigns inside a 37-element list, so the
    out-of-range case (an IndexError in Python) does not arise: there the
    list is left as it is. *)
Fixpoint list_set (l : list Z) (i : nat) (v : Z) : list Z :=
  match l, i with
  | [], _ => []
  | _ :: r, O => v :: r
  | x :: r, S j => x :: list_set r j v
  end.

(** [str(n)] for an integer: its decimal digits. *)
Definition py_str (n : Z) : string := NilZero.string_of_int (Z.to_int n).

(** [enumerate(l)], counting from [k]. *)
Fixpoint enumerate_from {A} (k : nat) (l : list A) : list (nat * A) :=
  match l with
  | [] => []
  | x :: r => (k, x) :: enumerate_from (S k) r
  end.

(** ** Exceptions and outcomes *)

Inductive exn : Type :=
| struct_error (need : Z)
    (* struct.error: unpack requires a buffer of [need] bytes *)
| ValueError (msg : string)
| IndexError (msg : string).

Inductive outcome (A : Type) : Type :=
| Returns (a : A)
| Raises (e : exn).
Arguments Returns {A} a.
Arguments Raises {A} e.

(** ** Little-endian integers *)

Definition byte_val (b : byte) : Z := Z.of_N (Byte.to_N b).

Fixpoint le_uint (bs : list byte) : Z :=
  match bs with
  | [] => 0
  | b :: r => byte_val b + 256 * le_uint r
  end.

Definition le_sint (bs : list byte) : Z :=
  let w := 8 * Z.of_nat (length bs) in
  let v := le_uint bs in
  if v <? 2 ^ (w - 1) then v else v - 2 ^ w.

(** ** io.BytesIO

    The docstring fixes the stream type: [bstream : io.BytesIO].  A
    relative seek never fails and may leave the position past the end of
    the buffer; a read returns the bytes that are there, possibly fewer
    than asked for, and moves the position by that many.  [high] is
    instrumentation, not part of BytesIO: one past the largest offset a
    read has handed out so far. *)

Module BytesIO.

Record t : Type := mk { getvalue : list byte; tell : Z; high : Z }.

(** [bstream.seek(off, 1)] *)
Definition seek_cur (off : Z) (s : t) : t :=
  mk (getvalue s) (Z.max 0 (tell s + off)) (high s).

(** [bstream.read(n)] *)
Definition read (n : Z) (s : t) : list byte * t :=
  let rest := skipn (Z.to_nat (tell s)) (getvalue s) in
  let out := if n <? 0 then rest else firstn (Z.to_nat n) rest in
  let e := tell s + Z.of_nat (length out) in
  (out, mk (getvalue s) e
           (match out with [] => high s | _ :: _ => Z.max (high s) e end)).

(** Number of bytes between the position and the end of the buffer. *)
Definition remaining (s : t) : Z :=
  Z.of_nat (length (skipn (Z.to_nat (tell s)) (getvalue s))).

Definition open (bs : list byte) : t := mk bs 0 0.

End BytesIO.

(** ** The stream-and-exception monad *)

Definition M (A : Type) : Type := BytesIO.t -> outcome A * BytesIO.t.

Definition pure {A} (a : A) : M A := fun s => (Returns a, s).

Definition bind {A B} (m : M A) (k : A -> M B) : M B :=
  fun s =>
    match m s with
    | (Returns a, s') => k a s'
    | (Raises e, s') => (Raises e, s')
    end.

Definition lift {A} (o : outcome A) : M A := fun s => (o, s).

Definition seek (off : Z) : M unit := fun s => (Returns tt, BytesIO.seek_cur off s).

Definition read (n : Z) : M (list byte) :=
  fun s => let (out, s') := BytesIO.read n s in (Returns out, s').

Notation "x <- m ;; k" := (bind m (fun x => k))
  (at level 61, m at next level, right associativity).
Notation "m ;;; k" := (bind m (fun _ => k))
  (at level 61, right associativity).

(** ** struct: format codes, [calcsize] and [unpack]

    The format string has no byte-order prefix, so sizes and alignment are
    the native ones; the bytes are taken little-endian.  A [d] field is kept
    as its 64-bit IEEE-754 pattern: the decoder copies such values and tests
    them for zero, nothing else. *)

Inductive code : Type := c_I | c_i | c_d.

Definition code_size (c : code) : Z :=
  match c with
  | c_I | c_i => 4
  | c_d => 8
  end.

Definition align (off : Z) (c : code) : Z := off + (- off) mod code_size c.

Fixpoint calcsize_from (off : Z) (fmt : list code) : Z :=
  match fmt with
  | [] => off
  | c :: r => calcsize_from (align off c + code_size c) r
  end.

Definition calcsize (fmt : list code) : Z := calcsize_from 0 fmt.

Definition unpack_one (c : code) (bs : list byte) : Z :=
  match c with
  | c_I => le_uint bs
  | c_i => le_sint bs
  | c_d => le_uint bs
  end.

Fixpoint unpack_from (off : Z) (fmt : list code) (buf : list byte) : list Z :=
  match fmt with
  | [] => []
  | c :: r =>
      let o := align off c in
      unpack_one c (firstn (Z.to_nat (code_size c)) (skipn (Z.to_nat o) buf))
        :: unpack_from (o + code_size c) r buf
  end.

Definition unpack (fmt : list code) (buf : list byte) : outcome (list Z) :=
  if Z.of_nat (length buf) =? calcsize fmt
  then Returns (unpack_from 0 fmt buf)
  else Raises (struct_error (calcsize fmt)).

(** Truth value of a Python float given by its bit pattern: false exactly
    for [0.0] and [-0.0]. *)
Definition float_truth (bits : Z) : bool := negb (bits mod 2 ^ 63 =? 0).

(** '6I6dddii6Iiiddddii6Ii' *)
Definition gadget_header_fmt : list code :=
  repeat c_I 6 ++ repeat c_d 6 ++ [c_d; c_d; c_i; c_i] ++ repeat c_I 6
    ++ [c_i; c_i; c_d; c_d; c_d; c_d; c_i; c_i] ++ repeat c_I 6 ++ [c_i].

(** ** The header namedtuple *)

Record gadget_header : Type := mk_gadget_header {
  npart : list Z;
  mass : list Z;
  time : Z;
  redshift : Z;
  flag_sfr : Z;
  flag_feedback : Z;
  npartTotal : list Z;
  flag_cooling : Z;
  num_files : Z;
  BoxSize : Z;
  Omega0 : Z;
  OmegaLambda : Z;
  HubbleParam : Z;
  flag_age : Z;
  flag_metals : Z;
  NallHW : list Z;
  flag_entr_ics : Z
}.

(** [gadget_header._make((h[0:6],) + (h[6:12],) + h[12:16] + (h[16:22],)
    + h[22:30] + (h[30:36],) + h[36:])], for the 37 values [unpack]
    returns. *)
Definition make_header (h : list Z) : gadget_header :=
  {| npart := py_slice 0 6 h;
     mass := py_slice 6 12 h;
     time := nth 12 h 0;
     redshift := nth 13 h 0;
     flag_sfr := nth 14 h 0;
     flag_feedback := nth 15 h 0;
     npartTotal := py_slice 16 22 h;
     flag_cooling := nth 22 h 0;
     num_files := nth 23 h 0;
     BoxSize := nth 24 h 0;
     Omega0 := nth 25 h 0;
     OmegaLambda := nth 26 h 0;
     HubbleParam := nth 27 h 0;
     flag_age := nth 28 h 0;
     flag_metals := nth 29 h 0;
     NallHW := py_slice 30 36 h;
     flag_entr_ics := nth 36 h 0 |}.

(** ** numpy arrays *)

Inductive dtype : Type := float32 | float64 | uint32 | uint64.

Definition itemsize (d : dtype) : Z :=
  match d with
  | float32 | uint32 => 4
  | float64 | uint64 => 8
  end.

Record ndarray : Type := mk_ndarray {
  arr_dtype : dtype;
  arr_shape : list Z;
  arr_data : list byte
}.

Fixpoint py_prod (l : list Z) : Z :=
  match l with
  | [] => 1
  | x :: r => x * py_prod r
  end.

(** [np.array([], fmt)] *)
Definition empty_array (d : dtype) : ndarray := mk_ndarray d [0] [].

(** [np.frombuffer(bs, d)] *)
Definition frombuffer (bs : list byte) (d : dtype) : outcome ndarray :=
  let n := Z.of_nat (length bs) in
  if n mod itemsize d =? 0
  then Returns (mk_ndarray d [n / itemsize d] bs)
  else Raises (ValueError "buffer size must be a multiple of element size").

(** A shape as numpy prints it in its messages: [(12,3)], [(7,)]. *)
Definition shape_str (sh : list Z) : string :=
  match sh with
  | [] => "()"
  | [n] => "(" ++ py_str n ++ ",)"
  | n :: r =>
      "(" ++ py_str n ++ String.concat "" (map (fun m => "," ++ py_str m) r)
        ++ ")"
  end%string.

(** The message of the [ValueError] raised when an array of [size]
    elements is given the shape [sh]. *)
Definition reshape_message (size : Z) (sh : list Z) : string :=
  ("cannot reshape array of size " ++ py_str size ++ " into shape "
     ++ shape_str sh)%string.

(** [a.shape = sh] *)
Definition set_shape (a : ndarray) (sh : list Z) : outcome ndarray :=
  if py_prod sh =? py_prod (arr_shape a)
  then Returns (mk_ndarray (arr_dtype a) sh (arr_data a))
  else Raises (ValueError (reshape_message (py_prod (arr_shape a)) sh)).


(** ** The decoder *)

Inductive pyobj : Type :=
| Header (h : gadget_header)
| Array (a : ndarray).

(** What the function hands back: the bare header (line 76) or the tuple
    built from [ret] (line 129). *)
Inductive retval : Type :=
| ret_header (h : gadget_header)
| ret_tuple (l : list pyobj).

(** How an iteration of the block loop ends. *)
Inductive ctl : Type := Break | Continue.

(** Lines 86-100: what the [if/elif] chain on [i] sets up. *)
Inductive setup : Type :=
| EmptyMass
| Geometry (fmt fmt_64 : dtype) (item_per_part : Z) (npart : list Z).

Definition block_setup (header : gadget_header) (mass_npart : list Z)
    (i : nat) : setup :=
  if (i <? 2)%nat then Geometry float32 float64 3 (npart header)
  else if (i =? 2)%nat then Geometry uint32 uint64 1 (npart header)
  else if (i =? 3)%nat then
    (if py_sum mass_npart =? 0 then EmptyMass
     else Geometry float32 float64 1 mass_npart)
  else Geometry float32 float64 1 (npart header).

(** Lines 105-108: the element type of a block whose leading marker reads
    [size_check]. *)
Definition check_size (fmt fmt_64 : dtype) (block_item_size size_check : Z)
    : outcome dtype :=
  let fmt := if negb (size_check =? block_item_size * itemsize fmt)
             then fmt_64 else fmt in
  if negb (size_check =? block_item_size * itemsize fmt)
  then Raises (ValueError "Invalid block size in file!")
  else Returns fmt.

(** [npart[single_type]] *)
Definition index (l : list Z) (i : Z) : outcome Z :=
  match nth_error l (Z.to_nat i) with
  | Some n => Returns n
  | None => Raises (IndexError "tuple index out of range")
  end.

(** Lines 111-112 and 127: the branch [if not b] of an iteration. *)
Definition skip_block (np : list Z) (size_per_part : Z) (ret : list pyobj)
    : M (ctl * list pyobj) :=
  seek (py_sum np * size_per_part) ;;;
  seek 4 ;;;
  pure (Continue, ret).

(** Lines 114-127: the [else] branch of an iteration. *)
Definition read_block (np : list Z) (single_type : Z) (fmt : dtype)
    (item_per_part size_per_part : Z) (more : bool) (ret : list pyobj)
    : M (ctl * list pyobj) :=
  npart_this <-
    (if single_type >? -1 then
       seek (py_sum (firstn (Z.to_nat single_type) np) * size_per_part) ;;;
       lift (index np single_type)
     else pure (py_sum np)) ;;
  raw <- read (npart_this * size_per_part) ;;
  data <- lift (frombuffer raw fmt) ;;
  data <- (if item_per_part >? 1
           then lift (set_shape data [npart_this; item_per_part])
           else pure data) ;;
  let ret := ret ++ [Array data] in
  if negb more then pure (Break, ret)
  else
    (if single_type >? -1 then
       seek (py_sum (skipn (Z.to_nat (single_type + 1)) np) * size_per_part)
     else pure tt) ;;;
    seek 4 ;;;
    pure (Continue, ret).

(** Lines 86-127: one iteration of the loop for block [i], with [b] the
    request flag of the block and [more] the value of
    [any(blocks_to_read[i+1:])]. *)
Definition block_body (header : gadget_header) (mass_npart : list Z)
    (single_type : Z) (i : nat) (b more : bool) (ret : list pyobj)
    : M (ctl * list pyobj) :=
  match block_setup header mass_npart i with
  | EmptyMass => pure (Break, ret ++ [Array (empty_array float32)])
  | Geometry fmt fmt_64 item_per_part npart =>
      raw <- read 4 ;;
      u <- lift (unpack [c_I] raw) ;;
      let size_check := nth 0 u 0 in
      let block_item_size := item_per_part * py_sum npart in
      fmt <- lift (check_size fmt fmt_64 block_item_size size_check) ;;
      let size_per_part := item_per_part * itemsize fmt in
      if negb b then skip_block npart size_per_part ret
      else read_block npart single_type fmt item_per_part size_per_part
             more ret
  end.

(** Lines 85-127: the [for i, b in enumerate(blocks_to_read)] loop. *)
Fixpoint walk (header : gadget_header) (mass_npart : list Z)
    (single_type : Z) (blocks_to_read : list bool)
    (todo : list (nat * bool)) (ret : list pyobj) : M (list pyobj) :=
  match todo with
  | [] => pure ret
  | (i, b) :: rest =>
      r <- block_body header mass_npart single_type i b
             (py_any (skipn (S i) blocks_to_read)) ret ;;
      match r with
      | (Break, ret') => pure ret'
      | (Continue, ret') =>
          walk header mass_npart single_type blocks_to_read rest ret'
      end
  end.

(** Lines 64-68. *)
Definition lgadget_remap (h : list Z) : list Z :=
  let h1 := list_set h 30 0 in
  let h2 := list_set h1 31 (nth 18 h1 0) in
  list_set h2 18 0.

(** Lines 61-72: the header fields and the single-type selector in force
    after them. *)
Definition read_header (single_type : Z) (lgadget : bool)
    : M (gadget_header * Z) :=
  seek 4 ;;;
  raw <- read (calcsize gadget_header_fmt) ;;
  h <- lift (unpack gadget_header_fmt raw) ;;
  let '(h, single_type) :=
    if lgadget then (lgadget_remap h, 1) else (h, single_type) in
  pure (make_header h, single_type).

(** Line 81. *)
Definition mass_npart_of (header : gadget_header) : list Z :=
  map (fun mn => if float_truth (fst mn) then 0 else snd mn)
      (combine (mass header) (npart header)).

(** Lines 82-83: [single_type not in set(range(6))]. *)
Definition in_range6 (t : Z) : bool := (0 <=? t) && (t <? 6).

(** [read_gadget_snapshot]; [print_header] only writes to standard output
    and is left out. *)
Definition read_gadget_snapshot
    (read_pos read_vel read_id read_mass : bool)
    (single_type : Z) (lgadget : bool) : M retval :=
  let blocks_to_read := [read_pos; read_vel; read_id; read_mass] in
  hs <- read_header single_type lgadget ;;
  let '(header, single_type) := hs in
  if negb (py_any blocks_to_read) then pure (ret_header header)
  else
    let ret := [Header header] in
    seek (256 - calcsize gadget_header_fmt) ;;;
    seek 4 ;;;
    let mass_npart := mass_npart_of header in
    let single_type := if negb (in_range6 single_type) then -1
                       else single_type in
    r <- walk header mass_npart single_type blocks_to_read
           (enumerate_from 0 blocks_to_read) ret ;;
    pure (ret_tuple r).

(** ** Vocabulary for the statements *)

(** The header a call hands back, whether bare or as the first item. *)
Definition header_of (r : retval) : option gadget_header :=
  match r with
  | ret_header h => Some h
  | ret_tuple (Header h :: _) => Some h
  | ret_tuple _ => None
  end.

(** The effect of the l-gadget assignments, phrased on the fields of the
    header: slot 30 is [NallHW[0]], slot 31 is [NallHW[1]] and slot 18 is
    [npartTotal[2]]. *)
Definition lgadget_fields (hd : gadget_header) : gadget_header :=
  {| npart := npart hd;
     mass := mass hd;
     time := time hd;
     redshift := redshift hd;
     flag_sfr := flag_sfr hd;
     flag_feedback := flag_feedback hd;
     npartTotal := list_set (npartTotal hd) 2 0;
     flag_cooling := flag_cooling hd;
     num_files := num_files hd;
     BoxSize := BoxSize hd;
     Omega0 := Omega0 hd;
     OmegaLambda := OmegaLambda hd;
     HubbleParam := HubbleParam hd;
     flag_age := flag_age hd;
     flag_metals := flag_metals hd;
     NallHW := list_set (list_set (NallHW hd) 0 0) 1 (nth 2 (npartTotal hd) 0);
     flag_entr_ics := flag_entr_ics hd |}.

(** The 32-bit length stored at offset [off] of a file. *)
Definition u32_at (buf : list byte) (off : Z) : Z :=
  le_uint (firstn 4 (skipn (Z.to_nat off) buf)).

(** Offset of the record that follows the framed record at [off]. *)
Definition next_record (buf : list byte) (off : Z) : Z :=
  off + 4 + u32_at buf off + 4.

(** The 196 header bytes a call on [s] decodes. *)
Definition header_bytes (s : BytesIO.t) : list byte :=
  firstn 196 (skipn (Z.to_nat (BytesIO.tell s + 4)) (BytesIO.getvalue s)).

(** The header a call on [s] decodes when the stream holds it. *)
Definition decoded_header (lgadget : bool) (s : BytesIO.t) : gadget_header :=
  let h := unpack_from 0 gadget_header_fmt (header_bytes s) in
  make_header (if lgadget then lgadget_remap h else h).

(** The selector in force in the block loop. *)
Definition selector_in_force (single_type : Z) (lgadget : bool) : Z :=
  let t := if lgadget then 1 else single_type in
  if negb (in_range6 t) then -1 else t.

(** The stream when the block loop starts: 264 bytes further on, the
    header fields being all that was read. *)
Definition after_header (s : BytesIO.t) : BytesIO.t :=
  BytesIO.mk (BytesIO.getvalue s) (BytesIO.tell s + 264)
             (Z.max (BytesIO.high s) (BytesIO.tell s + 200)).

(** The tuple a call builds from what the loop hands back. *)
Definition as_tuple (r : outcome (list pyobj) * BytesIO.t)
    : outcome retval * BytesIO.t :=
  match r with
  | (Returns l, s') => (Returns (ret_tuple l), s')
  | (Raises e, s') => (Raises e, s')
  end.

(** What every decoded header satisfies: six counts, six masses, and
    counts that are unsigned. *)
Definition well_formed (hd : gadget_header) : Prop :=
  length (npart hd) = 6%nat /\ length (mass hd) = 6%nat
  /\ Forall (Z.le 0) (npart hd).

(** Every type has a fixed mass. *)
Definition all_mass_fixed (hd : gadget_header) : Prop :=
  Forall (fun m => float_truth m = true) (mass hd).

(** ** Writing snapshot files

    The inverse direction, used to build concrete files for the examples. *)

Definition byte_of (z : Z) : byte :=
  match Byte.of_N (Z.to_N (z mod 256)) with
  | Some b => b
  | None => x00
  end.

Fixpoint pack_le (n : nat) (z : Z) : list byte :=
  match n with
  | O => []
  | S k => byte_of z :: pack_le k (z / 256)
  end.

Definition pack_I (z : Z) : list byte := pack_le 4 z.

(** The 196 bytes of the header fields [h] (the format needs no alignment
    padding), as [struct.pack] lays them out. *)
Definition pack_fields (h : list Z) : list byte :=
  concat (map (fun cv => pack_le (Z.to_nat (code_size (fst cv))) (snd cv))
              (combine gadget_header_fmt h)).

(** A framed record: leading marker, payload, trailing marker. *)
Definition record (payload : list byte) : list byte :=
  let L := Z.of_nat (length payload) in
  pack_I L ++ payload ++ pack_I L.

Definition header_record (h : list Z) : list byte :=
  record (pack_fields h ++ repeat x00 60).

(** [n] payload bytes, numbered from [k]. *)
Fixpoint payload_from (k : Z) (n : nat) : list byte :=
  match n with
  | O => []
  | S m => byte_of k :: payload_from (k + 1) m
  end.

(** ** Concrete files *)

(** A file cut short after [n] bytes. *)
Definition truncated (n : nat) (file : list byte) : list byte :=
  firstn n file.


(** Header values: counts (5, 7, 0, 0, 0, 0), free masses, and every other
    slot holding its own index so that moved values can be told apart. *)
Definition h57 : list Z :=
  [5; 7; 0; 0; 0; 0] ++ repeat 0 6 ++ [12; 13; 14; 15]
    ++ [16; 17; 18; 19; 20; 21] ++ [22; 23; 24; 25; 26; 27; 28; 29]
    ++ [30; 31; 32; 33; 34; 35] ++ [36].

(** The same with all six type masses set to 1.0. *)
Definition h57_fixed_mass : list Z :=
  [5; 7; 0; 0; 0; 0] ++ repeat 0x3FF0000000000000 6 ++ skipn 12 h57.

(** A complete single-precision file for [h57]: 12 particles. *)
Definition file57 : list byte :=
  header_record h57
    ++ record (payload_from 0 144) ++ record (payload_from 0 144)
    ++ record (payload_from 0 48) ++ record (payload_from 0 48).

(** [file57] with fixed type masses and therefore no mass record. *)
Definition file57_fixed_mass : list byte :=
  header_record h57_fixed_mass
    ++ record (payload_from 0 144) ++ record (payload_from 0 144)
    ++ record (payload_from 0 48).

(** [file57] with the leading marker of the position record set to 5. *)
Definition file57_bad_pos : list byte :=
  header_record h57 ++ pack_I 5 ++ payload_from 0 144 ++ pack_I 5.

(** [file57] with the leading marker of the identifier record set to 7. *)
Definition file57_bad_id : list byte :=
  header_record h57
    ++ record (payload_from 0 144) ++ record (payload_from 0 144)
    ++ pack_I 7 ++ payload_from 0 48 ++ pack_I 7.

(** The stream of [file57] once the header record has been consumed. *)
Definition at_first_block : BytesIO.t := BytesIO.mk file57 264 200.

(** ** Vocabulary for the further properties *)

(** The indices of the requested blocks among the flags [l], the first of
    which is the flag of block [k]. *)
Definition requested_from (k : nat) (l : list bool) : list nat :=
  map fst (filter snd (enumerate_from k l)).

(** The element types an array of block [i] can have. *)
Definition dtype_of_kind (i : nat) (d : dtype) : Prop :=
  if (i =? 2)%nat then d = uint32 \/ d = uint64
  else d = float32 \/ d = float64.

(** The stream has only moved forward from [s] to [s']: same buffer,
    position not before, and nothing read beyond the new position that was
    not read before. *)
Definition advances (s s' : BytesIO.t) : Prop :=
  BytesIO.getvalue s' = BytesIO.getvalue s
  /\ BytesIO.tell s <= BytesIO.tell s'
  /\ BytesIO.high s <= BytesIO.high s'
  /\ BytesIO.high s' <= Z.max (BytesIO.high s) (BytesIO.tell s').

(** The exceptions of numpy's size checks. *)
Definition numpy_error (e : exn) : Prop :=
  e = ValueError "buffer size must be a multiple of element size"
  \/ exists size sh, e = ValueError (reshape_message size sh).

(** The exceptions a call can end with. *)
Definition decoder_error (e : exn) : Prop :=
  e = struct_error 196 \/ e = struct_error 4
  \/ e = ValueError "Invalid block size in file!"
  \/ numpy_error e.

(** [buf[off : off + len]] *)
Definition slice_bytes (buf : list byte) (off len : Z) : list byte :=
  firstn (Z.to_nat len) (skipn (Z.to_nat off) buf).

(** The element type of block [i] when its marker reads [L] and it holds
    [n] elements: the narrow type if [L] is [4 * n], else the wide one. *)
Definition resolved_dtype (i : nat) (L n : Z) : dtype :=
  if (i =? 2)%nat
  then (if L =? n * 4 then uint32 else uint64)
  else (if L =? n * 4 then float32 else float64).

(** The array of all [n] items of block [i] whose record starts at offset
    [p] of [buf]: the payload bytes as they are. *)
Definition expected_array (i : nat) (buf : list byte) (p n : Z) : ndarray :=
  let L := u32_at buf p in
  mk_ndarray (resolved_dtype i L (n * (if (i <? 2)%nat then 3 else 1)))
             (if (i <? 2)%nat then [n; 3] else [n])
             (slice_bytes buf (p + 4) L).

(** What indexing the result of a call gives: an item of the tuple, or a
    field of the bare header (its second field is [mass]). *)
Inductive pyvalue : Type :=
| V_obj (o : pyobj)
| V_floats (l : list Z).

(** [r[1]] *)
Definition getitem1 (r : retval) : outcome pyvalue :=
  match r with
  | ret_tuple l =>
      match nth_error l 1 with
      | Some o => Returns (V_obj o)
      | None => Raises (IndexError "tuple index out of range")
      end
  | ret_header h => Returns (V_floats (mass h))
  end.

(** Lines 205-206 of [download_aemulus_alpha_particles]:
    [read_gadget_snapshot(io.BytesIO(r.content), read_pos=True)[1]]. *)
Definition ptcls_tmp (content : list byte) : outcome pyvalue :=
  match fst (read_gadget_snapshot true false false false (-1) false
               (BytesIO.open content)) with
  | Returns r => getitem1 r
  | Raises e => Raises e
  end.

(** The values a field of code [c] can take: [I] is an unsigned and [i] a
    signed 32-bit integer, [d] a 64-bit pattern. *)
Definition code_range (c : code) (v : Z) : Prop :=
  match c with
  | c_I => 0 <= v < 2 ^ 32
  | c_i => - 2 ^ 31 <= v < 2 ^ 31
  | c_d => 0 <= v < 2 ^ 64
  end.

(** Every field of a header within the range of its format code. *)
Definition header_in_range (hd : gadget_header) : Prop :=
  (length (npart hd) = 6%nat /\ Forall (code_range c_I) (npart hd))
  /\ (length (mass hd) = 6%nat /\ Forall (code_range c_d) (mass hd))
  /\ (length (npartTotal hd) = 6%nat
      /\ Forall (code_range c_I) (npartTotal hd))
  /\ (length (NallHW hd) = 6%nat /\ Forall (code_range c_I) (NallHW hd))
  /\ Forall (code_range c_d)
       [time hd; redshift hd; BoxSize hd; Omega0 hd; OmegaLambda hd;
        HubbleParam hd]
  /\ Forall (code_range c_i)
       [flag_sfr hd; flag_feedback hd; flag_cooling hd; num_files hd;
        flag_age hd; flag_metals hd; flag_entr_ics hd].

(** The bytes from the position of the stream on. *)
Definition view (s : BytesIO.t) : list byte :=
  skipn (Z.to_nat (BytesIO.tell s)) (BytesIO.getvalue s).

(** [s1] shows the same bytes as [s2] from its position on, [p] bytes
    further into its buffer. *)
Definition shifted (p : Z) (s1 s2 : BytesIO.t) : Prop :=
  0 <= p /\ 0 <= BytesIO.tell s2
  /\ BytesIO.tell s1 = BytesIO.tell s2 + p
  /\ view s1 = view s2.

(** A computation that cannot tell such streams apart. *)
Definition relocatable {A} (m : M A) : Prop :=
  forall p s1 s2,
    shifted p s1 s2 ->
    fst (m s1) = fst (m s2) /\ shifted p (snd (m s1)) (snd (m s2)).

(** ** Records and the arrays read off them *)

(** Number of components of an item of block [i]: three for positions and
    velocities, one for identifiers and masses. *)
Definition components (i : nat) : Z := if (i <? 2)%nat then 3 else 1.

(** The per-type counts block [i] is laid out by. *)
Definition counts_of (hd : gadget_header) (i : nat) : list Z :=
  if (i =? 3)%nat then mass_npart_of hd else npart hd.

(** Offset of the leading marker of record [i], the records being chained
    by their leading markers from the one at [p0]. *)
Definition record_offset (buf : list byte) (p0 : Z) (i : nat) : Z :=
  Nat.iter i (next_record buf) p0.

(** The array of block [i] under the selector [t], read off the file
    [buf] whose record of block [i] starts at offset [p]: the items of
    type [t], or of all types when [t] is -1, with the element type the
    leading marker resolves to; no record at all for a mass block without
    free masses. *)
Definition block_array (hd : gadget_header) (t : Z) (i : nat)
    (buf : list byte) (p : Z) : ndarray :=
  let np := counts_of hd i in
  let c := components i in
  if (i =? 3)%nat && (py_sum np =? 0) then empty_array float32
  else
    let d := resolved_dtype i (u32_at buf p) (py_sum np * c) in
    let spp := c * itemsize d in
    let before := if t >? -1 then py_sum (firstn (Z.to_nat t) np) else 0 in
    let this := if t >? -1 then nth (Z.to_nat t) np 0 else py_sum np in
    let data := slice_bytes buf (p + 4 + before * spp) (this * spp) in
    mk_ndarray d
      (if (i <? 2)%nat then [this; 3]
       else [Z.of_nat (length data) / itemsize d])
      data.


(** ** Basic facts *)

Lemma firstn_all_length {A} (l : list A) (n : nat) :
  length l = n -> firstn n l = l.
Proof. intros <-. apply firstn_all. Qed.

Lemma unpack_I (raw : list byte) :
  length raw = 4%nat -> unpack [c_I] raw = Returns [le_uint raw].
Proof.
  intros H. unfold unpack. rewrite H.
  change (Z.of_nat 4 =? calcsize [c_I]) with true.
  change (unpack_from 0 [c_I] raw) with [le_uint (firstn 4 (skipn 0 raw))].
  cbn [skipn]. now rewrite (firstn_all_length raw 4 H).
Qed.

Lemma unpack_I_short (raw : list byte) :
  length raw <> 4%nat -> unpack [c_I] raw = Raises (struct_error 4).
Proof.
  intros H. unfold unpack. cbn.
  destruct (Z.eqb_spec (Z.of_nat (length raw)) 4); [lia | reflexivity].
Qed.

Lemma check_size_narrow fmt fmt_64 n L :
  L = n * itemsize fmt -> check_size fmt fmt_64 n L = Returns fmt.
Proof.
  intros ->. unfold check_size. now rewrite Z.eqb_refl; cbn; rewrite Z.eqb_refl.
Qed.

Lemma check_size_wide fmt fmt_64 n L :
  L <> n * itemsize fmt -> L = n * itemsize fmt_64 ->
  check_size fmt fmt_64 n L = Returns fmt_64.
Proof.
  intros H ->. unfold check_size.
  destruct (Z.eqb_spec (n * itemsize fmt_64) (n * itemsize fmt)); [easy|].
  cbn. now rewrite Z.eqb_refl.
Qed.

Lemma check_size_invalid fmt fmt_64 n L :
  L <> n * itemsize fmt -> L <> n * itemsize fmt_64 ->
  check_size fmt fmt_64 n L = Raises (ValueError "Invalid block size in file!").
Proof.
  intros H1 H2. unfold check_size.
  destruct (Z.eqb_spec L (n * itemsize fmt)); [easy|]. cbn.
  destruct (Z.eqb_spec L (n * itemsize fmt_64)); [easy|]. reflexivity.
Qed.

(** The element types the [if/elif] chain can set up. *)
Lemma block_setup_geometry header mass_npart i fmt fmt_64 c np :
  block_setup header mass_npart i = Geometry fmt fmt_64 c np ->
  (fmt, fmt_64) = (if (i =? 2)%nat then (uint32, uint64)
                   else (float32, float64))
  /\ c = (if (i <? 2)%nat then 3 else 1)
  /\ np = (if (i =? 3)%nat then mass_npart else npart header).
Proof.
  unfold block_setup.
  destruct i as [|[|[|[|i]]]]; cbn; try (intros [= <- <- <- <-]; auto).
  destruct (py_sum mass_npart =? 0); [discriminate|].
  intros [= <- <- <- <-]; auto.
Qed.

(** The first part of an iteration, up to the choice of the element type. *)
Lemma block_body_prefix header mass_npart single_type i b more ret s
    fmt fmt_64 c np raw s1 :
  block_setup header mass_npart i = Geometry fmt fmt_64 c np ->
  BytesIO.read 4 s = (raw, s1) ->
  length raw = 4%nat ->
  block_body header mass_npart single_type i b more ret s =
  match check_size fmt fmt_64 (c * py_sum np) (le_uint raw) with
  | Raises e => (Raises e, s1)
  | Returns d =>
      if negb b then skip_block np (c * itemsize d) ret s1
      else read_block np single_type d c (c * itemsize d) more ret s1
  end.
Proof.
  intros Hs Hr Hl. unfold block_body. rewrite Hs.
  unfold bind at 1. unfold read at 1. rewrite Hr.
  unfold bind at 1. unfold lift at 1. rewrite (unpack_I raw Hl).
  unfold bind at 1. unfold lift at 1. cbn [nth].
  destruct (check_size fmt fmt_64 (c * py_sum np) (le_uint raw));
    [destruct b|]; reflexivity.
Qed.

(** A short leading marker makes [struct.unpack] fail. *)
Lemma block_body_short_marker header mass_npart single_type i b more ret s
    fmt fmt_64 c np raw s1 :
  block_setup header mass_npart i = Geometry fmt fmt_64 c np ->
  BytesIO.read 4 s = (raw, s1) ->
  length raw <> 4%nat ->
  block_body header mass_npart single_type i b more ret s =
  (Raises (struct_error 4), s1).
Proof.
  intros Hs Hr Hl. unfold block_body. rewrite Hs.
  unfold bind at 1. unfold read at 1. rewrite Hr.
  unfold bind at 1. unfold lift at 1. now rewrite (unpack_I_short raw Hl).
Qed.

(** What a materialising iteration appends has the element type chosen. *)
Lemma read_block_dtype np single_type d c spp more ret s k ret' s' :
  read_block np single_type d c spp more ret s = (Returns (k, ret'), s') ->
  exists a, ret' = ret ++ [Array a] /\ arr_dtype a = d.
Proof.
  unfold read_block, bind, seek, read, lift, pure, frombuffer, set_shape.
  destruct (single_type >? -1).
  - destruct (index np single_type); [|discriminate].
    destruct (BytesIO.read _ _) as [raw s2].
    destruct (_ mod _ =? 0); [|discriminate].
    destruct (c >? 1).
    + cbn [arr_shape arr_dtype arr_data].
      destruct (_ =? _); [|discriminate].
      destruct more; cbn; intros [= <- <- <-]; eauto.
    + destruct more; cbn; intros [= <- <- <-]; eauto.
  - destruct (BytesIO.read _ _) as [raw s2].
    destruct (_ mod _ =? 0); [|discriminate].
    destruct (c >? 1).
    + cbn [arr_shape arr_dtype arr_data].
      destruct (_ =? _); [|discriminate].
      destruct more; cbn; intros [= <- <- <-]; eauto.
    + destruct more; cbn; intros [= <- <- <-]; eauto.
Qed.

(** C1: the element width of a block is inferred from its leading 4-byte
    length [L] alone.  With [N] the item count and [c] the components per
    item of block [i]: if [L = N*c*4] the narrow type is used (float32,
    uint32 for the identifiers); otherwise, if [L = N*c*8], the wide one
    (float64, uint64); otherwise the iteration raises the invalid-block-size
    ValueError.  "Used" is read off the behaviour: a skipped block is
    skipped over [N*c*itemsize] bytes and a materialised one has that
    element type.  The narrow type is tried first, and nothing but the
    block's own marker enters the choice. *)
Theorem width_inference_per_block :
  forall header mass_npart single_type i more ret s fmt fmt_64 c np raw s1,
    block_setup header mass_npart i = Geometry fmt fmt_64 c np ->
    BytesIO.read 4 s = (raw, s1) ->
    length raw = 4%nat ->
    let L := le_uint raw in
    let N := py_sum np in
    let run b := block_body header mass_npart single_type i b more ret s in
    let uses d :=
      run false =
        (Returns (Continue, ret),
         BytesIO.seek_cur 4 (BytesIO.seek_cur (N * (c * itemsize d)) s1))
      /\ (forall k ret' s', run true = (Returns (k, ret'), s') ->
          exists a, ret' = ret ++ [Array a] /\ arr_dtype a = d) in
    (fmt, fmt_64) = (if (i =? 2)%nat then (uint32, uint64)
                     else (float32, float64))
    /\ itemsize fmt = 4 /\ itemsize fmt_64 = 8
    /\ (L = N * c * 4 -> uses fmt)
    /\ (L <> N * c * 4 -> L = N * c * 8 -> uses fmt_64)
    /\ (L <> N * c * 4 -> L <> N * c * 8 ->
        forall b, run b =
                  (Raises (ValueError "Invalid block size in file!"), s1)).
Proof.
  intros header mass_npart single_type i more ret s fmt fmt_64 c np raw s1
         Hs Hr Hl L N run uses.
  destruct (block_setup_geometry _ _ _ _ _ _ _ Hs) as (Hf & _ & _).
  assert (H4 : itemsize fmt = 4 /\ itemsize fmt_64 = 8).
  { destruct (i =? 2)%nat; injection Hf as -> ->; now cbn. }
  destruct H4 as [H4 H8].
  assert (Huse : forall d,
             check_size fmt fmt_64 (c * N) L = Returns d -> uses d).
  { intros d Hd. unfold uses, run. split.
    - erewrite block_body_prefix by eassumption.
      fold N L. now rewrite Hd.
    - intros k ret' s'.
      erewrite block_body_prefix by eassumption.
      fold N L. rewrite Hd. cbn [negb]. apply read_block_dtype. }
  split; [exact Hf|]. split; [exact H4|]. split; [exact H8|].
  split; [|split].
  - intros HL. apply Huse. apply check_size_narrow. lia.
  - intros Hn HL. apply Huse. apply check_size_wide; lia.
  - intros Hn Hw b. unfold run.
    erewrite block_body_prefix by eassumption. fold N L.
    rewrite check_size_invalid; [reflexivity | lia | lia].
Qed.

Lemma width_inference_per_block_witness :
  let header := make_header h57 in
  let s := at_first_block in
  let raw := fst (BytesIO.read 4 s) in
  let s1 := snd (BytesIO.read 4 s) in
  block_setup header (mass_npart_of header) 0
    = Geometry float32 float64 3 (npart header)
  /\ length raw = 4%nat
  /\ le_uint raw = py_sum (npart header) * 3 * 4
  /\ block_body header (mass_npart_of header) (-1) 0 false true [] s
     = (Returns (Continue, []),
        BytesIO.seek_cur 4 (BytesIO.seek_cur (12 * (3 * 4)) s1)).
Proof.
  intros header s raw s1.
  assert (Hs : block_setup header (mass_npart_of header) 0
               = Geometry float32 float64 3 (npart header))
    by reflexivity.
  assert (Hr : BytesIO.read 4 s = (raw, s1)) by reflexivity.
  assert (Hl : length raw = 4%nat) by reflexivity.
  assert (HL : le_uint raw = py_sum (npart header) * 3 * 4)
    by (vm_compute; reflexivity).
  repeat (split; [assumption|]).
  pose proof (width_inference_per_block header (mass_npart_of header) (-1)
                0 true [] s float32 float64 3 (npart header) raw s1
                Hs Hr Hl) as H.
  cbv zeta in H.
  destruct H as (_ & _ & _ & Hn & _).
  exact (proj1 (Hn HL)).
Defined.

(** ** The stream *)

Lemma remaining_eq s :
  0 <= BytesIO.tell s ->
  BytesIO.remaining s
  = Z.max 0 (Z.of_nat (length (BytesIO.getvalue s)) - BytesIO.tell s).
Proof.
  intros H. unfold BytesIO.remaining. rewrite length_skipn. lia.
Qed.

Lemma read_spec n s raw s1 :
  BytesIO.read n s = (raw, s1) ->
  0 <= n ->
  raw = firstn (Z.to_nat n) (skipn (Z.to_nat (BytesIO.tell s))
                                   (BytesIO.getvalue s))
  /\ Z.of_nat (length raw) = Z.min n (BytesIO.remaining s)
  /\ BytesIO.getvalue s1 = BytesIO.getvalue s
  /\ BytesIO.tell s1 = BytesIO.tell s + Z.of_nat (length raw)
  /\ BytesIO.high s <= BytesIO.high s1
  /\ BytesIO.high s1 <= Z.max (BytesIO.high s) (BytesIO.tell s1).
Proof.
  unfold BytesIO.read, BytesIO.remaining. intros H Hn.
  destruct (Z.ltb_spec n 0); [lia|].
  injection H as <- <-. cbn [BytesIO.getvalue BytesIO.tell BytesIO.high].
  split; [reflexivity|]. split; [rewrite length_firstn; lia|].
  split; [reflexivity|]. split; [reflexivity|].
  destruct (firstn _ _); cbn [length]; lia.
Qed.

Lemma seek_spec off s :
  0 <= BytesIO.tell s -> 0 <= off ->
  BytesIO.getvalue (BytesIO.seek_cur off s) = BytesIO.getvalue s
  /\ BytesIO.tell (BytesIO.seek_cur off s) = BytesIO.tell s + off
  /\ BytesIO.high (BytesIO.seek_cur off s) = BytesIO.high s.
Proof. intros. cbn. repeat split. lia. Qed.

Lemma remaining_seek off s :
  0 <= BytesIO.tell s -> 0 <= off ->
  BytesIO.remaining (BytesIO.seek_cur off s)
  = Z.max 0 (BytesIO.remaining s - off).
Proof.
  intros Ht Ho. rewrite !remaining_eq by (cbn; lia). cbn. lia.
Qed.

Lemma le_uint_nonneg bs : 0 <= le_uint bs.
Proof.
  induction bs as [|b r IH]; cbn [le_uint]; [lia|].
  unfold byte_val. lia.
Qed.

Lemma length_unpack_from fmt : forall off buf,
  length (unpack_from off fmt buf) = length fmt.
Proof.
  induction fmt as [|c r IH]; intros off buf; cbn; [reflexivity|].
  now rewrite IH.
Qed.

Lemma unpack_length fmt buf h :
  unpack fmt buf = Returns h -> length h = length fmt.
Proof.
  unfold unpack. destruct (_ =? _); [|discriminate].
  intros [= <-]. apply length_unpack_from.
Qed.

(** ** The header *)

Lemma make_header_lgadget h :
  length h = 37%nat ->
  make_header (lgadget_remap h) = lgadget_fields (make_header h).
Proof.
  intros H.
  do 37 (destruct h as [|? h]; [discriminate H|]).
  destruct h; [reflexivity | discriminate H].
Qed.

(** The header phase on a stream that holds the 200 bytes it touches. *)
Lemma read_header_full single_type lgadget s :
  0 <= BytesIO.tell s ->
  200 <= BytesIO.remaining s ->
  let h := unpack_from 0 gadget_header_fmt (header_bytes s) in
  read_header single_type lgadget s =
  (Returns (make_header (if lgadget then lgadget_remap h else h),
            if lgadget then 1 else single_type),
   BytesIO.mk (BytesIO.getvalue s) (BytesIO.tell s + 200)
              (Z.max (BytesIO.high s) (BytesIO.tell s + 200))).
Proof.
  intros Ht Hr h. unfold read_header.
  change (calcsize gadget_header_fmt) with 196.
  unfold bind at 1. unfold seek at 1.
  unfold bind at 1. unfold read at 1.
  destruct (BytesIO.read _ _) as [raw s1] eqn:Hread.
  pose proof (read_spec _ _ _ _ Hread ltac:(lia)) as Hspec.
  destruct Hspec as (Hraw & Hlen & Hg & Htell & _ & _).
  rewrite remaining_seek in Hlen by lia.
  assert (Hl : length raw = 196%nat) by lia.
  assert (Hs1 : s1 = BytesIO.mk (BytesIO.getvalue s) (BytesIO.tell s + 200)
                       (Z.max (BytesIO.high s) (BytesIO.tell s + 200))).
  { unfold BytesIO.read in Hread. change (196 <? 0) with false in Hread.
    cbv iota in Hread. injection Hread as Hr1 Hr2. rewrite Hr1 in Hr2.
    rewrite <- Hr2. rewrite Hl.
    cbn [BytesIO.seek_cur BytesIO.tell BytesIO.getvalue BytesIO.high].
    destruct raw; [discriminate Hl|]. f_equal; lia. }
  unfold bind at 1. unfold lift at 1. unfold unpack.
  change (calcsize gadget_header_fmt) with 196.
  rewrite Hl. change (Z.of_nat 196 =? 196) with true. cbv iota.
  assert (Hb : raw = header_bytes s).
  { rewrite Hraw. unfold header_bytes. cbn [BytesIO.seek_cur BytesIO.tell
      BytesIO.getvalue]. rewrite Z.max_r by lia. reflexivity. }
  subst h. rewrite <- Hb. rewrite <- Hs1.
  destruct lgadget; reflexivity.
Qed.

(** The header phase on a stream that ends inside those 200 bytes. *)
Lemma read_header_short single_type lgadget s :
  0 <= BytesIO.tell s ->
  BytesIO.remaining s < 200 ->
  fst (read_header single_type lgadget s) = Raises (struct_error 196).
Proof.
  intros Ht Hr. unfold read_header.
  change (calcsize gadget_header_fmt) with 196.
  unfold bind at 1. unfold seek at 1.
  unfold bind at 1. unfold read at 1.
  destruct (BytesIO.read _ _) as [raw s1] eqn:Hread.
  pose proof (read_spec _ _ _ _ Hread ltac:(lia)) as Hspec.
  destruct Hspec as (_ & Hlen & _).
  rewrite remaining_seek in Hlen by lia.
  unfold bind at 1. unfold lift at 1. unfold unpack.
  change (calcsize gadget_header_fmt) with 196.
  destruct (Z.eqb_spec (Z.of_nat (length raw)) 196); [lia|reflexivity].
Qed.

Lemma bind_apply {A B} (m : M A) (k : A -> M B) s :
  bind m k s =
  match m s with
  | (Returns a, s') => k a s'
  | (Raises e, s') => (Raises e, s')
  end.
Proof. reflexivity. Qed.

(** The selector passed in only shows in the selector handed on. *)
Lemma read_header_selector single_type lgadget s :
  read_header single_type lgadget s =
  match read_header 0 lgadget s with
  | (Returns (hd, _), s') =>
      (Returns (hd, if lgadget then 1 else single_type), s')
  | (Raises e, s') => (Raises e, s')
  end.
Proof.
  unfold read_header, bind, seek, read, lift, pure.
  destruct (BytesIO.read _ _) as [raw s1].
  destruct (unpack gadget_header_fmt raw); [|reflexivity].
  destruct lgadget; reflexivity.
Qed.

(** The l-gadget decode of the header against the plain one. *)
Lemma read_header_lgadget single_type s :
  read_header single_type true s =
  match read_header single_type false s with
  | (Returns (hd, _), s') => (Returns (lgadget_fields hd, 1), s')
  | (Raises e, s') => (Raises e, s')
  end.
Proof.
  unfold read_header, bind, seek, read, lift, pure.
  destruct (BytesIO.read _ _) as [raw s1].
  destruct (unpack gadget_header_fmt raw) as [h|e] eqn:Hu; [|reflexivity].
  apply unpack_length in Hu. now rewrite (make_header_lgadget h Hu).
Qed.

(** ** The loop *)

(** An iteration leaves [ret] alone or appends one array to it. *)
Lemma block_body_ret header mass_npart single_type i b more ret s k ret' s' :
  block_body header mass_npart single_type i b more ret s
  = (Returns (k, ret'), s') ->
  ret' = ret \/ exists a, ret' = ret ++ [Array a].
Proof.
  unfold block_body.
  destruct (block_setup header mass_npart i) as [|fmt fmt_64 c np].
  - intros [= <- <- <-]. eauto.
  - unfold bind at 1. unfold read at 1.
    destruct (BytesIO.read 4 s) as [raw s1].
    unfold bind at 1. unfold lift at 1.
    destruct (unpack [c_I] raw) as [u|e]; [|discriminate].
    unfold bind at 1. unfold lift at 1.
    destruct (check_size _ _ _ _) as [d|e]; [|discriminate].
    destruct b; cbn [negb].
    + intros H. apply read_block_dtype in H. destruct H as (a & -> & _).
      eauto.
    + unfold skip_block, bind, seek, pure. intros [= <- <- <-]. auto.
Qed.

(** The loop only ever appends to [ret]. *)
Lemma walk_ret header mass_npart single_type blocks_to_read :
  forall todo ret s r s',
    walk header mass_npart single_type blocks_to_read todo ret s
    = (Returns r, s') ->
    exists tail, r = ret ++ tail.
Proof.
  induction todo as [|[i b] rest IH]; intros ret s r s'; cbn [walk].
  - intros [= <- <-]. exists []. now rewrite app_nil_r.
  - unfold bind at 1.
    destruct (block_body _ _ _ _ _ _ _ _) as [[[k ret1]|e] s1] eqn:Hb;
      [|discriminate].
    apply block_body_ret in Hb.
    destruct k.
    + intros [= <- <-].
      destruct Hb as [->|(a & ->)]; [exists []; now rewrite app_nil_r|eauto].
    + intros H. apply IH in H. destruct H as (tail & ->).
      destruct Hb as [->|(a & ->)]; [eauto|].
      rewrite <- app_assoc. eauto.
Qed.

(** A successful call hands back the header the header phase decoded. *)
Lemma call_header read_pos read_vel read_id read_mass single_type lgadget
    s r s' :
  read_gadget_snapshot read_pos read_vel read_id read_mass single_type
    lgadget s = (Returns r, s') ->
  exists hd st s0,
    read_header single_type lgadget s = (Returns (hd, st), s0)
    /\ header_of r = Some hd.
Proof.
  unfold read_gadget_snapshot. unfold bind at 1.
  destruct (read_header single_type lgadget s) as [[[hd st]|e] s0];
    [|discriminate].
  destruct (negb _).
  - intros [= <- <-]. now exists hd, st, s0.
  - unfold bind at 1. unfold seek at 1.
    unfold bind at 1. unfold seek at 1.
    unfold bind at 1.
    destruct (walk _ _ _ _ _ _ _) as [[l|e] s1] eqn:Hw; [|discriminate].
    apply walk_ret in Hw. destruct Hw as (tail & ->).
    intros [= <- <-]. now exists hd, st, s0.
Qed.

(** ** Calls that request no block *)

(** C2 (as the code has it): when no block is requested, a call on a
    stream that holds the 200 bytes up to the end of the header fields
    hands back the decoded header and leaves the stream 200 bytes further
    on, right after the 196 bytes of header fields: the 60 bytes of
    padding and the trailing marker of the header record are not
    consumed, and nothing past the fields has been read. *)
Theorem header_only_call :
  forall single_type lgadget s,
    0 <= BytesIO.tell s ->
    200 <= BytesIO.remaining s ->
    exists r,
      read_gadget_snapshot false false false false single_type lgadget s
      = (Returns r,
         BytesIO.mk (BytesIO.getvalue s) (BytesIO.tell s + 200)
                    (Z.max (BytesIO.high s) (BytesIO.tell s + 200)))
      /\ header_of r
         = Some (make_header
                   (let h := unpack_from 0 gadget_header_fmt (header_bytes s)
                    in if lgadget then lgadget_remap h else h)).
Proof.
  intros single_type lgadget s Ht Hr.
  unfold read_gadget_snapshot. unfold bind at 1.
  rewrite (read_header_full single_type lgadget s Ht Hr).
  cbn [py_any orb negb]. cbv zeta. unfold pure.
  eexists. split; reflexivity.
Qed.

Lemma header_only_call_witness :
  0 <= BytesIO.tell (BytesIO.open file57)
  /\ 200 <= BytesIO.remaining (BytesIO.open file57)
  /\ exists r,
      read_gadget_snapshot false false false false (-1) false
        (BytesIO.open file57)
      = (Returns r, BytesIO.mk file57 200 200)
      /\ header_of r = Some (make_header h57).
Proof.
  assert (Ht : 0 <= BytesIO.tell (BytesIO.open file57)) by (cbn; lia).
  assert (Hr : 200 <= BytesIO.remaining (BytesIO.open file57))
    by (vm_compute; discriminate).
  split; [exact Ht|]. split; [exact Hr|].
  destruct (header_only_call (-1) false (BytesIO.open file57) Ht Hr)
    as (r & H1 & H2).
  exists r. split; [exact H1|].
  rewrite H2. vm_compute. reflexivity.
Defined.

(** On [file57] the call stops at offset 200, inside the header record,
    which ends at offset 264; and what comes back is the bare header, not
    a tuple around it. *)
Lemma header_only_call_counterexample :
  let run := read_gadget_snapshot false false false false (-1) false
               (BytesIO.open file57) in
  fst run = Returns (ret_header (make_header h57))
  /\ BytesIO.tell (snd run) = 200
  /\ Z.of_nat (length (header_record h57)) = 264
  /\ ~ (fst run = Returns (ret_tuple [Header (make_header h57)])
        /\ BytesIO.tell (snd run)
           = Z.of_nat (length (header_record h57))).
Proof.
  assert (H : fst (read_gadget_snapshot false false false false (-1) false
                (BytesIO.open file57))
              = Returns (ret_header (make_header h57))
              /\ BytesIO.tell
                   (snd (read_gadget_snapshot false false false false (-1)
                           false (BytesIO.open file57))) = 200).
  { split; vm_compute; reflexivity. }
  destruct H as [H1 H2]. cbv zeta.
  split; [exact H1|]. split; [exact H2|].
  split; [vm_compute; reflexivity|].
  rewrite H1. intros [H _]. discriminate H.
Qed.

(** ** The l-gadget variant *)

(** C3 (as the code has it): with [lgadget=True] the decoded header is
    the plain decode of the same bytes except for three slots of the
    count arrays: [NallHW[0]] is cleared, [NallHW[1]] receives what the
    plain decode has as [npartTotal[2]], and [npartTotal[2]] is cleared.
    The entropy-ICS flag and the cooling flag are left as decoded.  The
    single-type selector is forced to 1 whatever the caller passed. *)
Theorem lgadget_header :
  forall single_type s,
    read_header single_type true s =
      match read_header single_type false s with
      | (Returns (hd, _), s') => (Returns (lgadget_fields hd, 1), s')
      | (Raises e, s') => (Raises e, s')
      end
    /\ (forall read_pos read_vel read_id read_mass r s',
          read_gadget_snapshot read_pos read_vel read_id read_mass
            single_type true s = (Returns r, s') ->
          exists hd s0,
            read_header single_type false s = (Returns (hd, single_type), s0)
            /\ header_of r = Some (lgadget_fields hd)
            /\ flag_entr_ics (lgadget_fields hd) = flag_entr_ics hd
            /\ flag_cooling (lgadget_fields hd) = flag_cooling hd)
    /\ (forall read_pos read_vel read_id read_mass,
          read_gadget_snapshot read_pos read_vel read_id read_mass
            single_type true s
          = read_gadget_snapshot read_pos read_vel read_id read_mass
              1 true s).
Proof.
  intros single_type s. split; [apply read_header_lgadget|]. split.
  - intros rp rv ri rm r s' H.
    apply call_header in H. destruct H as (hd' & st & s0 & Hh & Hr).
    rewrite read_header_lgadget in Hh.
    rewrite (read_header_selector single_type false s) in Hh |- *.
    destruct (read_header 0 false s) as [[[hd x]|e] s1]; [|discriminate].
    injection Hh as <- <- <-.
    exists hd, s1. repeat split. exact Hr.
  - intros rp rv ri rm. unfold read_gadget_snapshot.
    rewrite (bind_apply (read_header single_type true)).
    rewrite (bind_apply (read_header 1 true)).
    rewrite (read_header_selector single_type true s).
    rewrite (read_header_selector 1 true s).
    reflexivity.
Qed.

(** On [file57], whose header slots hold their own index: after the
    l-gadget decode the entropy-ICS flag (slot 36) and the cooling flag
    (slot 22) are still there, and [NallHW] has received 18, the old
    [npartTotal[2]], not the cooling flag. *)
Lemma lgadget_header_counterexample :
  exists hd,
    fst (read_gadget_snapshot false false false false (-1) true
           (BytesIO.open file57)) = Returns (ret_header hd)
    /\ flag_entr_ics hd = 36
    /\ flag_cooling hd = 22
    /\ NallHW hd = [0; 18; 32; 33; 34; 35]
    /\ npartTotal hd = [16; 17; 0; 19; 20; 21]
    /\ ~ (flag_entr_ics hd = 0 /\ flag_cooling hd = 0
          /\ In 22 (NallHW hd)).
Proof.
  eexists. split; [vm_compute; reflexivity|].
  cbn [flag_entr_ics flag_cooling NallHW npartTotal].
  repeat (split; [reflexivity|]).
  intros [H _]. discriminate H.
Qed.

(** ** Calls that request a block *)

(** A call that requests a block, on a stream that holds the header
    fields, is the block loop started 264 bytes further on. *)
Lemma call_blocks read_pos read_vel read_id read_mass single_type lgadget s :
  0 <= BytesIO.tell s ->
  200 <= BytesIO.remaining s ->
  py_any [read_pos; read_vel; read_id; read_mass] = true ->
  let hd := decoded_header lgadget s in
  read_gadget_snapshot read_pos read_vel read_id read_mass single_type
    lgadget s
  = as_tuple
      (walk hd (mass_npart_of hd) (selector_in_force single_type lgadget)
         [read_pos; read_vel; read_id; read_mass]
         [(0%nat, read_pos); (1%nat, read_vel); (2%nat, read_id);
          (3%nat, read_mass)]
         [Header hd] (after_header s)).
Proof.
  intros Ht Hr Hany hd. unfold read_gadget_snapshot.
  rewrite bind_apply. 
  rewrite (read_header_full single_type lgadget s Ht Hr).
  cbv zeta. 
  fold (decoded_header lgadget s). fold hd.
  rewrite Hany. cbn [negb].
  rewrite bind_apply. unfold seek at 1.
  rewrite bind_apply. unfold seek at 1.
  rewrite bind_apply.
  change (calcsize gadget_header_fmt) with 196.
  assert (Hs : BytesIO.seek_cur 4
                 (BytesIO.seek_cur (256 - 196)
                    (BytesIO.mk (BytesIO.getvalue s) (BytesIO.tell s + 200)
                       (Z.max (BytesIO.high s) (BytesIO.tell s + 200))))
               = after_header s).
  { unfold after_header, BytesIO.seek_cur.
    cbn [BytesIO.getvalue BytesIO.tell BytesIO.high]. f_equal. lia. }
  rewrite Hs. fold (selector_in_force single_type lgadget).
  cbn [enumerate_from]. unfold as_tuple.
  destruct (walk _ _ _ _ _ _ _) as [[l|e] s']; reflexivity.
Qed.

(** A call on a stream that ends inside the header fields. *)
Lemma call_header_short read_pos read_vel read_id read_mass single_type
    lgadget s :
  0 <= BytesIO.tell s ->
  BytesIO.remaining s < 200 ->
  fst (read_gadget_snapshot read_pos read_vel read_id read_mass single_type
         lgadget s) = Raises (struct_error 196).
Proof.
  intros Ht Hr. unfold read_gadget_snapshot. rewrite bind_apply.
  pose proof (read_header_short single_type lgadget s Ht Hr) as H.
  destruct (read_header single_type lgadget s) as [[x|e] s'];
    cbn [fst] in H |- *.
  - discriminate H.
  - injection H as ->. reflexivity.
Qed.

(** ** Blocks whose length fits neither width *)

(** C9 (as the code has it): when the declared length of a block fits
    neither width the loop stops there with a [ValueError] whose message is
    the fixed text 'Invalid block size in file!', the same for every block
    kind and every length, and a call whose position block is such a block
    delivers just that error to its caller.  The error carries neither the
    block kind nor a byte count. *)
Theorem invalid_block_size_error :
  (forall header mass_npart single_type blocks_to_read i b rest ret s
          fmt fmt_64 c np raw s1,
      block_setup header mass_npart i = Geometry fmt fmt_64 c np ->
      BytesIO.read 4 s = (raw, s1) ->
      length raw = 4%nat ->
      le_uint raw <> py_sum np * c * 4 ->
      le_uint raw <> py_sum np * c * 8 ->
      walk header mass_npart single_type blocks_to_read ((i, b) :: rest)
        ret s
      = (Raises (ValueError "Invalid block size in file!"), s1))
  /\ (forall read_pos read_vel read_id read_mass single_type lgadget s,
        0 <= BytesIO.tell s ->
        268 <= BytesIO.remaining s ->
        py_any [read_pos; read_vel; read_id; read_mass] = true ->
        let L := u32_at (BytesIO.getvalue s) (BytesIO.tell s + 264) in
        let N := py_sum (npart (decoded_header lgadget s)) in
        L <> N * 3 * 4 ->
        L <> N * 3 * 8 ->
        fst (read_gadget_snapshot read_pos read_vel read_id read_mass
               single_type lgadget s)
        = Raises (ValueError "Invalid block size in file!")).
Proof.
  assert (Hwalk :
    forall header mass_npart single_type blocks_to_read i b rest ret s
           fmt fmt_64 c np raw s1,
      block_setup header mass_npart i = Geometry fmt fmt_64 c np ->
      BytesIO.read 4 s = (raw, s1) ->
      length raw = 4%nat ->
      le_uint raw <> py_sum np * c * 4 ->
      le_uint raw <> py_sum np * c * 8 ->
      walk header mass_npart single_type blocks_to_read ((i, b) :: rest)
        ret s
      = (Raises (ValueError "Invalid block size in file!"), s1)).
  { intros header mass_npart single_type blocks_to_read i b rest ret s
           fmt fmt_64 c np raw s1 Hs Hr Hl H4 H8.
    destruct (block_setup_geometry _ _ _ _ _ _ _ Hs) as (Hf & _ & _).
    assert (Hi : itemsize fmt = 4 /\ itemsize fmt_64 = 8).
    { destruct (i =? 2)%nat; injection Hf as -> ->; now cbn. }
    destruct Hi as [Hi4 Hi8].
    cbn [walk]. rewrite bind_apply.
    erewrite block_body_prefix by eassumption.
    rewrite check_size_invalid; [reflexivity | lia | lia]. }
  split; [exact Hwalk|].
  intros rp rv ri rm st lg s Ht Hr Hany L N H4 H8.
  rewrite call_blocks by (assumption || lia). cbv zeta.
  destruct (BytesIO.read 4 (after_header s)) as [raw s1] eqn:Hread.
  pose proof (read_spec _ _ _ _ Hread ltac:(lia)) as (Hraw & Hlen & _).
  rewrite remaining_eq in Hlen, Hr by (cbn; lia).
  cbn [after_header BytesIO.getvalue BytesIO.tell] in Hlen.
  assert (Hl : length raw = 4%nat) by lia.
  assert (HL : le_uint raw = L).
  { subst L. rewrite Hraw. reflexivity. }
  erewrite (Hwalk _ _ _ _ 0%nat) by
    (try eassumption; try reflexivity; rewrite HL; assumption).
  reflexivity.
Qed.

Lemma invalid_block_size_error_witness :
  let s := BytesIO.open file57_bad_pos in
  0 <= BytesIO.tell s
  /\ 268 <= BytesIO.remaining s
  /\ u32_at (BytesIO.getvalue s) (BytesIO.tell s + 264) = 5
  /\ py_sum (npart (decoded_header false s)) = 12
  /\ fst (read_gadget_snapshot true false false false (-1) false s)
     = Raises (ValueError "Invalid block size in file!").
Proof.
  intros s.
  assert (Ht : 0 <= BytesIO.tell s) by (cbn; lia).
  assert (Hr : 268 <= BytesIO.remaining s) by (vm_compute; discriminate).
  assert (HL : u32_at (BytesIO.getvalue s) (BytesIO.tell s + 264) = 5)
    by (vm_compute; reflexivity).
  assert (HN : py_sum (npart (decoded_header false s)) = 12)
    by (vm_compute; reflexivity).
  repeat (split; [assumption|]).
  refine (proj2 invalid_block_size_error true false false false (-1) false
            s Ht Hr eq_refl _ _); rewrite HL, HN; lia.
Defined.

(** A position block declared 5 bytes long and an identifier block declared
    7 bytes long make their calls fail with one and the same error value,
    so no function of the error gives back the block kind or the length. *)
Lemma invalid_block_size_error_counterexample :
  let e1 := fst (read_gadget_snapshot true false false false (-1) false
                   (BytesIO.open file57_bad_pos)) in
  let e2 := fst (read_gadget_snapshot false false true false (-1) false
                   (BytesIO.open file57_bad_id)) in
  e1 = Raises (ValueError "Invalid block size in file!")
  /\ e2 = e1
  /\ ~ exists info : exn -> nat * Z,
         (forall e, e1 = Raises e -> info e = (0%nat, 5))
         /\ (forall e, e2 = Raises e -> info e = (2%nat, 7)).
Proof.
  assert (H1 : fst (read_gadget_snapshot true false false false (-1) false
                      (BytesIO.open file57_bad_pos))
               = Raises (ValueError "Invalid block size in file!"))
    by (vm_compute; reflexivity).
  assert (H2 : fst (read_gadget_snapshot false false true false (-1) false
                      (BytesIO.open file57_bad_id))
               = Raises (ValueError "Invalid block size in file!"))
    by (vm_compute; reflexivity).
  cbv zeta. rewrite H1, H2.
  split; [reflexivity|]. split; [reflexivity|].
  intros (info & Ha & Hb).
  specialize (Ha _ eq_refl). specialize (Hb _ eq_refl).
  rewrite Ha in Hb. discriminate Hb.
Qed.

(** ** Sums over particle types *)

Lemma py_sum_app l1 l2 : py_sum (l1 ++ l2) = py_sum l1 + py_sum l2.
Proof. induction l1 as [|x r IH]; cbn [py_sum app]; lia. Qed.

Lemma py_sum_nonneg l : Forall (Z.le 0) l -> 0 <= py_sum l.
Proof. induction 1; cbn [py_sum]; lia. Qed.

Lemma py_sum_split l t x :
  nth_error l t = Some x ->
  py_sum l = py_sum (firstn t l) + x + py_sum (skipn (S t) l).
Proof.
  intros H. rewrite <- (firstn_skipn_middle t l H) at 1.
  rewrite py_sum_app. cbn [py_sum]. lia.
Qed.

Lemma Forall_firstn_skipn {A} (P : A -> Prop) n l :
  Forall P l -> Forall P (firstn n l) /\ Forall P (skipn n l).
Proof.
  intros H. rewrite <- (firstn_skipn n l) in H. now apply Forall_app in H.
Qed.

(** The three spans of a block under a selector: the types before the
    selected one, the selected one, the types after it. *)
Lemma spans_nonneg np t :
  Forall (Z.le 0) np ->
  (t < length np)%nat ->
  0 <= py_sum (firstn t np) /\ 0 <= nth t np 0
  /\ 0 <= py_sum (skipn (S t) np)
  /\ py_sum np
     = py_sum (firstn t np) + nth t np 0 + py_sum (skipn (S t) np).
Proof.
  intros Hnn Ht.
  pose proof (nth_error_nth' np 0 Ht) as Hn.
  pose proof (py_sum_split np t _ Hn) as Hs.
  destruct (Forall_firstn_skipn (Z.le 0) t np Hnn) as [Hf _].
  destruct (Forall_firstn_skipn (Z.le 0) (S t) np Hnn) as [_ Hk].
  apply py_sum_nonneg in Hf, Hk.
  assert (0 <= nth t np 0).
  { rewrite Forall_forall in Hnn. apply Hnn. now apply nth_In. }
  auto.
Qed.

(** ** Materialising a block *)

(** Lines 114-118 when the selector is in range. *)
Lemma select_type np single_type spp s :
  (single_type >? -1) = true ->
  (Z.to_nat single_type < length np)%nat ->
  bind (seek (py_sum (firstn (Z.to_nat single_type) np) * spp))
       (fun _ => lift (index np single_type)) s
  = (Returns (nth (Z.to_nat single_type) np 0),
     BytesIO.seek_cur (py_sum (firstn (Z.to_nat single_type) np) * spp) s).
Proof.
  intros _ Ht. rewrite bind_apply. unfold seek, lift, index.
  now rewrite (nth_error_nth' np 0 Ht).
Qed.

(** Lines 119-127 on a stream that holds the [n * size_per_part] bytes
    asked for. *)
Lemma materialise_from np single_type d c more ret (n : Z) s :
  0 <= BytesIO.tell s -> 0 < c -> 0 <= n ->
  n * (c * itemsize d) <= BytesIO.remaining s ->
  let spp := c * itemsize d in
  let after := if single_type >? -1
               then py_sum (skipn (Z.to_nat (single_type + 1)) np) * spp
               else 0 in
  0 <= after ->
  exists s',
    (raw <- read (n * spp) ;;
     data <- lift (frombuffer raw d) ;;
     data <- (if c >? 1 then lift (set_shape data [n; c]) else pure data) ;;
     let ret := ret ++ [Array data] in
     if negb more then pure (Break, ret)
     else
       (if single_type >? -1 then
          seek (py_sum (skipn (Z.to_nat (single_type + 1)) np) * spp)
        else pure tt) ;;;
       seek 4 ;;;
       pure (Continue, ret)) s
    = (Returns (if more then Continue else Break,
                ret ++ [Array (mk_ndarray d
                                 (if c >? 1 then [n; c] else [n * c])
                                 (firstn (Z.to_nat (n * spp))
                                    (skipn (Z.to_nat (BytesIO.tell s))
                                       (BytesIO.getvalue s))))]), s')
    /\ BytesIO.getvalue s' = BytesIO.getvalue s
    /\ BytesIO.tell s'
       = BytesIO.tell s + n * spp + (if more then after + 4 else 0)
    /\ BytesIO.high s <= BytesIO.high s'
    /\ BytesIO.high s' <= Z.max (BytesIO.high s) (BytesIO.tell s + n * spp).
Proof.
  intros Ht Hc Hn Hav spp after Hafter.
  assert (Hw : 0 < itemsize d) by (destruct d; cbn; lia).
  assert (Hspp : 0 <= n * spp) by (subst spp; nia).
  rewrite bind_apply. unfold read at 1.
  destruct (BytesIO.read (n * spp) s) as [raw s1] eqn:Hread.
  pose proof (read_spec _ _ _ _ Hread Hspp)
    as (Hraw & Hlen & Hg & Htell & Hh1 & Hh2).
  fold spp in Hav. rewrite Z.min_l in Hlen by lia.
  rewrite bind_apply. unfold lift at 1. unfold frombuffer.
  rewrite Hlen.
  assert (Hmod : (n * spp) mod itemsize d = 0).
  { subst spp. rewrite Z.mul_assoc. apply Z_mod_mult. }
  assert (Hdiv : n * spp / itemsize d = n * c).
  { subst spp. rewrite Z.mul_assoc. apply Z_div_mult. lia. }
  rewrite Hmod, Hdiv. cbn [Z.eqb].
  rewrite bind_apply.
  assert (Hshape :
    (if c >? 1
     then lift (set_shape (mk_ndarray d [n * c] raw) [n; c])
     else pure (mk_ndarray d [n * c] raw)) s1
    = (Returns (mk_ndarray d (if c >? 1 then [n; c] else [n * c]) raw), s1)).
  { destruct (c >? 1); [|reflexivity].
    unfold lift, set_shape. cbn [arr_shape arr_dtype arr_data py_prod].
    replace (n * (c * 1) =? n * c * 1) with true; [reflexivity|].
    symmetry. apply Z.eqb_eq. ring. }
  rewrite Hshape. cbv zeta. rewrite <- Hraw.
  destruct more; cbn [negb].
  - rewrite bind_apply.
    assert (Hseek :
      exists s2,
        (if single_type >? -1
         then seek (py_sum (skipn (Z.to_nat (single_type + 1)) np) * spp)
         else pure tt) s1 = (Returns tt, s2)
        /\ BytesIO.getvalue s2 = BytesIO.getvalue s1
        /\ BytesIO.tell s2 = BytesIO.tell s1 + after
        /\ BytesIO.high s2 = BytesIO.high s1).
    { subst after. destruct (single_type >? -1).
      - eexists. split; [reflexivity|]. apply seek_spec; lia.
      - exists s1. split; [reflexivity|]. repeat split. lia. }
    destruct Hseek as (s2 & -> & Hg2 & Ht2 & Hh).
    rewrite bind_apply. unfold seek at 1. unfold pure.
    eexists. split; [reflexivity|].
    destruct (seek_spec 4 s2) as (Hg3 & Ht3 & Hh3); [lia|lia|].
    rewrite Hg3, Ht3, Hh3, Hg2, Ht2, Hh, Hg, Htell.
    repeat split; lia.
  - unfold pure. eexists. split; [reflexivity|].
    rewrite Hg, Htell. repeat split; lia.
Qed.

(** Lines 114-127 on a stream that holds the block up to the end of the
    items asked for: the array handed back and where the stream is left. *)
Lemma read_block_full np single_type d c more ret s :
  0 <= BytesIO.tell s ->
  Forall (Z.le 0) np ->
  0 < c ->
  ((single_type >? -1) = true -> (Z.to_nat single_type < length np)%nat) ->
  let spp := c * itemsize d in
  let before := if single_type >? -1
                then py_sum (firstn (Z.to_nat single_type) np) else 0 in
  let this := if single_type >? -1
              then nth (Z.to_nat single_type) np 0 else py_sum np in
  let after := if single_type >? -1
               then py_sum (skipn (Z.to_nat (single_type + 1)) np) else 0 in
  (before + this) * spp <= BytesIO.remaining s ->
  exists s',
    read_block np single_type d c spp more ret s
    = (Returns (if more then Continue else Break,
                ret ++ [Array (mk_ndarray d
                                 (if c >? 1 then [this; c] else [this * c])
                                 (firstn (Z.to_nat (this * spp))
                                    (skipn (Z.to_nat (BytesIO.tell s
                                                      + before * spp))
                                       (BytesIO.getvalue s))))]), s')
    /\ BytesIO.getvalue s' = BytesIO.getvalue s
    /\ BytesIO.tell s'
       = BytesIO.tell s + (before + this) * spp
         + (if more then after * spp + 4 else 0)
    /\ BytesIO.high s <= BytesIO.high s'
    /\ BytesIO.high s'
       <= Z.max (BytesIO.high s) (BytesIO.tell s + (before + this) * spp)
    /\ before + this + after = py_sum np
    /\ 0 <= before /\ 0 <= this /\ 0 <= after.
Proof.
  intros Ht Hnn Hc Hin spp before this after Hav.
  assert (Hw : 0 < itemsize d) by (destruct d; cbn; lia).
  assert (Hspp : 0 < spp) by (subst spp; nia).
  assert (Hspans : before + this + after = py_sum np
                   /\ 0 <= before /\ 0 <= this /\ 0 <= after).
  { subst before this after. destruct (Z.gtb_spec single_type (-1)).
    - specialize (Hin eq_refl).
      replace (Z.to_nat (single_type + 1)) with (S (Z.to_nat single_type))
        by lia.
      pose proof (spans_nonneg np (Z.to_nat single_type) Hnn Hin). lia.
    - pose proof (py_sum_nonneg np Hnn). lia. }
  destruct Hspans as (Hsum & Hb & Hth & Ha).
  unfold read_block. rewrite bind_apply.
  set (s0 := BytesIO.seek_cur (before * spp) s).
  assert (Hsel :
    (if single_type >? -1
     then bind (seek (py_sum (firstn (Z.to_nat single_type) np) * spp))
               (fun _ => lift (index np single_type))
     else pure (py_sum np)) s
    = (Returns this, if single_type >? -1 then s0 else s)).
  { subst this before s0. destruct (single_type >? -1) eqn:E.
    - now apply select_type; auto.
    - reflexivity. }
  rewrite Hsel. clear Hsel. cbv beta iota zeta.
  assert (H0 : BytesIO.getvalue s0 = BytesIO.getvalue s
               /\ BytesIO.tell s0 = BytesIO.tell s + before * spp
               /\ BytesIO.high s0 = BytesIO.high s)
    by (apply seek_spec; nia).
  destruct H0 as (Hg0 & Ht0 & Hh0).
  assert (Hr0 : BytesIO.remaining s0 = Z.max 0 (BytesIO.remaining s
                                                 - before * spp))
    by (apply remaining_seek; nia).
  set (s1 := if single_type >? -1 then s0 else s).
  assert (H1 : BytesIO.getvalue s1 = BytesIO.getvalue s
               /\ BytesIO.tell s1 = BytesIO.tell s + before * spp
               /\ BytesIO.high s1 = BytesIO.high s
               /\ this * spp <= BytesIO.remaining s1).
  { subst s1 before. destruct (single_type >? -1).
    - repeat split; try assumption. nia.
    - repeat split; nia. }
  destruct H1 as (Hg1 & Ht1 & Hh1 & Hr1).
  assert (Hts1 : 0 <= BytesIO.tell s1) by nia.
  assert (Haft : 0 <= (if single_type >? -1
                       then py_sum (skipn (Z.to_nat (single_type + 1)) np)
                            * spp
                       else 0)).
  { subst after. destruct (single_type >? -1); nia. }
  destruct (materialise_from np single_type d c more ret this s1
              Hts1 Hc Hth Hr1 Haft)
    as (s' & Heq & Hg & Htl & Hha & Hhb).
  cbv zeta in Heq. fold spp in Heq, Htl, Hhb. exists s'.
  rewrite Heq, Hg, Htl, Hg1, Ht1. rewrite Hh1 in Hha, Hhb.
  split; [reflexivity|]. split; [reflexivity|].
  split.
  { subst after. destruct more; destruct (single_type >? -1); nia. }
  repeat split; try assumption; nia.
Qed.

(** ** Decoded headers *)

Lemma unpack_from_I fmt : forall off buf k,
  nth_error fmt k = Some c_I ->
  0 <= nth k (unpack_from off fmt buf) 0.
Proof.
  induction fmt as [|c r IH]; intros off buf k H.
  - destruct k; discriminate H.
  - destruct k as [|k]; cbn [unpack_from nth].
    + injection H as ->. apply le_uint_nonneg.
    + apply IH. exact H.
Qed.

Lemma decoded_header_well_formed lgadget s :
  well_formed (decoded_header lgadget s).
Proof.
  unfold decoded_header.
  set (h := unpack_from 0 gadget_header_fmt (header_bytes s)).
  assert (Hl : length h = 37%nat) by apply length_unpack_from.
  assert (Hk : forall k, (k < 6)%nat -> 0 <= nth k h 0).
  { intros k Hk. apply unpack_from_I.
    do 6 (destruct k as [|k]; [reflexivity|]). lia. }
  pose proof (Hk 0%nat ltac:(lia)) as H0.
  pose proof (Hk 1%nat ltac:(lia)) as H1.
  pose proof (Hk 2%nat ltac:(lia)) as H2.
  pose proof (Hk 3%nat ltac:(lia)) as H3.
  pose proof (Hk 4%nat ltac:(lia)) as H4.
  pose proof (Hk 5%nat ltac:(lia)) as H5.
  clear Hk. clearbody h.
  do 37 (destruct h as [|? h]; [discriminate Hl|]).
  destruct h; [|discriminate Hl].
  cbn [nth] in H0, H1, H2, H3, H4, H5.
  unfold well_formed.
  destruct lgadget; cbn; repeat split; repeat constructor; assumption.
Qed.

Lemma mass_npart_nonneg hd :
  Forall (Z.le 0) (npart hd) -> Forall (Z.le 0) (mass_npart_of hd).
Proof.
  unfold mass_npart_of. generalize (mass hd) as ms.
  induction (npart hd) as [|n r IH]; intros ms H.
  - destruct ms; constructor.
  - destruct ms as [|m ms]; [constructor|]. cbn [combine map fst snd].
    inversion H; subst. constructor; [destruct (float_truth m); lia|].
    now apply IH.
Qed.

Lemma mass_npart_length hd :
  well_formed hd -> length (mass_npart_of hd) = 6%nat.
Proof.
  intros (Hn & Hm & _). unfold mass_npart_of.
  rewrite length_map, length_combine, Hn, Hm. reflexivity.
Qed.

Lemma all_mass_fixed_sum hd :
  all_mass_fixed hd -> py_sum (mass_npart_of hd) = 0.
Proof.
  unfold all_mass_fixed, mass_npart_of. generalize (npart hd) as ns.
  induction (mass hd) as [|m r IH]; intros ns H; [reflexivity|].
  destruct ns as [|n ns]; [reflexivity|]. cbn [combine map fst snd py_sum].
  inversion H as [|? ? Hm Hr]; subst. rewrite Hm. now rewrite IH.
Qed.

(** The counts a block iteration works with are unsigned, and an in-range
    selector indexes them. *)
Lemma block_setup_counts hd i fmt fmt_64 c np :
  well_formed hd ->
  block_setup hd (mass_npart_of hd) i = Geometry fmt fmt_64 c np ->
  Forall (Z.le 0) np /\ length np = 6%nat /\ 0 < c.
Proof.
  intros Hwf Hs.
  destruct (block_setup_geometry _ _ _ _ _ _ _ Hs) as (_ & Hc & Hnp).
  destruct Hwf as (Hn & Hm & Hnn).
  split; [|split].
  - subst np. destruct (i =? 3)%nat; [now apply mass_npart_nonneg|exact Hnn].
  - subst np. destruct (i =? 3)%nat; [|exact Hn].
    now apply mass_npart_length.
  - subst c. destruct (i <? 2)%nat; lia.
Qed.

(** ** Single-type selection *)




(** ** Skipping against reading *)

Lemma check_size_ok fmt fmt_64 n L d :
  check_size fmt fmt_64 n L = Returns d -> L = n * itemsize d.
Proof.
  unfold check_size.
  destruct (Z.eqb_spec L (n * itemsize fmt)) as [E|E]; cbn [negb].
  - rewrite <- E, Z.eqb_refl. cbn [negb]. now intros [= <-].
  - destruct (Z.eqb_spec L (n * itemsize fmt_64)) as [E'|E']; cbn [negb].
    + now intros [= <-].
    + discriminate.
Qed.

(** Reading a leading marker that is there. *)
Lemma read_marker s raw s1 :
  0 <= BytesIO.tell s ->
  BytesIO.read 4 s = (raw, s1) ->
  (4 <= BytesIO.remaining s <-> length raw = 4%nat)
  /\ le_uint raw = u32_at (BytesIO.getvalue s) (BytesIO.tell s)
  /\ BytesIO.getvalue s1 = BytesIO.getvalue s
  /\ BytesIO.tell s1 = BytesIO.tell s + Z.of_nat (length raw)
  /\ BytesIO.high s <= BytesIO.high s1
  /\ BytesIO.high s1 <= Z.max (BytesIO.high s) (BytesIO.tell s1)
  /\ BytesIO.remaining s1
     = BytesIO.remaining s - Z.of_nat (length raw).
Proof.
  intros Ht Hr.
  pose proof (read_spec _ _ _ _ Hr ltac:(lia))
    as (Hraw & Hlen & Hg & Htl & Hh1 & Hh2).
  split; [lia|]. split; [now rewrite Hraw|].
  repeat (split; [assumption|]).
  rewrite (remaining_eq s1) by lia.
  rewrite (remaining_eq s Ht) in Hlen |- *. rewrite Hg, Htl. lia.
Qed.

(** C6 (as the code has it): for every block kind, on a stream that holds
    the payload the block declares, and with a later block still requested
    (as it is whenever a block is skipped), skipping the block and
    materialising it leave the stream at the same offset, the leading
    marker of the next record; and if the declared length fits neither
    width both fail alike. *)
Theorem skip_equals_read :
  forall hd single_type i ret s,
    well_formed hd ->
    -1 <= single_type < 6 ->
    0 <= BytesIO.tell s ->
    4 + u32_at (BytesIO.getvalue s) (BytesIO.tell s)
      <= BytesIO.remaining s ->
    let skipped :=
      block_body hd (mass_npart_of hd) single_type i false true ret s in
    let materialised :=
      block_body hd (mass_npart_of hd) single_type i true true ret s in
    match fst skipped, fst materialised with
    | Returns (k1, _), Returns (k2, _) =>
        k1 = k2
        /\ BytesIO.tell (snd skipped) = BytesIO.tell (snd materialised)
    | Raises e1, Raises e2 =>
        e1 = e2
        /\ BytesIO.tell (snd skipped) = BytesIO.tell (snd materialised)
    | _, _ => False
    end.
Proof.
  intros hd st i ret s Hwf Hst Ht Hav skipped materialised.
  subst skipped materialised.
  destruct (block_setup hd (mass_npart_of hd) i)
    as [|fmt fmt_64 c np] eqn:Hs.
  - unfold block_body. rewrite Hs. cbn. auto.
  - destruct (block_setup_counts hd i _ _ _ _ Hwf Hs) as (Hnn & Hlen & Hc).
    destruct (BytesIO.read 4 s) as [raw s1] eqn:Hr.
    pose proof (read_marker s raw s1 Ht Hr)
      as (Hfull & HL & Hg & Htl & _ & _ & Hrem).
    pose proof (le_uint_nonneg raw) as HL0.
    assert (Hl : length raw = 4%nat) by (apply Hfull; lia).
    rewrite !(block_body_prefix hd (mass_npart_of hd) st i _ true ret s
                fmt fmt_64 c np raw s1 Hs Hr Hl).
    destruct (check_size fmt fmt_64 (c * py_sum np) (le_uint raw))
      as [d|e] eqn:Hd; [|cbn; auto].
    apply check_size_ok in Hd. cbn [negb].
    assert (Hin : (st >? -1) = true -> (Z.to_nat st < length np)%nat).
    { intros H. apply Z.gtb_lt in H. lia. }
    assert (Hw : 0 < itemsize d) by (destruct d; cbn; lia).
    assert (Hspp : 0 < c * itemsize d) by (apply Z.mul_pos_pos; lia).
    rewrite <- HL, Hd in Hav.
    assert (Hin' : (st >? -1) = true ->
                   0 <= py_sum (skipn (Z.to_nat (st + 1)) np)
                   /\ py_sum (firstn (Z.to_nat st) np)
                      + nth (Z.to_nat st) np 0
                      + py_sum (skipn (Z.to_nat (st + 1)) np) = py_sum np).
    { intros H. specialize (Hin H). apply Z.gtb_lt in H.
      replace (Z.to_nat (st + 1)) with (S (Z.to_nat st)) by lia.
      pose proof (spans_nonneg np (Z.to_nat st) Hnn Hin). lia. }
    destruct (read_block_full np st d c true ret s1 ltac:(lia) Hnn Hc Hin)
      as (s' & Heq & _ & Htl' & _ & _ & Hsum & Hb & Hth & Ha).
    { rewrite Hrem, Hl. destruct (st >? -1).
      - destruct (Hin' eq_refl) as [Hk Hsum].
        assert (0 <= py_sum (skipn (Z.to_nat (st + 1)) np)
                     * (c * itemsize d))
          by (apply Z.mul_nonneg_nonneg; lia).
        nia.
      - nia. }
    rewrite Heq. unfold skip_block, bind, seek, pure. cbn [fst snd].
    split; [reflexivity|].
    rewrite Htl'. cbn [BytesIO.seek_cur BytesIO.tell].
    assert (Hn : 0 <= py_sum np * (c * itemsize d))
      by (rewrite <- Hsum; apply Z.mul_nonneg_nonneg; lia).
    rewrite !Z.max_r by lia.
    destruct (st >? -1); [rewrite <- Hsum|]; ring.
Qed.

Lemma skip_equals_read_witness :
  let hd := make_header h57 in
  let s := at_first_block in
  well_formed hd
  /\ 0 <= BytesIO.tell s
  /\ 4 + u32_at (BytesIO.getvalue s) (BytesIO.tell s)
       <= BytesIO.remaining s
  /\ match fst (block_body hd (mass_npart_of hd) (-1) 0 false true [] s),
           fst (block_body hd (mass_npart_of hd) (-1) 0 true true [] s) with
     | Returns (k1, _), Returns (k2, _) =>
         k1 = k2
         /\ BytesIO.tell
              (snd (block_body hd (mass_npart_of hd) (-1) 0 false true [] s))
            = BytesIO.tell
                (snd (block_body hd (mass_npart_of hd) (-1) 0 true true []
                        s))
     | Raises e1, Raises e2 =>
         e1 = e2
         /\ BytesIO.tell
              (snd (block_body hd (mass_npart_of hd) (-1) 0 false true [] s))
            = BytesIO.tell
                (snd (block_body hd (mass_npart_of hd) (-1) 0 true true []
                        s))
     | _, _ => False
     end.
Proof.
  intros hd s.
  assert (Hwf : well_formed hd).
  { repeat split; repeat constructor; lia. }
  assert (Ht : 0 <= BytesIO.tell s) by (cbn; lia).
  assert (Hav : 4 + u32_at (BytesIO.getvalue s) (BytesIO.tell s)
                <= BytesIO.remaining s) by (vm_compute; discriminate).
  split; [exact Hwf|]. split; [exact Ht|]. split; [exact Hav|].
  exact (skip_equals_read hd (-1) 0 [] s Hwf ltac:(lia) Ht Hav).
Defined.

(** [file57_fixed_mass] cut off 8 bytes into the identifier payload.
    Requesting identifiers and masses, the short payload comes back as a
    2-item array and the stream is left at offset 584; skipping the
    identifiers instead leaves it at offset 624.  Both calls return. *)
Lemma skip_equals_read_counterexample :
  let s := BytesIO.open (truncated 580 file57_fixed_mass) in
  let materialised :=
    read_gadget_snapshot false false true true (-1) false s in
  let skipped := read_gadget_snapshot false false false true (-1) false s in
  (exists hd a b, fst materialised
                  = Returns (ret_tuple [Header hd; Array a; Array b])
                  /\ arr_shape a = [2])
  /\ (exists hd b, fst skipped = Returns (ret_tuple [Header hd; Array b]))
  /\ BytesIO.tell (snd materialised) = 584
  /\ BytesIO.tell (snd skipped) = 624
  /\ BytesIO.tell (snd materialised) <> BytesIO.tell (snd skipped).
Proof.
  assert (H1 : BytesIO.tell
                 (snd (read_gadget_snapshot false false true true (-1) false
                         (BytesIO.open (truncated 580 file57_fixed_mass))))
               = 584) by (vm_compute; reflexivity).
  assert (H2 : BytesIO.tell
                 (snd (read_gadget_snapshot false false false true (-1) false
                         (BytesIO.open (truncated 580 file57_fixed_mass))))
               = 624) by (vm_compute; reflexivity).
  cbv zeta. rewrite H1, H2.
  split; [|split; [|repeat split; lia]].
  - do 3 eexists. split; [vm_compute; reflexivity|reflexivity].
  - do 2 eexists. vm_compute; reflexivity.
Qed.

(** ** Iterations that go on *)

(** With a later block still requested, an iteration over a block that
    is there goes on to the next one. *)
Lemma block_body_continues hd mass_npart single_type i b ret s
    fmt fmt_64 c np k ret' s' :
  block_setup hd mass_npart i = Geometry fmt fmt_64 c np ->
  block_body hd mass_npart single_type i b true ret s
  = (Returns (k, ret'), s') ->
  k = Continue.
Proof.
  intros Hs. unfold block_body. rewrite Hs.
  rewrite bind_apply. unfold read at 1.
  destruct (BytesIO.read 4 s) as [raw s1].
  rewrite bind_apply. unfold lift at 1.
  destruct (unpack [c_I] raw) as [u|e]; [|discriminate].
  rewrite bind_apply. unfold lift at 1.
  destruct (check_size _ _ _ _) as [d|e]; [|discriminate].
  destruct b; cbn [negb].
  - unfold read_block, bind, seek, read, lift, pure.
    destruct (single_type >? -1).
    + destruct (index np single_type); [|discriminate].
      destruct (BytesIO.read _ _) as [raw2 s2].
      destruct (frombuffer raw2 d); [|discriminate].
      destruct (c >? 1).
      * destruct (set_shape _ _); [|discriminate]. now intros [= <- _ _].
      * now intros [= <- _ _].
    + destruct (BytesIO.read _ _) as [raw2 s2].
      destruct (frombuffer raw2 d); [|discriminate].
      destruct (c >? 1).
      * destruct (set_shape _ _); [|discriminate]. now intros [= <- _ _].
      * now intros [= <- _ _].
  - unfold skip_block, bind, seek, pure. now intros [= <- _ _].
Qed.

(** ** Stopping early *)

(** The last requested block ends the loop. *)
Lemma block_body_last_breaks hd mass_npart single_type i ret s k ret' s' :
  block_body hd mass_npart single_type i true false ret s
  = (Returns (k, ret'), s') ->
  k = Break.
Proof.
  unfold block_body.
  destruct (block_setup hd mass_npart i) as [|fmt fmt_64 c np].
  - now intros [= <- _ _].
  - rewrite bind_apply. unfold read at 1.
    destruct (BytesIO.read 4 s) as [raw s1].
    rewrite bind_apply. unfold lift at 1.
    destruct (unpack [c_I] raw) as [u|e]; [|discriminate].
    rewrite bind_apply. unfold lift at 1.
    destruct (check_size _ _ _ _) as [d|e]; [|discriminate].
    cbn [negb].
    unfold read_block, bind, seek, read, lift, pure.
    destruct (single_type >? -1).
    + destruct (index np single_type); [|discriminate].
      destruct (BytesIO.read _ _) as [raw2 s2].
      destruct (frombuffer raw2 d); [|discriminate].
      destruct (c >? 1).
      * destruct (set_shape _ _); [|discriminate]. now intros [= <- _ _].
      * now intros [= <- _ _].
    + destruct (BytesIO.read _ _) as [raw2 s2].
      destruct (frombuffer raw2 d); [|discriminate].
      destruct (c >? 1).
      * destruct (set_shape _ _); [|discriminate]. now intros [= <- _ _].
      * now intros [= <- _ _].
Qed.

(** Blocks after the last requested one are never gone into. *)
Lemma walk_stops hd mass_npart single_type blocks_to_read i rest :
  py_any (skipn (S i) blocks_to_read) = false ->
  forall pre ret s,
    walk hd mass_npart single_type blocks_to_read
      (pre ++ (i, true) :: rest) ret s
    = walk hd mass_npart single_type blocks_to_read
        (pre ++ [(i, true)]) ret s.
Proof.
  intros Hlast. induction pre as [|[j b] pre IH]; intros ret s.
  - cbn [app walk]. rewrite !bind_apply, Hlast.
    destruct (block_body _ _ _ _ _ _ _ _) as [[[k r]|e] s1] eqn:Hb;
      [|reflexivity].
    now rewrite (block_body_last_breaks _ _ _ _ _ _ _ _ _ Hb).
  - cbn [app walk]. rewrite !bind_apply.
    destruct (block_body _ _ _ _ _ _ _ _) as [[[k r]|e] s1];
      [|reflexivity].
    destruct k; [reflexivity|apply IH].
Qed.

(** A skipped block that is gone through leaves the stream at the
    leading marker of the next record, having read the 4 marker bytes. *)
Lemma block_body_skip_ok hd mass_npart single_type i more ret s
    fmt fmt_64 c np k ret' s' :
  block_setup hd mass_npart i = Geometry fmt fmt_64 c np ->
  0 <= BytesIO.tell s ->
  block_body hd mass_npart single_type i false more ret s
  = (Returns (k, ret'), s') ->
  k = Continue /\ ret' = ret
  /\ BytesIO.getvalue s' = BytesIO.getvalue s
  /\ BytesIO.tell s' = next_record (BytesIO.getvalue s) (BytesIO.tell s)
  /\ 0 <= u32_at (BytesIO.getvalue s) (BytesIO.tell s)
  /\ BytesIO.high s <= BytesIO.high s'
  /\ BytesIO.high s' <= Z.max (BytesIO.high s) (BytesIO.tell s + 4).
Proof.
  intros Hs Ht.
  destruct (BytesIO.read 4 s) as [raw s1] eqn:Hr.
  pose proof (read_marker s raw s1 Ht Hr)
    as (_ & HL & Hg & Htl & Hh1 & Hh2 & _).
  pose proof (le_uint_nonneg raw) as HL0.
  destruct (Nat.eq_dec (length raw) 4) as [Hl|Hl].
  - rewrite (block_body_prefix hd mass_npart single_type i false more ret s
               fmt fmt_64 c np raw s1 Hs Hr Hl).
    destruct (check_size fmt fmt_64 (c * py_sum np) (le_uint raw))
      as [d|e] eqn:Hd; [|discriminate].
    apply check_size_ok in Hd. cbn [negb].
    unfold skip_block, bind, seek, pure. intros [= <- <- <-].
    replace (py_sum np * (c * itemsize d)) with (le_uint raw)
      by (rewrite Hd; ring).
    unfold next_record. rewrite <- HL.
    cbn [BytesIO.seek_cur BytesIO.getvalue BytesIO.tell BytesIO.high].
    rewrite Hl in Htl. repeat split; try assumption; lia.
  - rewrite (block_body_short_marker hd mass_npart single_type i false more
               ret s fmt fmt_64 c np raw s1 Hs Hr Hl).
    discriminate.
Qed.

(** Where the last requested block leaves the stream: no further than the
    end of the payload, nothing beyond that having been read. *)
Lemma read_block_last_bound np single_type d c ret s k ret' s' :
  0 <= BytesIO.tell s ->
  Forall (Z.le 0) np ->
  0 < c ->
  read_block np single_type d c (c * itemsize d) false ret s
  = (Returns (k, ret'), s') ->
  k = Break
  /\ (exists a, ret' = ret ++ [Array a])
  /\ BytesIO.getvalue s' = BytesIO.getvalue s
  /\ BytesIO.tell s' <= BytesIO.tell s + py_sum np * (c * itemsize d)
  /\ BytesIO.high s <= BytesIO.high s'
  /\ BytesIO.high s' <= Z.max (BytesIO.high s) (BytesIO.tell s').
Proof.
  intros Ht Hnn Hc H.
  assert (Hw : 0 < itemsize d) by (destruct d; cbn; lia).
  assert (Hspp : 0 < c * itemsize d) by (apply Z.mul_pos_pos; lia).
  pose proof (read_block_dtype _ _ _ _ _ _ _ _ _ _ _ H) as (a & Ha & _).
  revert H. unfold read_block. rewrite bind_apply.
  destruct (single_type >? -1) eqn:Hgt.
  - rewrite bind_apply. unfold seek at 1. unfold lift at 1. unfold index.
    destruct (nth_error np (Z.to_nat single_type)) as [n|] eqn:Hn;
      [|discriminate].
    assert (Hin : (Z.to_nat single_type < length np)%nat).
    { apply nth_error_Some. now rewrite Hn. }
    pose proof (spans_nonneg np _ Hnn Hin) as (Hb & Hn0 & Hk & Hsum).
    rewrite (nth_error_nth np _ 0 Hn) in Hn0, Hsum.
    set (before := py_sum (firstn (Z.to_nat single_type) np)) in *.
    assert (Hbs : 0 <= before * (c * itemsize d))
      by (apply Z.mul_nonneg_nonneg; lia).
    assert (Hns : 0 <= n * (c * itemsize d))
      by (apply Z.mul_nonneg_nonneg; lia).
    assert (Hks : 0 <= py_sum (skipn (S (Z.to_nat single_type)) np)
                       * (c * itemsize d))
      by (apply Z.mul_nonneg_nonneg; lia).
    rewrite bind_apply. unfold read at 1.
    destruct (BytesIO.read _ _) as [raw s1] eqn:Hr.
    pose proof (read_spec _ _ _ _ Hr Hns) as (_ & Hlen & Hg & Htl & H1 & H2).
    cbn [BytesIO.seek_cur BytesIO.getvalue BytesIO.tell BytesIO.high]
      in Hg, Htl, H1, H2.
    rewrite bind_apply. unfold lift at 1.
    destruct (frombuffer raw d) as [a0|e]; [|discriminate].
    rewrite bind_apply.
    destruct (c >? 1).
    + unfold lift at 1. destruct (set_shape _ _); [|discriminate].
      cbn [negb]. unfold pure. intros [= <- <- <-].
      split; [reflexivity|]. split; [eauto|]. split; [exact Hg|].
      rewrite Hsum. repeat split; try assumption; nia.
    + cbn [negb]. unfold pure. intros [= <- <- <-].
      split; [reflexivity|]. split; [eauto|]. split; [exact Hg|].
      rewrite Hsum. repeat split; try assumption; nia.
  - unfold pure at 1.
    pose proof (py_sum_nonneg np Hnn) as HN.
    assert (Hns : 0 <= py_sum np * (c * itemsize d))
      by (apply Z.mul_nonneg_nonneg; lia).
    rewrite bind_apply. unfold read at 1.
    destruct (BytesIO.read _ _) as [raw s1] eqn:Hr.
    pose proof (read_spec _ _ _ _ Hr Hns) as (_ & Hlen & Hg & Htl & H1 & H2).
    rewrite bind_apply. unfold lift at 1.
    destruct (frombuffer raw d) as [a0|e]; [|discriminate].
    rewrite bind_apply.
    destruct (c >? 1).
    + unfold lift at 1. destruct (set_shape _ _); [|discriminate].
      cbn [negb]. unfold pure. intros [= <- <- <-].
      split; [reflexivity|]. split; [eauto|]. split; [exact Hg|].
      repeat split; try assumption; lia.
    + cbn [negb]. unfold pure. intros [= <- <- <-].
      split; [reflexivity|]. split; [eauto|]. split; [exact Hg|].
      repeat split; try assumption; lia.
Qed.

(** The same for the whole iteration, leading marker included. *)
Lemma block_body_last_bound hd single_type i ret s fmt fmt_64 c np
    k ret' s' :
  well_formed hd ->
  block_setup hd (mass_npart_of hd) i = Geometry fmt fmt_64 c np ->
  0 <= BytesIO.tell s ->
  block_body hd (mass_npart_of hd) single_type i true false ret s
  = (Returns (k, ret'), s') ->
  let L := u32_at (BytesIO.getvalue s) (BytesIO.tell s) in
  k = Break
  /\ (exists a, ret' = ret ++ [Array a])
  /\ BytesIO.tell s' <= BytesIO.tell s + 4 + L
  /\ BytesIO.high s' <= Z.max (BytesIO.high s) (BytesIO.tell s + 4 + L).
Proof.
  intros Hwf Hs Ht.
  destruct (block_setup_counts hd i _ _ _ _ Hwf Hs) as (Hnn & _ & Hc).
  destruct (BytesIO.read 4 s) as [raw s1] eqn:Hr.
  pose proof (read_marker s raw s1 Ht Hr)
    as (_ & HL & Hg & Htl & Hh1 & Hh2 & _).
  destruct (Nat.eq_dec (length raw) 4) as [Hl|Hl].
  - rewrite (block_body_prefix hd (mass_npart_of hd) single_type i true
               false ret s fmt fmt_64 c np raw s1 Hs Hr Hl).
    destruct (check_size fmt fmt_64 (c * py_sum np) (le_uint raw))
      as [d|e] eqn:Hd; [|discriminate].
    apply check_size_ok in Hd. cbn [negb]. intros H. cbv zeta.
    apply read_block_last_bound in H; [|lia|assumption|assumption].
    destruct H as (Hk & Ha & _ & Htl' & H1 & H2).
    rewrite <- HL, Hd. rewrite Hl in Htl.
    replace (c * py_sum np * itemsize d)
      with (py_sum np * (c * itemsize d)) by ring.
    assert (Hx : 0 <= py_sum np * (c * itemsize d)).
    { replace (py_sum np * (c * itemsize d)) with (le_uint raw)
        by (rewrite Hd; ring).
      apply le_uint_nonneg. }
    split; [exact Hk|]. split; [exact Ha|]. split; lia.
  - rewrite (block_body_short_marker hd (mass_npart_of hd) single_type i
               true false ret s fmt fmt_64 c np raw s1 Hs Hr Hl).
    discriminate.
Qed.

(** ** How far a call reads *)

(** What follows the payload read of a materialising iteration reads
    nothing more. *)
Lemma after_payload_high (sel : bool) (gap : Z) d c more ret n raw s o s' :
  (data <- lift (frombuffer raw d) ;;
   data <- (if c >? 1 then lift (set_shape data [n; c]) else pure data) ;;
   let ret := ret ++ [Array data] in
   if negb more then pure (Break, ret)
   else
     (if sel then seek gap else pure tt) ;;;
     seek 4 ;;;
     pure (Continue, ret)) s = (o, s') ->
  BytesIO.high s' = BytesIO.high s.
Proof.
  unfold bind, lift, pure, seek.
  destruct (frombuffer raw d) as [a|e]; [|now intros [= _ <-]].
  destruct (c >? 1).
  - destruct (set_shape a [n; c]); [|now intros [= _ <-]].
    destruct more; cbn [negb]; [|now intros [= _ <-]].
    destruct sel; now intros [= _ <-].
  - destruct more; cbn [negb]; [|now intros [= _ <-]].
    destruct sel; now intros [= _ <-].
Qed.

(** However a materialising iteration ends, it has read nothing beyond
    the end of the payload. *)
Lemma read_block_high np single_type d c more ret s o s' :
  0 <= BytesIO.tell s ->
  Forall (Z.le 0) np ->
  0 < c ->
  read_block np single_type d c (c * itemsize d) more ret s = (o, s') ->
  BytesIO.high s'
  <= Z.max (BytesIO.high s) (BytesIO.tell s + py_sum np * (c * itemsize d)).
Proof.
  intros Ht Hnn Hc.
  assert (Hw : 0 < itemsize d) by (destruct d; cbn; lia).
  assert (Hspp : 0 < c * itemsize d) by (apply Z.mul_pos_pos; lia).
  unfold read_block. rewrite bind_apply.
  destruct (single_type >? -1) eqn:Hgt.
  - rewrite bind_apply. unfold seek at 1. unfold lift at 1. unfold index.
    destruct (nth_error np (Z.to_nat single_type)) as [n|] eqn:Hn.
    + assert (Hin : (Z.to_nat single_type < length np)%nat).
      { apply nth_error_Some. now rewrite Hn. }
      pose proof (spans_nonneg np _ Hnn Hin) as (Hb & Hn0 & Hk & Hsum).
      rewrite (nth_error_nth np _ 0 Hn) in Hn0, Hsum.
      set (before := py_sum (firstn (Z.to_nat single_type) np)) in *.
      assert (Hbs : 0 <= before * (c * itemsize d))
        by (apply Z.mul_nonneg_nonneg; lia).
      assert (Hns : 0 <= n * (c * itemsize d))
        by (apply Z.mul_nonneg_nonneg; lia).
      assert (Hks : 0 <= py_sum (skipn (S (Z.to_nat single_type)) np)
                         * (c * itemsize d))
        by (apply Z.mul_nonneg_nonneg; lia).
      rewrite bind_apply. unfold read at 1.
      destruct (BytesIO.read _ _) as [raw s1] eqn:Hr.
      pose proof (read_spec _ _ _ _ Hr Hns)
        as (_ & Hlen & Hg & Htl & H1 & H2).
      cbn [BytesIO.seek_cur BytesIO.getvalue BytesIO.tell BytesIO.high]
        in Hg, Htl, H1, H2.
      intros H. apply (after_payload_high true) in H. rewrite H, Hsum. nia.
    + intros [= _ <-]. cbn [BytesIO.seek_cur BytesIO.high]. lia.
  - unfold pure at 1.
    pose proof (py_sum_nonneg np Hnn) as HN.
    assert (Hns : 0 <= py_sum np * (c * itemsize d))
      by (apply Z.mul_nonneg_nonneg; lia).
    rewrite bind_apply. unfold read at 1.
    destruct (BytesIO.read _ _) as [raw s1] eqn:Hr.
    pose proof (read_spec _ _ _ _ Hr Hns) as (_ & Hlen & Hg & Htl & H1 & H2).
    intros H. apply (after_payload_high false 0) in H. rewrite H. lia.
Qed.

(** However an iteration over a block ends, it has read nothing beyond
    the end of the payload the block declares. *)
Lemma block_body_high hd single_type i b more ret s fmt fmt_64 c np o s' :
  well_formed hd ->
  block_setup hd (mass_npart_of hd) i = Geometry fmt fmt_64 c np ->
  0 <= BytesIO.tell s ->
  block_body hd (mass_npart_of hd) single_type i b more ret s = (o, s') ->
  BytesIO.high s'
  <= Z.max (BytesIO.high s)
       (BytesIO.tell s + 4
        + u32_at (BytesIO.getvalue s) (BytesIO.tell s)).
Proof.
  intros Hwf Hs Ht.
  destruct (block_setup_counts hd i _ _ _ _ Hwf Hs) as (Hnn & _ & Hc).
  destruct (BytesIO.read 4 s) as [raw s1] eqn:Hr.
  pose proof (read_marker s raw s1 Ht Hr)
    as (Hfull & HL & Hg & Htl & Hh1 & Hh2 & _).
  pose proof (le_uint_nonneg raw) as HL0. rewrite <- HL.
  pose proof (read_spec _ _ _ _ Hr ltac:(lia)) as (_ & Hlen & _).
  destruct (Nat.eq_dec (length raw) 4) as [Hl|Hl].
  - rewrite (block_body_prefix hd (mass_npart_of hd) single_type i b
               more ret s fmt fmt_64 c np raw s1 Hs Hr Hl).
    rewrite Hl in Htl.
    destruct (check_size fmt fmt_64 (c * py_sum np) (le_uint raw))
      as [d|e] eqn:Hd; [|intros [= _ <-]; lia].
    apply check_size_ok in Hd.
    replace (c * py_sum np * itemsize d)
      with (py_sum np * (c * itemsize d)) in Hd by ring.
    destruct b; cbn [negb].
    + intros H. apply read_block_high in H; [|lia|assumption|assumption].
      rewrite <- Hd in H. lia.
    + unfold skip_block, bind, seek, pure. intros [= _ <-].
      cbn [BytesIO.seek_cur BytesIO.high]. lia.
  - rewrite (block_body_short_marker hd (mass_npart_of hd) single_type i b
               more ret s fmt fmt_64 c np raw s1 Hs Hr Hl).
    intros [= _ <-]. lia.
Qed.

(** However the header phase ends, it has read nothing beyond the header
    fields. *)
Lemma read_header_high single_type lgadget s o s' :
  0 <= BytesIO.tell s ->
  read_header single_type lgadget s = (o, s') ->
  BytesIO.high s' <= Z.max (BytesIO.high s) (BytesIO.tell s + 200).
Proof.
  intros Ht. unfold read_header.
  change (calcsize gadget_header_fmt) with 196.
  rewrite bind_apply. unfold seek at 1.
  rewrite bind_apply. unfold read at 1.
  destruct (BytesIO.read _ _) as [raw s1] eqn:Hread.
  pose proof (read_spec _ _ _ _ Hread ltac:(lia))
    as (_ & Hlen & _ & Htl & H1 & H2).
  cbn [BytesIO.seek_cur BytesIO.getvalue BytesIO.tell BytesIO.high]
    in Htl, H1, H2.
  rewrite bind_apply. unfold lift at 1.
  destruct (unpack gadget_header_fmt raw) as [h|e].
  - destruct lgadget; unfold pure; intros [= _ <-]; lia.
  - intros [= _ <-]. lia.
Qed.

(** C7: once a requested block has been processed and no later block is
    requested, the loop stops: a call whose last requested block is block
    [i] never goes into the blocks after it.  In particular a call that
    requests only the identifiers, however it ends, reads no byte at or
    beyond the trailing marker of the identifier record, so none of the
    mass record; when it returns, the stream stands before that marker. *)
Theorem early_stop :
  (forall hd mass_npart single_type read_pos read_vel read_id read_mass
          i ret s,
      let blocks_to_read := [read_pos; read_vel; read_id; read_mass] in
      nth i blocks_to_read false = true ->
      py_any (skipn (S i) blocks_to_read) = false ->
      walk hd mass_npart single_type blocks_to_read
        (enumerate_from 0 blocks_to_read) ret s
      = walk hd mass_npart single_type blocks_to_read
          (firstn (S i) (enumerate_from 0 blocks_to_read)) ret s)
  /\ (forall single_type lgadget s,
        0 <= BytesIO.tell s ->
        BytesIO.high s <= BytesIO.tell s ->
        let run :=
          read_gadget_snapshot false false true false single_type lgadget s in
        let buf := BytesIO.getvalue s in
        let vel_rec := next_record buf (BytesIO.tell s + 264) in
        let id_rec := next_record buf vel_rec in
        let mass_rec := next_record buf id_rec in
        BytesIO.high (snd run) <= mass_rec - 4
        /\ (forall r, fst run = Returns r ->
              (exists hd a, r = ret_tuple [Header hd; Array a])
              /\ BytesIO.tell (snd run) <= mass_rec - 4)).
Proof.
  split.
  - intros hd mn st rp rv ri rm i ret s btr Hi Hlast. subst btr.
    cbn [enumerate_from].
    destruct i as [|[|[|[|i]]]]; cbn [nth] in Hi; subst.
    + apply (walk_stops hd mn st _ 0 _ Hlast []).
    + apply (walk_stops hd mn st _ 1 _ Hlast [(0%nat, rp)]).
    + apply (walk_stops hd mn st _ 2 _ Hlast [(0%nat, rp); (1%nat, rv)]).
    + reflexivity.
    + destruct i; discriminate Hi.
  - intros st lg s Ht Hh run buf vel_rec id_rec mass_rec.
    pose proof (le_uint_nonneg
                  (firstn 4 (skipn (Z.to_nat (BytesIO.tell s + 264)) buf)))
      as HL0. fold (u32_at buf (BytesIO.tell s + 264)) in HL0.
    pose proof (le_uint_nonneg (firstn 4 (skipn (Z.to_nat vel_rec) buf)))
      as HL1. fold (u32_at buf vel_rec) in HL1.
    pose proof (le_uint_nonneg (firstn 4 (skipn (Z.to_nat id_rec) buf)))
      as HL2. fold (u32_at buf id_rec) in HL2.
    assert (Hv : vel_rec = BytesIO.tell s + 264 + 4
                           + u32_at buf (BytesIO.tell s + 264) + 4)
      by reflexivity.
    assert (Hi : id_rec = vel_rec + 4 + u32_at buf vel_rec + 4)
      by reflexivity.
    assert (Hm : mass_rec - 4 = id_rec + 4 + u32_at buf id_rec)
      by (subst mass_rec; unfold next_record; lia).
    clearbody vel_rec id_rec mass_rec.
    assert (Haux : forall o s',
               read_gadget_snapshot false false true false st lg s = (o, s')
               -> BytesIO.high s' <= mass_rec - 4
                  /\ (forall r, o = Returns r ->
                        (exists hd a, r = ret_tuple [Header hd; Array a])
                        /\ BytesIO.tell s' <= mass_rec - 4)).
    { intros o s' H.
      destruct (Z_lt_le_dec (BytesIO.remaining s) 200) as [Hshort|Hr].
      { unfold read_gadget_snapshot in H. rewrite bind_apply in H.
        pose proof (read_header_short st lg s Ht Hshort) as E.
        destruct (read_header st lg s) as [[x|e] s1] eqn:Hhd;
          [discriminate E|].
        apply read_header_high in Hhd; [|exact Ht].
        injection H as <- <-. split; [lia|]. intros r Hr. discriminate Hr. }
      rewrite call_blocks in H by (assumption || reflexivity).
      cbv zeta in H.
      pose proof (decoded_header_well_formed lg s) as Hwf.
      set (hd := decoded_header lg s) in *.
      set (t := selector_in_force st lg) in *.
      set (sa := after_header s) in *.
      assert (Hsa : BytesIO.getvalue sa = buf
                    /\ BytesIO.tell sa = BytesIO.tell s + 264
                    /\ BytesIO.high sa <= BytesIO.tell s + 264).
      { subst sa buf. cbn. repeat split. lia. }
      destruct Hsa as (Hga & Hta & Hha).
      clearbody sa.
      unfold as_tuple in H. cbn [walk] in H.
      rewrite bind_apply in H.
      destruct (block_body hd (mass_npart_of hd) t 0 false _ [Header hd] sa)
        as [o0 s0] eqn:H0.
      pose proof (block_body_high hd t 0 _ _ _ sa float32 float64 3
                    (npart hd) o0 s0 Hwf eq_refl ltac:(lia) H0) as B0.
      rewrite Hga, Hta in B0.
      destruct o0 as [[k0 r0]|e0];
        [|injection H as <- <-; split; [lia|intros r Hx; discriminate Hx]].
      apply (block_body_skip_ok hd (mass_npart_of hd) t 0 _ _ sa
               float32 float64 3 (npart hd)) in H0; [|reflexivity|lia].
      destruct H0 as (-> & -> & Hg0 & Ht0 & _ & _ & Hh0).
      rewrite Hga, Hta in Ht0. unfold next_record in Ht0.
      rewrite <- Hv in Ht0.
      rewrite bind_apply in H.
      destruct (block_body hd (mass_npart_of hd) t 1 false _ [Header hd] s0)
        as [o1 s1] eqn:H1.
      pose proof (block_body_high hd t 1 _ _ _ s0 float32 float64 3
                    (npart hd) o1 s1 Hwf eq_refl ltac:(lia) H1) as B1.
      rewrite Hg0, Hga, Ht0 in B1.
      destruct o1 as [[k1 r1]|e1];
        [|injection H as <- <-; split; [lia|intros r Hx; discriminate Hx]].
      apply (block_body_skip_ok hd (mass_npart_of hd) t 1 _ _ s0
               float32 float64 3 (npart hd)) in H1; [|reflexivity|lia].
      destruct H1 as (-> & -> & Hg1 & Ht1 & _ & _ & Hh1).
      rewrite Hg0, Hga, Ht0 in Ht1. unfold next_record in Ht1.
      rewrite <- Hi in Ht1.
      rewrite bind_apply in H.
      destruct (block_body hd (mass_npart_of hd) t 2 true _ [Header hd] s1)
        as [o2 s2] eqn:H2.
      pose proof (block_body_high hd t 2 _ _ _ s1 uint32 uint64 1
                    (npart hd) o2 s2 Hwf eq_refl ltac:(lia) H2) as B2.
      rewrite Hg1, Hg0, Hga, Ht1 in B2.
      destruct o2 as [[k2 r2]|e2];
        [|injection H as <- <-; split; [lia|intros r Hx; discriminate Hx]].
      change (py_any (skipn 3 [false; false; true; false])) with false in H2.
      apply (block_body_last_bound hd t 2 _ s1 uint32 uint64 1 (npart hd))
        in H2; [|exact Hwf|reflexivity|lia].
      cbv zeta in H2. destruct H2 as (-> & (a & ->) & Ht2 & _).
      rewrite Hg1, Hg0, Hga, Ht1 in Ht2.
      unfold pure in H. injection H as <- <-.
      split; [lia|]. intros r [= <-].
      split; [exists hd, a; reflexivity|lia]. }
    apply Haux. subst run. apply surjective_pairing.
Qed.

(** On [file57] the identifier record starts at offset 568 and its
    trailing marker at offset 620; an identifier-only call reads nothing
    from offset 620 on. *)
Lemma early_stop_witness :
  let s := BytesIO.open file57 in
  let run := read_gadget_snapshot false false true false (-1) false s in
  0 <= BytesIO.tell s
  /\ BytesIO.high s <= BytesIO.tell s
  /\ next_record file57 (next_record file57 (next_record file57 264)) = 624
  /\ BytesIO.high (snd run) <= 620
  /\ (forall r, fst run = Returns r -> BytesIO.tell (snd run) <= 620).
Proof.
  intros s run.
  assert (Ht : 0 <= BytesIO.tell s) by (cbn; lia).
  assert (Hh : BytesIO.high s <= BytesIO.tell s) by (cbn; lia).
  assert (Hn : next_record file57
                 (next_record file57 (next_record file57 264)) = 624)
    by (vm_compute; reflexivity).
  split; [exact Ht|]. split; [exact Hh|]. split; [exact Hn|].
  destruct (proj2 early_stop (-1) false s Ht Hh) as (H1 & H2).
  cbn [BytesIO.getvalue BytesIO.tell s BytesIO.open Z.add] in H1, H2.
  rewrite Hn in H1, H2. fold run in H1, H2.
  split; [lia|]. intros r Hr. destruct (H2 r Hr) as [_ H3]. lia.
Defined.

(** ** Triples that are cut short *)

(** A position or velocity payload that is cut short cannot be shaped
    into triples. *)
Lemma read_block_short_triples np single_type d more ret s :
  0 <= BytesIO.tell s ->
  Forall (Z.le 0) np ->
  ((single_type >? -1) = true -> (Z.to_nat single_type < length np)%nat) ->
  let spp := 3 * itemsize d in
  let before := if single_type >? -1
                then py_sum (firstn (Z.to_nat single_type) np) else 0 in
  let this := if single_type >? -1
              then nth (Z.to_nat single_type) np 0 else py_sum np in
  0 < this ->
  BytesIO.remaining s < (before + this) * spp ->
  exists msg,
    fst (read_block np single_type d 3 spp more ret s)
    = Raises (ValueError msg).
Proof.
  intros Ht Hnn Hin spp before this Hpos Hshort.
  assert (Hw : 0 < itemsize d) by (destruct d; cbn; lia).
  assert (Hspp : 0 < spp) by (subst spp; lia).
  assert (Hspans : 0 <= before /\ 0 <= this).
  { subst before this. destruct (Z.gtb_spec single_type (-1)).
    - specialize (Hin eq_refl).
      pose proof (spans_nonneg np (Z.to_nat single_type) Hnn Hin). lia.
    - pose proof (py_sum_nonneg np Hnn). lia. }
  destruct Hspans as (Hb & Hth).
  assert (Hbs : 0 <= before * spp) by (apply Z.mul_nonneg_nonneg; lia).
  assert (Hns : 0 < this * spp) by (apply Z.mul_pos_pos; lia).
  rewrite Z.mul_add_distr_r in Hshort.
  unfold read_block. rewrite bind_apply.
  set (s0 := BytesIO.seek_cur (before * spp) s).
  assert (Hsel :
    (if single_type >? -1
     then bind (seek (py_sum (firstn (Z.to_nat single_type) np) * spp))
               (fun _ => lift (index np single_type))
     else pure (py_sum np)) s
    = (Returns this, if single_type >? -1 then s0 else s)).
  { subst this before s0. destruct (single_type >? -1) eqn:E.
    - now apply select_type; auto.
    - reflexivity. }
  rewrite Hsel. clear Hsel. cbv beta iota zeta.
  set (s1 := if single_type >? -1 then s0 else s).
  assert (H1 : 0 <= BytesIO.tell s1
               /\ BytesIO.remaining s1 < this * spp).
  { subst s1 s0 before. destruct (single_type >? -1).
    - rewrite remaining_seek by lia. cbn [BytesIO.seek_cur BytesIO.tell].
      lia.
    - lia. }
  destruct H1 as (Ht1 & Hr1). clearbody s1.
  rewrite bind_apply. unfold read at 1.
  destruct (BytesIO.read (this * spp) s1) as [raw s2] eqn:Hread.
  pose proof (read_spec _ _ _ _ Hread ltac:(lia)) as (_ & Hlen & _).
  rewrite Z.min_r in Hlen by lia.
  rewrite bind_apply. unfold lift at 1. unfold frombuffer.
  destruct (Z.eqb_spec (Z.of_nat (length raw) mod itemsize d) 0) as [Hm|Hm].
  - rewrite bind_apply. change (3 >? 1) with true. cbv iota.
    unfold lift at 1. unfold set_shape. cbn [arr_shape py_prod].
    destruct (Z.eqb_spec (this * (3 * 1))
                (Z.of_nat (length raw) / itemsize d * 1)) as [E|E].
    + exfalso.
      pose proof (Z_div_mod_eq_full (Z.of_nat (length raw)) (itemsize d))
        as Hdm.
      rewrite Hm in Hdm. subst spp. nia.
    + cbn [fst]. eauto.
  - cbn [fst]. eauto.
Qed.

(** ** What an iteration hands back *)

Lemma check_size_cases fmt fmt_64 n L d :
  check_size fmt fmt_64 n L = Returns d -> d = fmt \/ d = fmt_64.
Proof.
  unfold check_size.
  destruct (negb (L =? n * itemsize fmt)).
  - destruct (negb _); [discriminate|]. intros [= <-]. now right.
  - destruct (negb _); [discriminate|]. intros [= <-]. now left.
Qed.

(** How an iteration that returns ends and what it appends. *)
Lemma block_body_kind hd mass_npart single_type i b more ret s k ret' s' :
  block_body hd mass_npart single_type i b more ret s
  = (Returns (k, ret'), s') ->
  match block_setup hd mass_npart i with
  | EmptyMass =>
      i = 3%nat /\ k = Break /\ ret' = ret ++ [Array (empty_array float32)]
  | Geometry _ _ _ _ =>
      if b then
        (exists a, ret' = ret ++ [Array a] /\ dtype_of_kind i (arr_dtype a))
        /\ k = (if more then Continue else Break)
      else ret' = ret /\ k = Continue
  end.
Proof.
  intros H.
  destruct (block_setup hd mass_npart i) as [|fmt fmt_64 c np] eqn:Hs.
  - unfold block_body in H. rewrite Hs in H. injection H as <- <- <-.
    split; [|auto].
    unfold block_setup in Hs.
    destruct i as [|[|[|[|i]]]]; cbn in Hs; try discriminate. reflexivity.
  - destruct b.
    + split.
      * destruct (block_setup_geometry _ _ _ _ _ _ _ Hs) as (Hf & _ & _).
        revert H. unfold block_body. rewrite Hs.
        rewrite bind_apply. unfold read at 1.
        destruct (BytesIO.read 4 s) as [raw s1].
        rewrite bind_apply. unfold lift at 1.
        destruct (unpack [c_I] raw) as [u|e]; [|discriminate].
        rewrite bind_apply. unfold lift at 1.
        destruct (check_size _ _ _ _) as [d|e] eqn:Hd; [|discriminate].
        apply check_size_cases in Hd. cbn [negb]. intros H.
        apply read_block_dtype in H. destruct H as (a & -> & Ha).
        exists a. split; [reflexivity|]. unfold dtype_of_kind.
        destruct (i =? 2)%nat; injection Hf as -> ->; rewrite Ha;
          destruct Hd; auto.
      * destruct more.
        -- eapply block_body_continues; eassumption.
        -- eapply block_body_last_breaks; eassumption.
    + revert H. unfold block_body. rewrite Hs.
      rewrite bind_apply. unfold read at 1.
      destruct (BytesIO.read 4 s) as [raw s1].
      rewrite bind_apply. unfold lift at 1.
      destruct (unpack [c_I] raw) as [u|e]; [|discriminate].
      rewrite bind_apply. unfold lift at 1.
      destruct (check_size _ _ _ _) as [d|e]; [|discriminate].
      cbn [negb]. unfold skip_block, bind, seek, pure.
      intros [= <- <- <-]. auto.
Qed.



(** ** Every way a call can end *)

Lemma check_size_error fmt fmt_64 n L e :
  check_size fmt fmt_64 n L = Raises e ->
  e = ValueError "Invalid block size in file!".
Proof.
  unfold check_size.
  destruct (negb (L =? n * itemsize fmt));
    destruct (negb _); try discriminate; now intros [= <-].
Qed.

Lemma advances_refl s : advances s s.
Proof. unfold advances. repeat split; lia. Qed.

Lemma advances_trans s s1 s2 :
  advances s s1 -> advances s1 s2 -> advances s s2.
Proof.
  unfold advances. intros (Hg & Ht & Hh & Hb) (Hg' & Ht' & Hh' & Hb').
  rewrite Hg', Hg. repeat split; lia.
Qed.

Lemma read_advances n s raw s1 :
  BytesIO.read n s = (raw, s1) -> advances s s1.
Proof.
  unfold BytesIO.read, advances. intros [= _ <-].
  cbn [BytesIO.getvalue BytesIO.tell BytesIO.high].
  split; [reflexivity|]. split; [lia|].
  destruct (if n <? 0 then _ else _); cbn [length]; lia.
Qed.

Lemma seek_advances off s :
  0 <= off -> advances s (BytesIO.seek_cur off s).
Proof.
  unfold advances. cbn [BytesIO.seek_cur BytesIO.getvalue BytesIO.tell
                         BytesIO.high]. intros. repeat split; lia.
Qed.

(** What follows the payload read of a materialising iteration. *)
Lemma after_payload_any (sel : bool) (gap : Z) d c more ret n raw s o s' :
  0 <= gap ->
  (data <- lift (frombuffer raw d) ;;
   data <- (if c >? 1 then lift (set_shape data [n; c]) else pure data) ;;
   let ret := ret ++ [Array data] in
   if negb more then pure (Break, ret)
   else
     (if sel then seek gap else pure tt) ;;;
     seek 4 ;;;
     pure (Continue, ret)) s = (o, s') ->
  advances s s' /\ (forall e, o = Raises e -> numpy_error e).
Proof.
  intros Hgap. unfold bind, lift, pure, seek, frombuffer, set_shape.
  destruct (_ mod _ =? 0).
  2:{ intros [= <- <-]. split; [apply advances_refl|].
      intros e [= <-]. now left. }
  assert (Hend : forall k r,
             advances s (BytesIO.seek_cur 4
                           (if sel then BytesIO.seek_cur gap s else s))
             /\ (forall e, Returns (k, r) = Raises e :> outcome (ctl * list pyobj)
                           -> numpy_error e)).
  { intros k r. split; [|intros e E; discriminate E].
    destruct sel.
    - eapply advances_trans; [apply seek_advances; exact Hgap|].
      apply seek_advances; lia.
    - apply seek_advances; lia. }
  destruct (c >? 1).
  - cbn [arr_shape arr_dtype arr_data].
    destruct (_ =? _).
    + destruct more; cbn [negb].
      * destruct sel; intros [= <- <-]; apply (Hend Continue).
      * intros [= <- <-]. split; [apply advances_refl|].
        intros e E; discriminate E.
    + intros [= <- <-]. split; [apply advances_refl|].
      intros e [= <-]. right. eauto.
  - destruct more; cbn [negb].
    + destruct sel; intros [= <- <-]; apply (Hend Continue).
    + intros [= <- <-]. split; [apply advances_refl|].
      intros e E; discriminate E.
Qed.

(** However a materialising iteration ends. *)
Lemma read_block_any np single_type d c more ret s o s' :
  Forall (Z.le 0) np ->
  0 < c ->
  -1 <= single_type < Z.of_nat (length np) ->
  read_block np single_type d c (c * itemsize d) more ret s = (o, s') ->
  advances s s' /\ (forall e, o = Raises e -> numpy_error e).
Proof.
  intros Hnn Hc Hst.
  assert (Hw : 0 < itemsize d) by (destruct d; cbn; lia).
  assert (Hspp : 0 < c * itemsize d) by (apply Z.mul_pos_pos; lia).
  unfold read_block. rewrite bind_apply.
  destruct (single_type >? -1) eqn:Hgt.
  - apply Z.gtb_lt in Hgt.
    assert (Hin : (Z.to_nat single_type < length np)%nat) by lia.
    rewrite select_type; [|now apply Z.gtb_lt|exact Hin].
    pose proof (spans_nonneg np _ Hnn Hin) as (Hb & Hn0 & Hk & Hsum).
    rewrite bind_apply. unfold read at 1.
    destruct (BytesIO.read _ _) as [raw s1] eqn:Hr.
    apply read_advances in Hr.
    intros H. apply (after_payload_any true) in H.
    + destruct H as [Ha He]. split; [|exact He].
      eapply advances_trans; [|eapply advances_trans; [exact Hr|exact Ha]].
      apply seek_advances. apply Z.mul_nonneg_nonneg; lia.
    + replace (Z.to_nat (single_type + 1)) with (S (Z.to_nat single_type))
        by lia.
      apply Z.mul_nonneg_nonneg; lia.
  - unfold pure at 1.
    rewrite bind_apply. unfold read at 1.
    destruct (BytesIO.read _ _) as [raw s1] eqn:Hr.
    apply read_advances in Hr.
    intros H. apply (after_payload_any false 0) in H; [|lia].
    destruct H as [Ha He]. split; [|exact He].
    eapply advances_trans; eassumption.
Qed.

(** However an iteration of the loop ends. *)
Lemma block_body_any hd single_type i b more ret s o s' :
  well_formed hd ->
  -1 <= single_type < 6 ->
  block_body hd (mass_npart_of hd) single_type i b more ret s = (o, s') ->
  advances s s' /\ (forall e, o = Raises e -> decoder_error e).
Proof.
  intros Hwf Hst. unfold block_body.
  destruct (block_setup hd (mass_npart_of hd) i)
    as [|fmt fmt_64 c np] eqn:Hs.
  - intros [= <- <-]. split; [apply advances_refl|].
    intros e E; discriminate E.
  - destruct (block_setup_counts hd i _ _ _ _ Hwf Hs) as (Hnn & Hlen & Hc).
    rewrite bind_apply. unfold read at 1.
    destruct (BytesIO.read 4 s) as [raw s1] eqn:Hr.
    apply read_advances in Hr.
    rewrite bind_apply. unfold lift at 1. unfold unpack.
    change (calcsize [c_I]) with 4.
    destruct (_ =? 4).
    2:{ intros [= <- <-]. split; [exact Hr|].
        intros e [= <-]. right. now left. }
    rewrite bind_apply. unfold lift at 1.
    destruct (check_size _ _ _ _) as [d|e] eqn:Hd.
    2:{ intros [= <- <-]. split; [exact Hr|].
        intros e' [= <-]. apply check_size_error in Hd.
        right; right; now left. }
    assert (Hw : 0 < itemsize d) by (destruct d; cbn; lia).
    destruct b; cbn [negb].
    + intros H. apply read_block_any in H; [|assumption|assumption|lia].
      destruct H as [Ha He]. split.
      * eapply advances_trans; eassumption.
      * intros e E. right. right. right. now apply He.
    + unfold skip_block, bind, seek, pure. intros [= <- <-].
      split; [|intros e E; discriminate E].
      eapply advances_trans; [exact Hr|].
      eapply advances_trans; [|apply seek_advances; lia].
      apply seek_advances.
      apply Z.mul_nonneg_nonneg;
        [now apply py_sum_nonneg|apply Z.mul_nonneg_nonneg; lia].
Qed.

(** However the loop ends. *)
Lemma walk_any hd single_type blocks_to_read :
  well_formed hd ->
  -1 <= single_type < 6 ->
  forall todo ret s o s',
    walk hd (mass_npart_of hd) single_type blocks_to_read todo ret s
    = (o, s') ->
    advances s s' /\ (forall e, o = Raises e -> decoder_error e).
Proof.
  intros Hwf Hst. induction todo as [|[i b] rest IH]; intros ret s o s'.
  - intros [= <- <-]. split; [apply advances_refl|].
    intros e E; discriminate E.
  - cbn [walk]. rewrite bind_apply.
    destruct (block_body _ _ _ _ _ _ _ _) as [o1 s1] eqn:Hb.
    apply (block_body_any hd single_type i b _ ret s o1 s1 Hwf Hst) in Hb.
    destruct Hb as [Ha He].
    destruct o1 as [[k r]|e].
    + destruct k.
      * intros [= <- <-]. split; [exact Ha|]. intros e E; discriminate E.
      * intros H. apply IH in H. destruct H as [Ha' He'].
        split; [eapply advances_trans; eassumption|exact He'].
    + intros [= <- <-]. split; [exact Ha|].
      intros e' [= <-]. now apply He.
Qed.

(** Whatever bytes the header fields are decoded from, the header is well
    formed. *)
Lemma unpacked_header_well_formed raw (lgadget : bool) :
  let h := unpack_from 0 gadget_header_fmt raw in
  well_formed (make_header (if lgadget then lgadget_remap h else h)).
Proof.
  intros h.
  assert (Hl : length h = 37%nat) by apply length_unpack_from.
  assert (Hk : forall k, (k < 6)%nat -> 0 <= nth k h 0).
  { intros k Hk. apply unpack_from_I.
    do 6 (destruct k as [|k]; [reflexivity|]). lia. }
  pose proof (Hk 0%nat ltac:(lia)) as H0.
  pose proof (Hk 1%nat ltac:(lia)) as H1.
  pose proof (Hk 2%nat ltac:(lia)) as H2.
  pose proof (Hk 3%nat ltac:(lia)) as H3.
  pose proof (Hk 4%nat ltac:(lia)) as H4.
  pose proof (Hk 5%nat ltac:(lia)) as H5.
  clear Hk. clearbody h.
  do 37 (destruct h as [|? h]; [discriminate Hl|]).
  destruct h; [|discriminate Hl].
  cbn [nth] in H0, H1, H2, H3, H4, H5.
  unfold well_formed.
  destruct lgadget; cbn; repeat split; repeat constructor; assumption.
Qed.

(** However the header phase ends. *)
Lemma read_header_any single_type lgadget s o s' :
  read_header single_type lgadget s = (o, s') ->
  advances s s'
  /\ (forall e, o = Raises e -> e = struct_error 196)
  /\ (forall hd t, o = Returns (hd, t) ->
        well_formed hd /\ t = if lgadget then 1 else single_type).
Proof.
  unfold read_header. change (calcsize gadget_header_fmt) with 196.
  rewrite bind_apply. unfold seek at 1.
  rewrite bind_apply. unfold read at 1.
  destruct (BytesIO.read _ _) as [raw s1] eqn:Hread.
  apply read_advances in Hread.
  assert (Ha : advances s s1).
  { eapply advances_trans; [|exact Hread]. apply seek_advances. lia. }
  rewrite bind_apply. unfold lift at 1. unfold unpack.
  change (calcsize gadget_header_fmt) with 196.
  destruct (_ =? 196).
  - pose proof (unpacked_header_well_formed raw lgadget) as Hwf.
    cbv zeta in Hwf.
    assert (Hgen : exists hd0,
               well_formed hd0
               /\ (let '(h, t) :=
                     if lgadget
                     then (lgadget_remap
                             (unpack_from 0 gadget_header_fmt raw), 1)
                     else (unpack_from 0 gadget_header_fmt raw, single_type)
                   in pure (make_header h, t)) s1
                  = (Returns (hd0, if lgadget then 1 else single_type), s1)).
    { destruct lgadget; eexists; (split; [exact Hwf|reflexivity]). }
    destruct Hgen as (hd0 & Hwf0 & ->). clear Hwf.
    intros H. apply pair_equal_spec in H. destruct H as [<- <-].
    split; [exact Ha|]. split; [intros e E; discriminate E|].
    intros hd t E. injection E as <- <-. split; [exact Hwf0|reflexivity].
  - intros H. apply pair_equal_spec in H. destruct H as [<- <-].
    split; [exact Ha|]. split.
    + now intros e [= <-].
    + intros hd t E; discriminate E.
Qed.

Lemma in_range6_bounds t :
  -1 <= (if negb (in_range6 t) then -1 else t) < 6.
Proof.
  unfold in_range6.
  destruct (Z.leb_spec 0 t); destruct (Z.ltb_spec t 6); cbn; lia.
Qed.

(** However a call ends. *)
Lemma call_any read_pos read_vel read_id read_mass single_type lgadget
    s o s' :
  read_gadget_snapshot read_pos read_vel read_id read_mass single_type
    lgadget s = (o, s') ->
  advances s s' /\ (forall e, o = Raises e -> decoder_error e).
Proof.
  unfold read_gadget_snapshot. rewrite bind_apply.
  destruct (read_header single_type lgadget s) as [o0 s0] eqn:Hh.
  apply read_header_any in Hh. destruct Hh as (Ha & He & Hok).
  destruct o0 as [[hd t]|e].
  2:{ intros [= <- <-]. split; [exact Ha|].
      intros e' [= <-]. left. now apply He. }
  destruct (Hok hd t eq_refl) as [Hwf _].
  destruct (negb (py_any _)).
  - intros [= <- <-]. split; [exact Ha|]. intros e E; discriminate E.
  - rewrite bind_apply. unfold seek at 1.
    rewrite bind_apply. unfold seek at 1.
    rewrite bind_apply.
    destruct (walk _ _ _ _ _ _ _) as [o1 s1] eqn:Hw.
    apply (walk_any hd _ _ Hwf (in_range6_bounds t)) in Hw.
    destruct Hw as [Ha' He'].
    assert (Hs : advances s s1).
    { eapply advances_trans; [exact Ha|].
      eapply advances_trans; [|exact Ha'].
      eapply advances_trans; [|apply seek_advances; lia].
      apply seek_advances. now vm_compute. }
    destruct o1 as [l|e]; intros [= <- <-]; (split; [exact Hs|]).
    + intros e E; discriminate E.
    + intros e' [= <-]. now apply He'.
Qed.

(** X2: the stream of a call only moves forward: whatever the request and
    however the call ends, the buffer is the same, the position is not
    before where it was, and no byte beyond the final position has been
    read that had not been read before the call. *)
Theorem call_stream_discipline :
  forall read_pos read_vel read_id read_mass single_type lgadget s,
    let run := read_gadget_snapshot read_pos read_vel read_id read_mass
                 single_type lgadget s in
    BytesIO.getvalue (snd run) = BytesIO.getvalue s
    /\ BytesIO.tell s <= BytesIO.tell (snd run)
    /\ BytesIO.high (snd run)
       <= Z.max (BytesIO.high s) (BytesIO.tell (snd run)).
Proof.
  intros rp rv ri rm st lg s run.
  destruct (call_any rp rv ri rm st lg s (fst run) (snd run))
    as [(Hg & Ht & _ & Hh) _].
  { subst run. apply surjective_pairing. }
  auto.
Qed.

(** X3: the exceptions of a call whose [single_type] is an integer:
    [struct.error] for a short header or a short leading marker, the
    invalid-block-size [ValueError], or one of numpy's two size errors,
    the one of [frombuffer] and the one of the shape assignment with the
    size and the shape in its message; never an [IndexError]. *)
Theorem call_exceptions :
  forall read_pos read_vel read_id read_mass single_type lgadget s e,
    fst (read_gadget_snapshot read_pos read_vel read_id read_mass
           single_type lgadget s) = Raises e ->
    decoder_error e /\ (forall msg, e <> IndexError msg).
Proof.
  intros rp rv ri rm st lg s e H.
  destruct (call_any rp rv ri rm st lg s _ _ (surjective_pairing _))
    as [_ He].
  pose proof (He e H) as Hd. split; [exact Hd|].
  intros msg ->.
  destruct Hd as [E|[E|[E|[E|(size & sh & E)]]]]; discriminate E.
Qed.

Lemma call_exceptions_witness :
  fst (read_gadget_snapshot true false false false (-1) false
         (BytesIO.open (truncated 300 file57)))
  = Raises (ValueError
              "cannot reshape array of size 8 into shape (12,3)")
  /\ decoder_error
       (ValueError "cannot reshape array of size 8 into shape (12,3)").
Proof.
  assert (H : fst (read_gadget_snapshot true false false false (-1) false
                     (BytesIO.open (truncated 300 file57)))
              = Raises (ValueError
                          "cannot reshape array of size 8 into shape (12,3)"))
    by (vm_compute; reflexivity).
  split; [exact H|].
  exact (proj1 (call_exceptions true false false false (-1) false
                  (BytesIO.open (truncated 300 file57)) _ H)).
Defined.

(** ** The size of a materialised array *)

(** Lines 119-127 whenever they return: the array built from the bytes
    that were there. *)
Lemma payload_size (sel : bool) (gap : Z) d c more ret n s k ret' s' :
  0 < c -> 0 <= n ->
  (raw <- read (n * (c * itemsize d)) ;;
   data <- lift (frombuffer raw d) ;;
   data <- (if c >? 1 then lift (set_shape data [n; c]) else pure data) ;;
   let ret := ret ++ [Array data] in
   if negb more then pure (Break, ret)
   else
     (if sel then seek gap else pure tt) ;;;
     seek 4 ;;;
     pure (Continue, ret)) s = (Returns (k, ret'), s') ->
  exists a,
    ret' = ret ++ [Array a]
    /\ arr_dtype a = d
    /\ (if c >? 1
        then arr_shape a = [n; c]
             /\ Z.of_nat (length (arr_data a)) = n * c * itemsize d
        else exists m,
               arr_shape a = [m] /\ 0 <= m <= n
               /\ Z.of_nat (length (arr_data a)) = m * itemsize d).
Proof.
  intros Hc Hn.
  assert (Hw : 0 < itemsize d) by (destruct d; cbn; lia).
  assert (Hspp : 0 <= n * (c * itemsize d))
    by (apply Z.mul_nonneg_nonneg; [lia|apply Z.mul_nonneg_nonneg; lia]).
  rewrite bind_apply. unfold read at 1.
  destruct (BytesIO.read _ _) as [raw s1] eqn:Hr.
  pose proof (read_spec _ _ _ _ Hr Hspp) as (_ & Hlen & _).
  rewrite bind_apply. unfold lift at 1. unfold frombuffer.
  destruct (Z.eqb_spec (Z.of_nat (length raw) mod itemsize d) 0) as [Hm|Hm];
    [|discriminate].
  pose proof (Z_div_mod_eq_full (Z.of_nat (length raw)) (itemsize d)) as Hdm.
  rewrite Hm, Z.add_0_r in Hdm.
  set (m := Z.of_nat (length raw) / itemsize d) in *.
  rewrite bind_apply.
  destruct (Z.gtb_spec c 1) as [Hc1|Hc1].
  - unfold lift at 1. unfold set_shape. cbn [arr_shape py_prod arr_dtype
                                              arr_data].
    destruct (Z.eqb_spec (n * (c * 1)) (m * 1)) as [E|E]; [|discriminate].
    intros H. exists (mk_ndarray d [n; c] raw).
    split; [|split; [reflexivity|split; [reflexivity|cbn [arr_data]; nia]]].
    revert H. unfold bind, seek, pure.
    destruct more; cbn [negb]; [destruct sel|]; now intros [= _ <- _].
  - unfold pure at 1. intros H. exists (mk_ndarray d [m] raw).
    split; [|split; [reflexivity|]].
    + revert H. unfold bind, seek, pure.
      destruct more; cbn [negb]; [destruct sel|]; now intros [= _ <- _].
    + exists m. split; [reflexivity|]. cbn [arr_data].
      assert (c = 1) by lia. subst c. split; nia.
Qed.

(** Lines 114-127 whenever they return. *)
Lemma read_block_size np single_type d c more ret s k ret' s' :
  Forall (Z.le 0) np ->
  0 < c ->
  read_block np single_type d c (c * itemsize d) more ret s
  = (Returns (k, ret'), s') ->
  let n := if single_type >? -1
           then nth (Z.to_nat single_type) np 0 else py_sum np in
  exists a,
    ret' = ret ++ [Array a]
    /\ arr_dtype a = d
    /\ (if c >? 1
        then arr_shape a = [n; c]
             /\ Z.of_nat (length (arr_data a)) = n * c * itemsize d
        else exists m,
               arr_shape a = [m] /\ 0 <= m <= n
               /\ Z.of_nat (length (arr_data a)) = m * itemsize d).
Proof.
  intros Hnn Hc. unfold read_block. rewrite bind_apply.
  destruct (single_type >? -1) eqn:Hgt.
  - rewrite bind_apply. unfold seek at 1. unfold lift at 1. unfold index.
    destruct (nth_error np (Z.to_nat single_type)) as [n|] eqn:Hn;
      [|discriminate].
    assert (Hin : (Z.to_nat single_type < length np)%nat).
    { apply nth_error_Some. now rewrite Hn. }
    pose proof (spans_nonneg np _ Hnn Hin) as (_ & Hn0 & _).
    rewrite (nth_error_nth np _ 0 Hn) in Hn0 |- *.
    intros H. cbv zeta.
    exact (payload_size true _ d c more ret n _ k ret' s' Hc Hn0 H).
  - unfold pure at 1. intros H. cbv zeta.
    exact (payload_size false 0 d c more ret (py_sum np) _ k ret' s' Hc
             (py_sum_nonneg np Hnn) H).
Qed.

(** X4: a position or velocity array that comes back is complete: one row
    of three components for every particle asked for, whatever the
    stream held.  An identifier or mass array that comes back has at most
    as many items as were asked for, and its bytes are whole items. *)
Theorem materialised_array_size :
  forall hd single_type i more ret s k ret' s' fmt fmt_64 c np,
    well_formed hd ->
    block_setup hd (mass_npart_of hd) i = Geometry fmt fmt_64 c np ->
    block_body hd (mass_npart_of hd) single_type i true more ret s
    = (Returns (k, ret'), s') ->
    let n := if single_type >? -1
             then nth (Z.to_nat single_type) np 0 else py_sum np in
    exists a,
      ret' = ret ++ [Array a]
      /\ (if (i <? 2)%nat
          then arr_shape a = [n; 3]
               /\ Z.of_nat (length (arr_data a))
                  = n * 3 * itemsize (arr_dtype a)
          else exists m,
                 arr_shape a = [m] /\ 0 <= m <= n
                 /\ Z.of_nat (length (arr_data a))
                    = m * itemsize (arr_dtype a)).
Proof.
  intros hd st i more ret s k ret' s' fmt fmt_64 c np Hwf Hs.
  destruct (block_setup_counts hd i _ _ _ _ Hwf Hs) as (Hnn & _ & Hc).
  destruct (block_setup_geometry _ _ _ _ _ _ _ Hs) as (_ & Hc3 & _).
  unfold block_body. rewrite Hs.
  rewrite bind_apply. unfold read at 1.
  destruct (BytesIO.read 4 s) as [raw s1].
  rewrite bind_apply. unfold lift at 1.
  destruct (unpack [c_I] raw) as [u|e]; [|discriminate].
  rewrite bind_apply. unfold lift at 1.
  destruct (check_size _ _ _ _) as [d|e]; [|discriminate].
  cbn [negb]. intros H. cbv zeta.
  apply read_block_size in H; [|assumption|assumption].
  cbv zeta in H. destruct H as (a & -> & Hd & Hsz).
  exists a. split; [reflexivity|]. rewrite Hd. subst c.
  destruct (i <? 2)%nat; exact Hsz.
Qed.

Lemma materialised_array_size_witness :
  let hd := make_header h57 in
  well_formed hd
  /\ exists a s',
       block_body hd (mass_npart_of hd) 1 0 true false [] at_first_block
       = (Returns (Break, [Array a]), s')
       /\ arr_shape a = [7; 3]
       /\ Z.of_nat (length (arr_data a)) = 7 * 3 * itemsize (arr_dtype a).
Proof.
  intros hd.
  assert (Hwf : well_formed hd).
  { repeat split; repeat constructor; lia. }
  split; [exact Hwf|].
  destruct (block_body hd (mass_npart_of hd) 1 0 true false []
              at_first_block) as [[[k r]|e] s'] eqn:Hb;
    [|exfalso; vm_compute in Hb; discriminate Hb].
  destruct (materialised_array_size hd 1 0 false [] at_first_block k r s'
              float32 float64 3 (npart hd) Hwf eq_refl Hb)
    as (a & -> & Hshape & Hsize).
  assert (Hk : k = Break).
  { eapply block_body_last_breaks; exact Hb. }
  subst k. exists a, s'. split; [reflexivity|]. split; assumption.
Defined.

(** ** Complete files *)

(** An iteration that materialises all types of a block which the stream
    holds and whose length fits a width. *)
Lemma block_body_complete hd i more ret s fmt fmt_64 c np :
  well_formed hd ->
  block_setup hd (mass_npart_of hd) i = Geometry fmt fmt_64 c np ->
  0 <= BytesIO.tell s ->
  let buf := BytesIO.getvalue s in
  let L := u32_at buf (BytesIO.tell s) in
  let n := py_sum np in
  L = n * c * 4 \/ L = n * c * 8 ->
  4 + L <= BytesIO.remaining s ->
  exists s',
    block_body hd (mass_npart_of hd) (-1) i true more ret s
    = (Returns (if more then Continue else Break,
                ret ++ [Array (expected_array i buf (BytesIO.tell s) n)]),
       s')
    /\ BytesIO.getvalue s' = buf
    /\ BytesIO.tell s' = BytesIO.tell s + 4 + L + (if more then 4 else 0).
Proof.
  intros Hwf Hs Ht buf L n HL Hav.
  destruct (block_setup_counts hd i _ _ _ _ Hwf Hs) as (Hnn & _ & Hc).
  destruct (block_setup_geometry _ _ _ _ _ _ _ Hs) as (Hf & Hc3 & _).
  destruct (BytesIO.read 4 s) as [raw s1] eqn:Hr.
  pose proof (read_marker s raw s1 Ht Hr)
    as (Hfull & HLr & Hg & Htl & _ & _ & Hrem).
  pose proof (le_uint_nonneg raw) as HL0. fold buf L in HLr.
  assert (Hl : length raw = 4%nat) by (apply Hfull; lia).
  rewrite Hl in Htl, Hrem.
  rewrite (block_body_prefix hd (mass_npart_of hd) (-1) i true more ret s
             fmt fmt_64 c np raw s1 Hs Hr Hl).
  fold n. rewrite HLr.
  assert (Hi : itemsize fmt = 4 /\ itemsize fmt_64 = 8).
  { destruct (i =? 2)%nat; injection Hf as -> ->; now cbn. }
  destruct Hi as [Hi4 Hi8].
  set (d := resolved_dtype i L (n * c)).
  assert (Hd : check_size fmt fmt_64 (c * n) L = Returns d
               /\ L = n * (c * itemsize d)).
  { subst d. unfold resolved_dtype.
    destruct (Z.eqb_spec L (n * c * 4)) as [E|E].
    - rewrite check_size_narrow by lia.
      destruct (i =? 2)%nat; injection Hf as -> ->; cbn [itemsize];
        split; [reflexivity|lia|reflexivity|lia].
    - rewrite check_size_wide by lia.
      destruct (i =? 2)%nat; injection Hf as -> ->; cbn [itemsize];
        split; [reflexivity|lia|reflexivity|lia]. }
  destruct Hd as [Hd HLd]. rewrite Hd. cbn [negb].
  destruct (read_block_full np (-1) d c more ret s1 ltac:(lia) Hnn Hc)
    as (s' & Heq & Hg' & Htl' & _).
  { intros H. discriminate H. }
  { change (-1 >? -1) with false. cbv iota. fold n. lia. }
  change (-1 >? -1) with false in Heq, Htl'. cbv iota in Heq, Htl'.
  fold n in Heq, Htl'. rewrite Z.add_0_l in Htl'.
  rewrite <- HLd in Heq, Htl'.
  rewrite Z.mul_0_l, Z.add_0_r, Hg, Htl in Heq.
  change (Z.of_nat 4) with 4 in *.
  assert (Harr :
    mk_ndarray d (if c >? 1 then [n; c] else [n * c])
      (firstn (Z.to_nat L)
         (skipn (Z.to_nat (BytesIO.tell s + 4)) (BytesIO.getvalue s)))
    = expected_array i buf (BytesIO.tell s) n).
  { unfold expected_array, slice_bytes. fold buf L. subst d. rewrite Hc3.
    destruct (i <? 2)%nat; [reflexivity|]. now rewrite Z.mul_1_r. }
  rewrite Harr in Heq.
  exists s'. split; [exact Heq|].
  split; [now rewrite Hg', Hg|].
  rewrite Htl', Htl. destruct more; lia.
Qed.

(** Block-level form of the size of a materialised array. *)
Lemma block_body_size hd single_type i more ret s k ret' s'
    fmt fmt_64 c np :
  well_formed hd ->
  block_setup hd (mass_npart_of hd) i = Geometry fmt fmt_64 c np ->
  block_body hd (mass_npart_of hd) single_type i true more ret s
  = (Returns (k, ret'), s') ->
  let n := if single_type >? -1
           then nth (Z.to_nat single_type) np 0 else py_sum np in
  exists a,
    ret' = ret ++ [Array a]
    /\ dtype_of_kind i (arr_dtype a)
    /\ (if (i <? 2)%nat
        then arr_shape a = [n; 3]
             /\ Z.of_nat (length (arr_data a))
                = n * 3 * itemsize (arr_dtype a)
        else exists m,
               arr_shape a = [m] /\ 0 <= m <= n
               /\ Z.of_nat (length (arr_data a))
                  = m * itemsize (arr_dtype a)).
Proof.
  intros Hwf Hs Hb.
  pose proof (block_body_kind _ _ _ _ _ _ _ _ _ _ _ Hb) as Hk.
  rewrite Hs in Hk. destruct Hk as [(a0 & Hr0 & Hd0) _].
  destruct (block_setup_counts hd i _ _ _ _ Hwf Hs) as (Hnn & _ & Hc).
  destruct (block_setup_geometry _ _ _ _ _ _ _ Hs) as (_ & Hc3 & _).
  revert Hb. unfold block_body. rewrite Hs.
  rewrite bind_apply. unfold read at 1.
  destruct (BytesIO.read 4 s) as [raw s1].
  rewrite bind_apply. unfold lift at 1.
  destruct (unpack [c_I] raw) as [u|e]; [|discriminate].
  rewrite bind_apply. unfold lift at 1.
  destruct (check_size _ _ _ _) as [d|e]; [|discriminate].
  cbn [negb]. intros H. cbv zeta.
  apply read_block_size in H; [|assumption|assumption].
  cbv zeta in H. destruct H as (a & Hr & Hd & Hsz).
  exists a. split; [exact Hr|].
  assert (a = a0).
  { rewrite Hr in Hr0. apply app_inv_head in Hr0. now injection Hr0. }
  subst a0. split; [exact Hd0|]. rewrite Hd. subst c.
  destruct (i <? 2)%nat; exact Hsz.
Qed.

(** ** The caller's use of the decoder *)

(** X5: on a chunk that holds the header record and a position record whose
    length fits a width, the caller gets the position array: one row per
    particle of the header, made of the payload bytes as they are.
    Nothing after the payload is needed, not even the trailing marker. *)
Theorem ptcls_tmp_complete :
  forall content,
    let hd := decoded_header false (BytesIO.open content) in
    let N := py_sum (npart hd) in
    let L := u32_at content 264 in
    L = N * 3 * 4 \/ L = N * 3 * 8 ->
    268 + L <= Z.of_nat (length content) ->
    ptcls_tmp content
    = Returns (V_obj (Array (expected_array 0 content 264 N))).
Proof.
  intros content hd N L HL Hlen.
  pose proof (le_uint_nonneg (firstn 4 (skipn (Z.to_nat 264) content)))
    as HL0. fold (u32_at content 264) in HL0. fold L in HL0.
  set (s := BytesIO.open content).
  assert (Ht : 0 <= BytesIO.tell s) by (cbn; lia).
  assert (Hr : 200 <= BytesIO.remaining s).
  { rewrite remaining_eq by exact Ht. unfold s, BytesIO.open.
    cbn [BytesIO.tell BytesIO.getvalue]. lia. }
  unfold ptcls_tmp. fold s.
  rewrite call_blocks by (assumption || reflexivity). cbv zeta. fold hd.
  change (selector_in_force (-1) false) with (-1).
  cbn [walk].
  rewrite bind_apply.
  change (py_any (skipn 1 [true; false; false; false])) with false.
  destruct (block_body_complete hd 0 false [Header hd] (after_header s)
              float32 float64 3 (npart hd)
              (decoded_header_well_formed false s) eq_refl)
    as (s' & Heq & _).
  { unfold after_header. cbn [BytesIO.tell]. lia. }
  { exact HL. }
  { rewrite remaining_eq
      by (unfold after_header; cbn [BytesIO.tell]; lia).
    unfold after_header, s, BytesIO.open.
    cbn [BytesIO.tell BytesIO.getvalue]. change (0 + 264) with 264.
    fold L. lia. }
  change (BytesIO.getvalue (after_header s)) with content in Heq.
  change (BytesIO.tell (after_header s)) with 264 in Heq.
  fold N in Heq. subst N hd s. rewrite Heq. reflexivity.
Qed.

Lemma ptcls_tmp_complete_witness :
  let hd := decoded_header false (BytesIO.open file57) in
  u32_at file57 264 = py_sum (npart hd) * 3 * 4
  /\ 268 + u32_at file57 264 <= Z.of_nat (length file57)
  /\ ptcls_tmp file57
     = Returns (V_obj (Array (mk_ndarray float32 [12; 3]
                                (payload_from 0 144)))).
Proof.
  intros hd.
  assert (HL : u32_at file57 264 = py_sum (npart hd) * 3 * 4)
    by (vm_compute; reflexivity).
  assert (Hlen : 268 + u32_at file57 264 <= Z.of_nat (length file57))
    by (vm_compute; discriminate).
  split; [exact HL|]. split; [exact Hlen|].
  rewrite (ptcls_tmp_complete file57 (or_introl HL) Hlen).
  vm_compute. reflexivity.
Defined.

(** X6: whatever the chunk holds: when the caller gets a value it is the
    second item of a two-item tuple, a float array with one row of three
    components per particle of the header that was decoded, and when an
    exception comes out it is one of the decoder's; the indexing [[1]]
    itself never fails. *)
Theorem ptcls_tmp_outcomes :
  forall content,
    (forall v, ptcls_tmp content = Returns v ->
       exists hd a,
         fst (read_gadget_snapshot true false false false (-1) false
                (BytesIO.open content))
         = Returns (ret_tuple [Header hd; Array a])
         /\ v = V_obj (Array a)
         /\ arr_shape a = [py_sum (npart hd); 3]
         /\ (arr_dtype a = float32 \/ arr_dtype a = float64)
         /\ Z.of_nat (length (arr_data a))
            = py_sum (npart hd) * 3 * itemsize (arr_dtype a))
    /\ (forall e, ptcls_tmp content = Raises e -> decoder_error e).
Proof.
  intros content. unfold ptcls_tmp.
  destruct (read_gadget_snapshot true false false false (-1) false
              (BytesIO.open content)) as [o s'] eqn:Hrun.
  cbn [fst].
  pose proof (call_any _ _ _ _ _ _ _ _ _ Hrun) as [_ Herr].
  revert Hrun. unfold read_gadget_snapshot. rewrite bind_apply.
  destruct (read_header (-1) false (BytesIO.open content))
    as [o0 s0] eqn:Hh.
  apply read_header_any in Hh. destruct Hh as (_ & _ & Hok).
  destruct o0 as [[hd t]|e0].
  2:{ intros [= <- <-]. split; [intros v E; discriminate E|].
      intros e [= <-]. now apply Herr. }
  destruct (Hok hd t eq_refl) as [Hwf ->].
  cbn [py_any orb negb].
  rewrite bind_apply. unfold seek at 1.
  rewrite bind_apply. unfold seek at 1.
  rewrite bind_apply.
  change (if negb (in_range6 (-1)) then -1 else -1) with (-1).
  cbn [enumerate_from walk]. rewrite bind_apply.
  change (py_any (skipn 1 [true; false; false; false])) with false.
  destruct (block_body hd (mass_npart_of hd) (-1) 0 true false _ _)
    as [[[k r1]|e1] s1] eqn:Hb.
  2:{ intros [= <- <-]. split; [intros v E; discriminate E|].
      intros e [= <-]. now apply Herr. }
  pose proof (block_body_last_breaks _ _ _ _ _ _ _ _ _ Hb) as ->.
  apply (block_body_size hd (-1) 0 false _ _ _ _ _
           float32 float64 3 (npart hd) Hwf eq_refl) in Hb.
  cbv zeta in Hb. change (-1 >? -1) with false in Hb.
  cbn [Nat.ltb Nat.leb] in Hb.
  destruct Hb as (a & -> & Hd & Hshape & Hsize).
  unfold pure. intros [= <- <-]. split.
  - cbn [getitem1 app nth_error]. intros v [= <-].
    exists hd, a. repeat split; assumption.
  - cbn [getitem1 app nth_error]. intros e E; discriminate E.
Qed.

Lemma ptcls_tmp_outcomes_witness :
  ptcls_tmp (truncated 100 file57) = Raises (struct_error 196)
  /\ decoder_error (struct_error 196).
Proof.
  assert (H : ptcls_tmp (truncated 100 file57)
              = Raises (struct_error 196)) by (vm_compute; reflexivity).
  split; [exact H|].
  exact (proj2 (ptcls_tmp_outcomes (truncated 100 file57)) _ H).
Defined.

(** X7: reading everything from a complete file.  Each record declares its
    own length, narrow or wide independently of the others; the four
    arrays are the four payloads as they are, and the stream is left at
    the end of the mass payload (or, when no particle has a free mass,
    where the mass record would begin). *)
Theorem full_decode :
  forall s,
    0 <= BytesIO.tell s ->
    let buf := BytesIO.getvalue s in
    let hd := decoded_header false s in
    let N := py_sum (npart hd) in
    let M := py_sum (mass_npart_of hd) in
    let p0 := BytesIO.tell s + 264 in
    let p1 := next_record buf p0 in
    let p2 := next_record buf p1 in
    let p3 := next_record buf p2 in
    let fits p n := u32_at buf p = n * 4 \/ u32_at buf p = n * 8 in
    fits p0 (N * 3) -> fits p1 (N * 3) -> fits p2 N ->
    (if M =? 0 then p2 + 4 + u32_at buf p2 <= Z.of_nat (length buf)
     else fits p3 M /\ p3 + 4 + u32_at buf p3 <= Z.of_nat (length buf)) ->
    let run := read_gadget_snapshot true true true true (-1) false s in
    fst run
    = Returns (ret_tuple
                 [Header hd;
                  Array (expected_array 0 buf p0 N);
                  Array (expected_array 1 buf p1 N);
                  Array (expected_array 2 buf p2 N);
                  Array (if M =? 0 then empty_array float32
                         else expected_array 3 buf p3 M)])
    /\ BytesIO.tell (snd run)
       = (if M =? 0 then p3 else p3 + 4 + u32_at buf p3).
Proof.
  intros s Ht buf hd N M p0 p1 p2 p3 fits H0 H1 H2 H3 run.
  pose proof (decoded_header_well_formed false s) as Hwf. fold hd in Hwf.
  assert (Hu : forall p, 0 <= u32_at buf p)
    by (intros p; apply le_uint_nonneg).
  pose proof (Hu p0) as U0. pose proof (Hu p1) as U1.
  pose proof (Hu p2) as U2. pose proof (Hu p3) as U3.
  assert (E1 : p1 = p0 + 4 + u32_at buf p0 + 4) by reflexivity.
  assert (E2 : p2 = p1 + 4 + u32_at buf p1 + 4) by reflexivity.
  assert (E3 : p3 = p2 + 4 + u32_at buf p2 + 4) by reflexivity.
  assert (Hend : p2 + 4 + u32_at buf p2 <= Z.of_nat (length buf)).
  { destruct (M =? 0); lia. }
  assert (Hr : 200 <= BytesIO.remaining s).
  { rewrite remaining_eq by exact Ht. fold buf. lia. }
  subst run. rewrite call_blocks by (assumption || reflexivity).
  cbv zeta. fold hd.
  change (selector_in_force (-1) false) with (-1).
  set (sa := after_header s).
  assert (Hsa : BytesIO.getvalue sa = buf /\ BytesIO.tell sa = p0)
    by (split; reflexivity).
  destruct Hsa as [Hga Hta]. clearbody sa.
  clearbody p1 p2 p3. clearbody hd.
  cbn [walk]. rewrite bind_apply.
  change (py_any (skipn 1 [true; true; true; true])) with true.
  change (py_any (skipn 2 [true; true; true; true])) with true.
  change (py_any (skipn 3 [true; true; true; true])) with true.
  change (py_any (skipn 4 [true; true; true; true])) with false.
  (* positions *)
  destruct (block_body_complete hd 0 true [Header hd] sa
              float32 float64 3 (npart hd) Hwf eq_refl)
    as (s0 & Heq0 & Hg0 & Ht0).
  { lia. }
  { rewrite Hga, Hta. fold N. exact H0. }
  { rewrite remaining_eq by lia. rewrite Hga, Hta. lia. }
  rewrite Hga, Hta in Heq0, Ht0. rewrite Hga in Hg0.
  fold N in Heq0. rewrite Heq0.
  (* velocities *)
  rewrite bind_apply.
  destruct (block_body_complete hd 1 true
              ([Header hd] ++ [Array (expected_array 0 buf p0 N)]) s0
              float32 float64 3 (npart hd) Hwf eq_refl)
    as (s1 & Heq1 & Hg1 & Ht1).
  { lia. }
  { rewrite Hg0, Ht0, <- E1. fold N. exact H1. }
  { rewrite remaining_eq by lia. rewrite Hg0, Ht0, <- E1. lia. }
  rewrite Hg0, Ht0, <- E1 in Heq1, Ht1. rewrite Hg0 in Hg1.
  fold N in Heq1. rewrite Heq1.
  (* identifiers *)
  rewrite bind_apply.
  destruct (block_body_complete hd 2 true
              (([Header hd] ++ [Array (expected_array 0 buf p0 N)])
                 ++ [Array (expected_array 1 buf p1 N)]) s1
              uint32 uint64 1 (npart hd) Hwf eq_refl)
    as (s2 & Heq2 & Hg2 & Ht2).
  { lia. }
  { rewrite Hg1, Ht1, <- E2. fold N.
    destruct H2 as [H2|H2]; [left|right]; rewrite H2; ring. }
  { rewrite remaining_eq by lia. rewrite Hg1, Ht1, <- E2. lia. }
  rewrite Hg1, Ht1, <- E2 in Heq2, Ht2. rewrite Hg1 in Hg2.
  fold N in Heq2. rewrite Heq2.
  rewrite <- E3 in Ht2.
  (* masses *)
  rewrite bind_apply.
  destruct (Z.eqb_spec M 0) as [HM|HM].
  - unfold block_body, block_setup. cbn [Nat.ltb Nat.leb Nat.eqb].
    fold M. rewrite HM. cbn [Z.eqb]. unfold pure, as_tuple. cbn [fst snd].
    split; [reflexivity|exact Ht2].
  - assert (Hs3 : block_setup hd (mass_npart_of hd) 3
                  = Geometry float32 float64 1 (mass_npart_of hd)).
    { unfold block_setup. cbn [Nat.ltb Nat.leb Nat.eqb]. fold M.
      destruct (Z.eqb_spec M 0); [contradiction|reflexivity]. }
    destruct H3 as [H3 H3len].
    destruct (block_body_complete hd 3 false
                ((([Header hd] ++ [Array (expected_array 0 buf p0 N)])
                    ++ [Array (expected_array 1 buf p1 N)])
                   ++ [Array (expected_array 2 buf p2 N)]) s2
                float32 float64 1 (mass_npart_of hd) Hwf Hs3)
      as (s3 & Heq3 & Hg3 & Ht3).
    { lia. }
    { rewrite Hg2, Ht2. fold M.
      destruct H3 as [H3|H3]; [left|right]; rewrite H3; ring. }
    { rewrite remaining_eq by lia. rewrite Hg2, Ht2. lia. }
    rewrite Hg2, Ht2 in Heq3, Ht3. fold M in Heq3. rewrite Heq3.
    unfold pure, as_tuple. cbn [fst snd].
    split; [reflexivity|lia].
Qed.

Lemma full_decode_witness :
  let s := BytesIO.open file57 in
  0 <= BytesIO.tell s
  /\ exists hd pos vel ids masses,
       fst (read_gadget_snapshot true true true true (-1) false s)
       = Returns (ret_tuple [Header hd; Array pos; Array vel; Array ids;
                             Array masses])
       /\ arr_shape pos = [12; 3] /\ arr_shape vel = [12; 3]
       /\ arr_shape ids = [12] /\ arr_shape masses = [12]
       /\ arr_dtype ids = uint32
       /\ BytesIO.tell
            (snd (read_gadget_snapshot true true true true (-1) false s))
          = 676.
Proof.
  intros s.
  assert (Ht : 0 <= BytesIO.tell s) by (cbn; lia).
  split; [exact Ht|].
  destruct (full_decode s Ht) as [H1 H2].
  - vm_compute. now left.
  - vm_compute. now left.
  - vm_compute. now left.
  - vm_compute. split; [now left|discriminate].
  - do 5 eexists. split; [exact H1|].
    rewrite H2. vm_compute. repeat split; reflexivity.
Defined.

(** ** The range of the header fields *)

Lemma byte_val_range b : 0 <= byte_val b < 256.
Proof.
  unfold byte_val. pose proof (Byte.to_N_bounded b). lia.
Qed.

Lemma le_uint_lt bs : le_uint bs < 256 ^ Z.of_nat (length bs).
Proof.
  induction bs as [|b r IH]; [cbn; lia|].
  cbn [le_uint length]. rewrite Nat2Z.inj_succ, Z.pow_succ_r by lia.
  pose proof (byte_val_range b). lia.
Qed.

Lemma le_uint_firstn_range (k : nat) l :
  0 <= le_uint (firstn k l) < 256 ^ Z.of_nat k.
Proof.
  split; [apply le_uint_nonneg|].
  eapply Z.lt_le_trans; [apply le_uint_lt|].
  apply Z.pow_le_mono_r; [lia|]. rewrite length_firstn. lia.
Qed.

Lemma le_sint_firstn4_range l :
  - 2 ^ 31 <= le_sint (firstn 4 l) < 2 ^ 31.
Proof.
  pose proof (le_uint_nonneg (firstn 4 l)) as H0.
  pose proof (le_uint_lt (firstn 4 l)) as H1.
  assert (Hlen : (length (firstn 4 l) <= 4)%nat)
    by (rewrite length_firstn; lia).
  unfold le_sint. set (n := length (firstn 4 l)) in *.
  set (v := le_uint (firstn 4 l)) in *. clearbody v n.
  assert (Hn : n = 0%nat \/ n = 1%nat \/ n = 2%nat \/ n = 3%nat
               \/ n = 4%nat) by lia.
  destruct Hn as [->|[->|[->|[->| ->]]]];
    match goal with
    | |- context [?a <? ?b] => destruct (Z.ltb_spec a b) as [Hlt|Hge]
    end;
    cbn in H1, Hlt || cbn in H1, Hge; cbn; lia.
Qed.

Lemma unpack_from_range fmt : forall off buf,
  Forall2 code_range fmt (unpack_from off fmt buf).
Proof.
  induction fmt as [|c r IH]; intros off buf; cbn [unpack_from];
    constructor; [|apply IH].
  destruct c; cbn [code_range unpack_one code_size].
  - change (Z.to_nat 4) with 4%nat. apply (le_uint_firstn_range 4).
  - change (Z.to_nat 4) with 4%nat. apply le_sint_firstn4_range.
  - change (Z.to_nat 8) with 8%nat. apply (le_uint_firstn_range 8).
Qed.

Lemma unpacked_header_in_range raw (lgadget : bool) :
  let h := unpack_from 0 gadget_header_fmt raw in
  header_in_range (make_header (if lgadget then lgadget_remap h else h)).
Proof.
  intros h.
  pose proof (unpack_from_range gadget_header_fmt 0 raw) as HF. fold h in HF.
  clearbody h. unfold gadget_header_fmt in HF. cbn [repeat app] in HF.
  repeat match type of HF with
         | Forall2 _ (_ :: _) _ =>
             let x := fresh "x" in let Hx := fresh "Hx" in
             inversion HF as [|? x ? ? Hx HF']; subst; clear HF;
             rename HF' into HF; cbn [code_range] in Hx
         end.
  inversion HF; subst. clear HF.
  unfold header_in_range.
  destruct lgadget; cbn [make_header lgadget_remap list_set nth py_slice
    skipn firstn Nat.sub npart mass time redshift flag_sfr flag_feedback
    npartTotal flag_cooling num_files BoxSize Omega0 OmegaLambda HubbleParam
    flag_age flag_metals NallHW flag_entr_ics length];
    repeat split; repeat constructor; cbn [code_range]; lia.
Qed.

(** X8: every header a call hands back has six counts, six masses, six total
    counts and six high words, and each field lies in the range of its
    format code: counts in [0, 2^32), flags in [-2^31, 2^31).  This holds
    for the l-gadget variant too. *)
Theorem returned_header_in_range :
  forall read_pos read_vel read_id read_mass single_type lgadget s r s',
    read_gadget_snapshot read_pos read_vel read_id read_mass single_type
      lgadget s = (Returns r, s') ->
    exists hd, header_of r = Some hd /\ header_in_range hd.
Proof.
  intros rp rv ri rm st lg s r s' H.
  apply call_header in H. destruct H as (hd & t & s0 & Hh & Hr).
  exists hd. split; [exact Hr|].
  revert Hh. unfold read_header.
  rewrite bind_apply. unfold seek at 1.
  rewrite bind_apply. unfold read at 1.
  destruct (BytesIO.read _ _) as [raw s1].
  rewrite bind_apply. unfold lift at 1. unfold unpack.
  destruct (_ =? _); [|discriminate].
  pose proof (unpacked_header_in_range raw lg) as Hrange.
  cbv zeta in Hrange.
  set (hv := make_header _) in Hrange. 
  assert (Hgen : (let '(h, t0) :=
                    if lg
                    then (lgadget_remap
                            (unpack_from 0 gadget_header_fmt raw), 1)
                    else (unpack_from 0 gadget_header_fmt raw, st)
                  in pure (make_header h, t0)) s1
                 = (Returns (hv, if lg then 1 else st), s1)).
  { subst hv. destruct lg; reflexivity. }
  rewrite Hgen. clearbody hv.
  intros E. apply pair_equal_spec in E. destruct E as [E _].
  injection E as <- _. exact Hrange.
Qed.

Lemma returned_header_in_range_witness :
  exists r s' hd,
    read_gadget_snapshot false false false false (-1) true
      (BytesIO.open file57) = (Returns r, s')
    /\ header_of r = Some hd /\ header_in_range hd.
Proof.
  destruct (read_gadget_snapshot false false false false (-1) true
              (BytesIO.open file57)) as [[r|e] s'] eqn:Hrun;
    [|exfalso; vm_compute in Hrun; discriminate Hrun].
  destruct (returned_header_in_range _ _ _ _ _ _ _ _ _ Hrun)
    as (hd & H1 & H2).
  exists r, s', hd. split; [reflexivity|]. split; assumption.
Defined.

(** ** When there is no mass record *)

Lemma mass_npart_sum_zero ms : forall ns,
  length ms = length ns ->
  Forall (Z.le 0) ns ->
  (py_sum (map (fun mn => if float_truth (fst mn) then 0 else snd mn)
             (combine ms ns)) = 0
   <-> Forall2 (fun m n => float_truth m = true \/ n = 0) ms ns).
Proof.
  induction ms as [|m ms IH]; intros ns Hlen Hnn.
  - destruct ns; [|discriminate Hlen]. cbn. split; [constructor|reflexivity].
  - destruct ns as [|n ns]; [discriminate Hlen|].
    injection Hlen as Hlen. inversion Hnn as [|? ? Hn Hns]; subst.
    cbn [combine map fst snd py_sum].
    specialize (IH ns Hlen Hns).
    assert (Hrest : 0 <= py_sum
                      (map (fun mn => if float_truth (fst mn) then 0
                                      else snd mn) (combine ms ns))).
    { apply py_sum_nonneg.
      clear IH Hlen Hnn Hn. revert ns Hns.
      induction ms as [|m' ms IHm]; intros ns Hns; [constructor|].
      destruct ns as [|n' ns]; [constructor|].
      inversion Hns; subst. cbn [combine map fst snd].
      constructor; [destruct (float_truth m'); lia|now apply IHm]. }
    split.
    + intros H. constructor.
      * destruct (float_truth m); [now left|right; lia].
      * apply IH. destruct (float_truth m); lia.
    + intros H. inversion H as [|? ? ? ? Hmn Hrest']; subst.
      apply IH in Hrest'. rewrite Hrest'.
      destruct Hmn as [->| ->]; [lia|]. destruct (float_truth m); lia.
Qed.

(** X9: the mass iteration takes the empty branch exactly when no particle
    has a free mass: every type has a nonzero type mass or no particle.
    It then appends an empty float32 array and leaves the stream as it
    is, whether or not the other blocks were read. *)
Theorem mass_record_absent_iff :
  forall hd,
    well_formed hd ->
    (block_setup hd (mass_npart_of hd) 3 = EmptyMass
     <-> Forall2 (fun m n => float_truth m = true \/ n = 0)
           (mass hd) (npart hd))
    /\ (block_setup hd (mass_npart_of hd) 3 = EmptyMass ->
        forall single_type b more ret s,
          block_body hd (mass_npart_of hd) single_type 3 b more ret s
          = (Returns (Break, ret ++ [Array (empty_array float32)]), s)).
Proof.
  intros hd (Hn & Hm & Hnn). split.
  - rewrite <- (mass_npart_sum_zero (mass hd) (npart hd))
      by (congruence || assumption).
    fold (mass_npart_of hd).
    unfold block_setup. cbn [Nat.ltb Nat.leb Nat.eqb].
    destruct (Z.eqb_spec (py_sum (mass_npart_of hd)) 0) as [E|E].
    + split; auto.
    + split; [discriminate|contradiction].
  - intros Hs st b more ret s. unfold block_body. now rewrite Hs.
Qed.

(** A header whose type masses are all zero, so that every mass is free,
    but which counts no particle: there is no mass record. *)
Lemma mass_record_absent_iff_witness :
  let hd := make_header (repeat 0 37) in
  well_formed hd
  /\ Forall2 (fun m n => float_truth m = true \/ n = 0) (mass hd) (npart hd)
  /\ block_setup hd (mass_npart_of hd) 3 = EmptyMass.
Proof.
  intros hd.
  assert (Hwf : well_formed hd).
  { repeat split; repeat constructor; lia. }
  assert (HF : Forall2 (fun m n => float_truth m = true \/ n = 0)
                 (mass hd) (npart hd)).
  { repeat constructor; now right. }
  split; [exact Hwf|]. split; [exact HF|].
  exact (proj2 (proj1 (mass_record_absent_iff hd Hwf)) HF).
Defined.

(** ** Blocks that are not requested *)

(** X10: of a block that is not requested only the 4 bytes of the leading
    marker are read, however the iteration ends; when it returns, the
    loop goes on with the result unchanged and the stream at the leading
    marker of the next record. *)
Theorem skipped_block_io :
  forall hd single_type i more ret s fmt fmt_64 c np,
    well_formed hd ->
    block_setup hd (mass_npart_of hd) i = Geometry fmt fmt_64 c np ->
    0 <= BytesIO.tell s ->
    let run :=
      block_body hd (mass_npart_of hd) single_type i false more ret s in
    BytesIO.high (snd run)
    <= Z.max (BytesIO.high s) (BytesIO.tell s + 4)
    /\ (forall k r, fst run = Returns (k, r) ->
          k = Continue /\ r = ret
          /\ BytesIO.tell (snd run)
             = next_record (BytesIO.getvalue s) (BytesIO.tell s)).
Proof.
  intros hd st i more ret s fmt fmt_64 c np Hwf Hs Ht run. subst run.
  destruct (block_body hd (mass_npart_of hd) st i false more ret s)
    as [o s'] eqn:Hrun.
  cbn [fst snd]. split.
  - revert Hrun. unfold block_body. rewrite Hs.
    rewrite bind_apply. unfold read at 1.
    destruct (BytesIO.read 4 s) as [raw s1] eqn:Hr.
    pose proof (read_spec _ _ _ _ Hr ltac:(lia))
      as (_ & Hlen & _ & Htl & _ & Hh).
    rewrite bind_apply. unfold lift at 1.
    destruct (unpack [c_I] raw) as [u|e].
    2:{ intros E. apply pair_equal_spec in E. destruct E as [_ <-]. lia. }
    rewrite bind_apply. unfold lift at 1.
    destruct (check_size _ _ _ _) as [d|e].
    2:{ intros E. apply pair_equal_spec in E. destruct E as [_ <-]. lia. }
    cbn [negb]. unfold skip_block, bind, seek, pure.
    intros E. apply pair_equal_spec in E. destruct E as [_ <-].
    cbn [BytesIO.seek_cur BytesIO.high]. lia.
  - intros k r ->.
    apply (block_body_skip_ok hd (mass_npart_of hd) st i more ret s
             fmt fmt_64 c np k r s' Hs Ht) in Hrun.
    destruct Hrun as (-> & -> & _ & Htl & _). auto.
Qed.

Lemma skipped_block_io_witness :
  let hd := make_header h57 in
  let run := block_body hd (mass_npart_of hd) (-1) 0 false true []
               at_first_block in
  well_formed hd
  /\ 0 <= BytesIO.tell at_first_block
  /\ BytesIO.high (snd run) <= 268
  /\ BytesIO.tell (snd run) = 416.
Proof.
  intros hd run.
  assert (Hwf : well_formed hd).
  { repeat split; repeat constructor; lia. }
  assert (Ht : 0 <= BytesIO.tell at_first_block) by (cbn; lia).
  split; [exact Hwf|]. split; [exact Ht|].
  destruct (skipped_block_io hd (-1) 0 true [] at_first_block
              float32 float64 3 (npart hd) Hwf eq_refl Ht) as [H1 H2].
  fold run in H1, H2.
  split.
  - cbn [at_first_block BytesIO.high BytesIO.tell] in H1. lia.
  - destruct (fst run) as [[k r]|e] eqn:Hf;
      [|exfalso; vm_compute in Hf; discriminate Hf].
    destruct (H2 k r eq_refl) as (_ & _ & H3). rewrite H3.
    vm_compute. reflexivity.
Defined.

(** ** Position-only calls under a selector *)

(** X11: a call that requests only the positions and returns hands back a
    two-item tuple whose array has one row of three components for each
    particle of the selected type, or of all types when the selector in
    force is -1.  With [lgadget=True] these are the particles of type 1. *)
Theorem positions_of_selected_type :
  forall single_type lgadget s r s',
    read_gadget_snapshot true false false false single_type lgadget s
    = (Returns r, s') ->
    let t := selector_in_force single_type lgadget in
    exists hd a,
      r = ret_tuple [Header hd; Array a]
      /\ arr_shape a
         = [if t >? -1 then nth (Z.to_nat t) (npart hd) 0
            else py_sum (npart hd); 3]
      /\ (arr_dtype a = float32 \/ arr_dtype a = float64)
      /\ Z.of_nat (length (arr_data a))
         = (if t >? -1 then nth (Z.to_nat t) (npart hd) 0
            else py_sum (npart hd)) * 3 * itemsize (arr_dtype a).
Proof.
  intros st lg s r s'.
  unfold read_gadget_snapshot. rewrite bind_apply.
  destruct (read_header st lg s) as [o0 s0] eqn:Hh.
  apply read_header_any in Hh. destruct Hh as (_ & _ & Hok).
  destruct o0 as [[hd t]|e0]; [|discriminate].
  destruct (Hok hd t eq_refl) as [Hwf ->].
  cbn [py_any orb negb].
  rewrite bind_apply. unfold seek at 1.
  rewrite bind_apply. unfold seek at 1.
  rewrite bind_apply.
  fold (selector_in_force st lg).
  cbn [enumerate_from walk]. rewrite bind_apply.
  change (py_any (skipn 1 [true; false; false; false])) with false.
  destruct (block_body hd (mass_npart_of hd) _ 0 true false _ _)
    as [[[k r1]|e1] s1] eqn:Hb; [|discriminate].
  pose proof (block_body_last_breaks _ _ _ _ _ _ _ _ _ Hb) as ->.
  apply (block_body_size hd _ 0 false _ _ _ _ _
           float32 float64 3 (npart hd) Hwf eq_refl) in Hb.
  cbv zeta in Hb. cbn [Nat.ltb Nat.leb] in Hb.
  destruct Hb as (a & -> & Hd & Hshape & Hsize).
  unfold pure. intros E. apply pair_equal_spec in E. destruct E as [E _].
  injection E as <-. cbv zeta.
  exists hd, a. repeat split; assumption.
Qed.

Lemma positions_of_selected_type_witness :
  exists r s' hd a,
    read_gadget_snapshot true false false false (-1) true
      (BytesIO.open file57) = (Returns r, s')
    /\ selector_in_force (-1) true = 1
    /\ r = ret_tuple [Header hd; Array a]
    /\ arr_shape a = [7; 3].
Proof.
  destruct (read_gadget_snapshot true false false false (-1) true
              (BytesIO.open file57)) as [[r|e] s'] eqn:Hrun;
    [|exfalso; vm_compute in Hrun; discriminate Hrun].
  destruct (positions_of_selected_type (-1) true _ _ _ Hrun)
    as (hd & a & Hr & Hshape & _).
  exists r, s', hd, a. split; [reflexivity|]. split; [reflexivity|].
  split; [exact Hr|]. rewrite Hshape.
  subst r. vm_compute in Hrun. injection Hrun as <- _ _. reflexivity.
Defined.

(** ** Decoding from any offset *)

Lemma view_seek off s :
  0 <= BytesIO.tell s -> 0 <= off ->
  view (BytesIO.seek_cur off s) = skipn (Z.to_nat off) (view s).
Proof.
  intros Ht Ho. unfold view. cbn [BytesIO.seek_cur BytesIO.tell
                                     BytesIO.getvalue].
  rewrite skipn_skipn. f_equal. lia.
Qed.

Lemma read_view n s :
  0 <= BytesIO.tell s ->
  let out := if n <? 0 then view s else firstn (Z.to_nat n) (view s) in
  fst (BytesIO.read n s) = out
  /\ BytesIO.tell (snd (BytesIO.read n s))
     = BytesIO.tell s + Z.of_nat (length out)
  /\ view (snd (BytesIO.read n s)) = skipn (length out) (view s).
Proof.
  intros Ht out. unfold BytesIO.read. fold (view s). fold out.
  cbn [fst snd BytesIO.tell BytesIO.getvalue].
  split; [reflexivity|]. split; [reflexivity|].
  unfold view at 1. cbn [BytesIO.tell BytesIO.getvalue].
  unfold view. rewrite skipn_skipn. f_equal. lia.
Qed.

Lemma reloc_pure {A} (a : A) : relocatable (pure a).
Proof. intros p s1 s2 H. now split. Qed.

Lemma reloc_lift {A} (o : outcome A) : relocatable (lift o).
Proof. intros p s1 s2 H. now split. Qed.

Lemma reloc_seek off : 0 <= off -> relocatable (seek off).
Proof.
  intros Ho p s1 s2 (Hp & Ht & Htl & Hv). unfold seek. cbn [fst snd].
  split; [reflexivity|]. unfold shifted.
  rewrite !view_seek by lia. rewrite Hv.
  cbn [BytesIO.seek_cur BytesIO.tell]. repeat split; lia.
Qed.

Lemma reloc_read n : relocatable (read n).
Proof.
  intros p s1 s2 (Hp & Ht & Htl & Hv). unfold read.
  destruct (BytesIO.read n s1) as [o1 s1'] eqn:H1.
  destruct (BytesIO.read n s2) as [o2 s2'] eqn:H2.
  pose proof (read_view n s1 ltac:(lia)) as (A1 & B1 & C1).
  pose proof (read_view n s2 ltac:(lia)) as (A2 & B2 & C2).
  rewrite H1 in A1, B1, C1. rewrite H2 in A2, B2, C2.
  cbn [fst snd] in *. rewrite Hv in A1, B1, C1.
  split; [congruence|]. unfold shifted.
  rewrite B1, B2, C1, C2. repeat split; lia.
Qed.

Lemma reloc_bind {A B} (m : M A) (k : A -> M B) (Q : A -> Prop) :
  relocatable m ->
  (forall s a s', m s = (Returns a, s') -> Q a) ->
  (forall a, Q a -> relocatable (k a)) ->
  relocatable (bind m k).
Proof.
  intros Hm HQ Hk p s1 s2 Hs. rewrite !bind_apply.
  destruct (Hm p s1 s2 Hs) as [Ho Hs'].
  destruct (m s1) as [o1 s1'] eqn:E1. destruct (m s2) as [o2 s2'] eqn:E2.
  cbn [fst snd] in Ho, Hs'. subst o2.
  destruct o1 as [a|e]; [|now split].
  apply (Hk a (HQ _ _ _ E1) p s1' s2' Hs').
Qed.

Lemma reloc_bind' {A B} (m : M A) (k : A -> M B) :
  relocatable m -> (forall a, relocatable (k a)) -> relocatable (bind m k).
Proof.
  intros Hm Hk. apply (reloc_bind m k (fun _ => True)); auto.
Qed.

Lemma reloc_read_block np single_type d c spp more ret :
  Forall (Z.le 0) np -> 0 <= spp ->
  relocatable (read_block np single_type d c spp more ret).
Proof.
  intros Hnn Hspp. unfold read_block.
  apply reloc_bind'.
  - destruct (single_type >? -1); [|apply reloc_pure].
    apply reloc_bind'; [|intros; apply reloc_lift].
    apply reloc_seek. apply Z.mul_nonneg_nonneg; [|exact Hspp].
    apply py_sum_nonneg.
    now destruct (Forall_firstn_skipn (Z.le 0) (Z.to_nat single_type) np Hnn).
  - intros n. apply reloc_bind'; [apply reloc_read|]. intros raw.
    apply reloc_bind'; [apply reloc_lift|]. intros data.
    apply reloc_bind'.
    + destruct (c >? 1); [apply reloc_lift|apply reloc_pure].
    + intros data'. cbv zeta.
      destruct more; cbn [negb]; [|apply reloc_pure].
      apply reloc_bind'.
      * destruct (single_type >? -1); [|apply reloc_pure].
        apply reloc_seek. apply Z.mul_nonneg_nonneg; [|exact Hspp].
        apply py_sum_nonneg.
        now destruct (Forall_firstn_skipn (Z.le 0)
                        (Z.to_nat (single_type + 1)) np Hnn).
      * intros _. apply reloc_bind'; [apply reloc_seek; lia|].
        intros _. apply reloc_pure.
Qed.

Lemma reloc_block_body hd single_type i b more ret :
  well_formed hd ->
  relocatable (block_body hd (mass_npart_of hd) single_type i b more ret).
Proof.
  intros Hwf. unfold block_body.
  destruct (block_setup hd (mass_npart_of hd) i)
    as [|fmt fmt_64 c np] eqn:Hs; [apply reloc_pure|].
  destruct (block_setup_counts hd i _ _ _ _ Hwf Hs) as (Hnn & _ & Hc).
  apply reloc_bind'; [apply reloc_read|]. intros raw.
  apply reloc_bind'; [apply reloc_lift|]. intros u.
  apply reloc_bind'; [apply reloc_lift|]. intros d.
  assert (Hw : 0 < itemsize d) by (destruct d; cbn; lia).
  assert (Hspp : 0 <= c * itemsize d) by (apply Z.mul_nonneg_nonneg; lia).
  destruct b; cbn [negb].
  - now apply reloc_read_block.
  - unfold skip_block.
    apply reloc_bind'.
    + apply reloc_seek. apply Z.mul_nonneg_nonneg; [|exact Hspp].
      now apply py_sum_nonneg.
    + intros _. apply reloc_bind'; [apply reloc_seek; lia|].
      intros _. apply reloc_pure.
Qed.

Lemma reloc_walk hd single_type blocks_to_read :
  well_formed hd ->
  forall todo ret,
    relocatable (walk hd (mass_npart_of hd) single_type blocks_to_read
                   todo ret).
Proof.
  intros Hwf. induction todo as [|[i b] rest IH]; intros ret; cbn [walk].
  - apply reloc_pure.
  - apply reloc_bind'; [now apply reloc_block_body|].
    intros [k r]. destruct k; [apply reloc_pure|apply IH].
Qed.

Lemma reloc_read_header single_type lgadget :
  relocatable (read_header single_type lgadget).
Proof.
  unfold read_header.
  apply reloc_bind'; [apply reloc_seek; lia|]. intros _.
  apply reloc_bind'; [apply reloc_read|]. intros raw.
  apply reloc_bind'; [apply reloc_lift|]. intros h.
  destruct lgadget; apply reloc_pure.
Qed.

Lemma reloc_call read_pos read_vel read_id read_mass single_type lgadget :
  relocatable (read_gadget_snapshot read_pos read_vel read_id read_mass
                 single_type lgadget).
Proof.
  unfold read_gadget_snapshot.
  apply (reloc_bind _ _ (fun hs => well_formed (fst hs)));
    [apply reloc_read_header| |].
  - intros s [hd t] s' H. apply read_header_any in H.
    destruct H as (_ & _ & Hok). cbn [fst]. now apply (Hok hd t).
  - intros [hd t] Hwf. cbn [fst] in Hwf.
    destruct (negb (py_any _)); [apply reloc_pure|].
    apply reloc_bind'; [apply reloc_seek; now vm_compute|]. intros _.
    apply reloc_bind'; [apply reloc_seek; lia|]. intros _.
    apply reloc_bind'; [now apply reloc_walk|]. intros r.
    apply reloc_pure.
Qed.

(** X12: a call depends only on the bytes from the position of the stream
    on: decoding at offset [p] of a buffer gives what decoding a fresh
    stream over the rest of the buffer gives, result or exception, and
    moves the position by the same amount. *)
Theorem decode_at_any_offset :
  forall read_pos read_vel read_id read_mass single_type lgadget s,
    0 <= BytesIO.tell s ->
    let here := read_gadget_snapshot read_pos read_vel read_id read_mass
                  single_type lgadget s in
    let fresh := read_gadget_snapshot read_pos read_vel read_id read_mass
                   single_type lgadget (BytesIO.open (view s)) in
    fst here = fst fresh
    /\ BytesIO.tell (snd here) = BytesIO.tell s + BytesIO.tell (snd fresh).
Proof.
  intros rp rv ri rm st lg s Ht here fresh.
  assert (Hs : shifted (BytesIO.tell s) s (BytesIO.open (view s))).
  { unfold shifted. cbn [BytesIO.open BytesIO.tell].
    repeat split; solve [lia | reflexivity]. }
  destruct (reloc_call rp rv ri rm st lg _ _ _ Hs) as [Ho (_ & _ & Htl & _)].
  fold here fresh in Ho, Htl. split; [exact Ho|lia].
Qed.

Lemma decode_at_any_offset_witness :
  let s := BytesIO.mk (repeat x00 10 ++ file57) 10 0 in
  0 <= BytesIO.tell s
  /\ view s = file57
  /\ fst (read_gadget_snapshot true false false false (-1) false s)
     = fst (read_gadget_snapshot true false false false (-1) false
              (BytesIO.open file57))
  /\ BytesIO.tell
       (snd (read_gadget_snapshot true false false false (-1) false s))
     = 10 + 412.
Proof.
  intros s.
  assert (Ht : 0 <= BytesIO.tell s) by (cbn; lia).
  assert (Hv : view s = file57) by reflexivity.
  split; [exact Ht|]. split; [exact Hv|].
  destruct (decode_at_any_offset true false false false (-1) false s Ht)
    as [H1 H2].
  rewrite Hv in H1, H2. split; [exact H1|].
  rewrite H2. vm_compute. reflexivity.
Defined.

(** ** A selected type against the whole block *)

Lemma slice_of_slice {A} (l : list A) (p a b c : nat) :
  (b + a <= c)%nat ->
  firstn a (skipn b (firstn c (skipn p l))) = firstn a (skipn (p + b) l).
Proof.
  intros H. rewrite skipn_firstn_comm, firstn_firstn, skipn_skipn.
  rewrite Nat.min_l by lia. f_equal. f_equal. lia.
Qed.

(** X13: on a stream that holds the whole payload of a block, the array read
    under a selector [t] is made of exactly the bytes that the rows of
    type [t] occupy in the array of the full read: those after the rows
    of the types before [t]. *)
Theorem selected_rows_of_full_block :
  forall np t d c more ret s,
    0 <= BytesIO.tell s ->
    Forall (Z.le 0) np ->
    0 < c ->
    0 <= t ->
    (Z.to_nat t < length np)%nat ->
    let spp := c * itemsize d in
    py_sum np * spp <= BytesIO.remaining s ->
    exists a_t a_all s1 s2 k1 k2,
      read_block np t d c spp more ret s
      = (Returns (k1, ret ++ [Array a_t]), s1)
      /\ read_block np (-1) d c spp more ret s
         = (Returns (k2, ret ++ [Array a_all]), s2)
      /\ arr_data a_t
         = slice_bytes (arr_data a_all)
             (py_sum (firstn (Z.to_nat t) np) * spp)
             (nth (Z.to_nat t) np 0 * spp)
      /\ Z.of_nat (length (arr_data a_t)) = nth (Z.to_nat t) np 0 * spp.
Proof.
  intros np t d c more ret s Ht Hnn Hc Ht0 Hin spp Hav.
  assert (Hgt : (t >? -1) = true) by (apply Z.gtb_lt; lia).
  assert (Hw : 0 < itemsize d) by (destruct d; cbn; lia).
  assert (Hspp : 0 < spp) by (apply Z.mul_pos_pos; assumption).
  pose proof (spans_nonneg np (Z.to_nat t) Hnn Hin) as (Hb & Hn & Hk & Hsum).
  set (before := py_sum (firstn (Z.to_nat t) np)) in *.
  set (n := nth (Z.to_nat t) np 0) in *.
  set (after := py_sum (skipn (S (Z.to_nat t)) np)) in *.
  assert (Hbs : 0 <= before * spp) by (apply Z.mul_nonneg_nonneg; lia).
  assert (Hns : 0 <= n * spp) by (apply Z.mul_nonneg_nonneg; lia).
  assert (Has : 0 <= after * spp) by (apply Z.mul_nonneg_nonneg; lia).
  assert (Hall : py_sum np * spp = before * spp + n * spp + after * spp)
    by (rewrite Hsum; ring).
  destruct (read_block_full np t d c more ret s Ht Hnn Hc (fun _ => Hin))
    as (s1 & Heq1 & _).
  { rewrite Hgt. fold spp before n. lia. }
  destruct (read_block_full np (-1) d c more ret s Ht Hnn Hc)
    as (s2 & Heq2 & _).
  { intros H. discriminate H. }
  { change (-1 >? -1) with false. cbv iota. fold spp. lia. }
  rewrite Hgt in Heq1. fold spp before n in Heq1.
  change (-1 >? -1) with false in Heq2. cbv iota in Heq2.
  fold spp in Heq2. rewrite Z.mul_0_l, Z.add_0_r in Heq2.
  do 6 eexists. split; [exact Heq1|]. split; [exact Heq2|].
  cbn [arr_data]. unfold slice_bytes.
  rewrite remaining_eq in Hav by exact Ht.
  split.
  - rewrite slice_of_slice by lia. f_equal. f_equal. lia.
  - rewrite length_firstn, length_skipn. lia.
Qed.

Lemma selected_rows_of_full_block_witness :
  let s := BytesIO.mk file57 268 268 in
  let np := [5; 7; 0; 0; 0; 0] in
  0 <= BytesIO.tell s
  /\ Forall (Z.le 0) np
  /\ py_sum np * (3 * itemsize float32) <= BytesIO.remaining s
  /\ exists a_t a_all s1 s2 k1 k2,
       read_block np 1 float32 3 12 false [] s
       = (Returns (k1, [Array a_t]), s1)
       /\ read_block np (-1) float32 3 12 false [] s
          = (Returns (k2, [Array a_all]), s2)
       /\ arr_data a_t = slice_bytes (arr_data a_all) 60 84.
Proof.
  intros s np.
  assert (Ht : 0 <= BytesIO.tell s) by (cbn; lia).
  assert (Hnn : Forall (Z.le 0) np) by (repeat constructor; lia).
  assert (Hav : py_sum np * (3 * itemsize float32) <= BytesIO.remaining s)
    by (vm_compute; discriminate).
  split; [exact Ht|]. split; [exact Hnn|]. split; [exact Hav|].
  destruct (selected_rows_of_full_block np 1 float32 3 false [] s Ht Hnn
              ltac:(lia) ltac:(lia) ltac:(cbn; lia) Hav)
    as (a_t & a_all & s1 & s2 & k1 & k2 & H1 & H2 & H3 & _).
  exists a_t, a_all, s1, s2, k1, k2.
  split; [exact H1|]. split; [exact H2|exact H3].
Defined.

(** ** Iterations and calls that return *)

Lemma slice_bytes_length buf off len :
  0 <= off -> 0 <= len ->
  Z.of_nat (length (slice_bytes buf off len))
  = Z.min len (Z.max 0 (Z.of_nat (length buf) - off)).
Proof.
  intros Ho Hl. unfold slice_bytes. rewrite length_firstn, length_skipn. lia.
Qed.

(** Lines 119-127 whenever they return, in terms of the buffer. *)
Lemma payload_returns (sel : bool) (gap : Z) d c more ret n s k ret' s' :
  0 < c -> 0 <= n -> 0 <= BytesIO.tell s -> 0 <= gap ->
  (raw <- read (n * (c * itemsize d)) ;;
   data <- lift (frombuffer raw d) ;;
   data <- (if c >? 1 then lift (set_shape data [n; c]) else pure data) ;;
   let ret := ret ++ [Array data] in
   if negb more then pure (Break, ret)
   else
     (if sel then seek gap else pure tt) ;;;
     seek 4 ;;;
     pure (Continue, ret)) s = (Returns (k, ret'), s') ->
  let data := slice_bytes (BytesIO.getvalue s) (BytesIO.tell s)
                (n * (c * itemsize d)) in
  let len := Z.of_nat (length data) in
  ret' = ret ++ [Array (mk_ndarray d
                          (if c >? 1 then [n; c] else [len / itemsize d])
                          data)]
  /\ k = (if more then Continue else Break)
  /\ BytesIO.getvalue s' = BytesIO.getvalue s
  /\ BytesIO.tell s'
     = BytesIO.tell s + len
       + (if more then (if sel then gap else 0) + 4 else 0)
  /\ ((c >? 1) = true -> len = n * (c * itemsize d)).
Proof.
  intros Hc Hn Ht Hgap.
  assert (Hw : 0 < itemsize d) by (destruct d; cbn; lia).
  assert (Hspp : 0 <= n * (c * itemsize d))
    by (apply Z.mul_nonneg_nonneg; [lia|apply Z.mul_nonneg_nonneg; lia]).
  rewrite bind_apply. unfold read at 1.
  destruct (BytesIO.read _ _) as [raw s1] eqn:Hr.
  pose proof (read_spec _ _ _ _ Hr Hspp) as (Hraw & Hlen & Hg1 & Ht1 & _).
  fold (slice_bytes (BytesIO.getvalue s) (BytesIO.tell s)
          (n * (c * itemsize d))) in Hraw.
  cbv zeta. rewrite <- Hraw. clear Hraw.
  rewrite bind_apply. unfold lift at 1. unfold frombuffer.
  destruct (Z.eqb_spec (Z.of_nat (length raw) mod itemsize d) 0) as [Hm|Hm];
    [|discriminate].
  pose proof (Z_div_mod_eq_full (Z.of_nat (length raw)) (itemsize d)) as Hdm.
  rewrite Hm, Z.add_0_r in Hdm.
  set (m := Z.of_nat (length raw) / itemsize d) in *.
  rewrite bind_apply.
  assert (Hend : forall a,
    (let ret := ret ++ [Array a] in
     if negb more then pure (Break, ret)
     else
       (if sel then seek gap else pure tt) ;;;
       seek 4 ;;;
       pure (Continue, ret)) s1 = (Returns (k, ret'), s') ->
    ret' = ret ++ [Array a]
    /\ k = (if more then Continue else Break)
    /\ BytesIO.getvalue s' = BytesIO.getvalue s
    /\ BytesIO.tell s'
       = BytesIO.tell s + Z.of_nat (length raw)
         + (if more then (if sel then gap else 0) + 4 else 0)).
  { intros a. cbv zeta. unfold bind, seek, pure.
    destruct more; cbn [negb]; [destruct sel|]; intros [= <- <- <-];
      cbn [BytesIO.seek_cur BytesIO.getvalue BytesIO.tell];
      (split; [reflexivity|]); (split; [reflexivity|]);
      (split; [exact Hg1|]); lia. }
  destruct (Z.gtb_spec c 1) as [Hc1|Hc1].
  - unfold lift at 1. unfold set_shape.
    cbn [arr_shape py_prod arr_dtype arr_data].
    destruct (Z.eqb_spec (n * (c * 1)) (m * 1)) as [E|E]; [|discriminate].
    intros H. apply Hend in H. destruct H as (H1 & H2 & H3 & H4).
    split; [exact H1|]. split; [exact H2|]. split; [exact H3|].
    split; [exact H4|]. intros _. nia.
  - unfold pure at 1. intros H. apply Hend in H.
    destruct H as (H1 & H2 & H3 & H4).
    split; [exact H1|]. split; [exact H2|]. split; [exact H3|].
    split; [exact H4|]. intros X; discriminate X.
Qed.

(** Lines 114-127 whenever they return, in terms of the buffer. *)
Lemma read_block_returns np single_type d c more ret s k ret' s' :
  0 <= BytesIO.tell s ->
  Forall (Z.le 0) np ->
  0 < c ->
  read_block np single_type d c (c * itemsize d) more ret s
  = (Returns (k, ret'), s') ->
  let spp := c * itemsize d in
  let before := if single_type >? -1
                then py_sum (firstn (Z.to_nat single_type) np) else 0 in
  let this := if single_type >? -1
              then nth (Z.to_nat single_type) np 0 else py_sum np in
  let after := if single_type >? -1
               then py_sum (skipn (Z.to_nat (single_type + 1)) np) else 0 in
  let data := slice_bytes (BytesIO.getvalue s)
                (BytesIO.tell s + before * spp) (this * spp) in
  let len := Z.of_nat (length data) in
  ret' = ret ++ [Array (mk_ndarray d
                          (if c >? 1 then [this; c] else [len / itemsize d])
                          data)]
  /\ k = (if more then Continue else Break)
  /\ BytesIO.getvalue s' = BytesIO.getvalue s
  /\ BytesIO.tell s'
     = BytesIO.tell s + before * spp + len
       + (if more then after * spp + 4 else 0)
  /\ ((c >? 1) = true -> len = this * spp)
  /\ before + this + after = py_sum np
  /\ 0 <= before /\ 0 <= this /\ 0 <= after.
Proof.
  intros Ht Hnn Hc.
  assert (Hw : 0 < itemsize d) by (destruct d; cbn; lia).
  assert (Hspp : 0 <= c * itemsize d) by (apply Z.mul_nonneg_nonneg; lia).
  unfold read_block. rewrite bind_apply.
  destruct (single_type >? -1) eqn:Hgt.
  - rewrite bind_apply. unfold seek at 1. unfold lift at 1. unfold index.
    destruct (nth_error np (Z.to_nat single_type)) as [n|] eqn:Hn;
      [|discriminate].
    assert (Hin : (Z.to_nat single_type < length np)%nat).
    { apply nth_error_Some. now rewrite Hn. }
    pose proof (spans_nonneg np _ Hnn Hin) as (Hb0 & Hn0 & Ha0 & Hsum).
    rewrite (nth_error_nth np _ 0 Hn) in Hn0, Hsum |- *.
    assert (Est : Z.to_nat (single_type + 1) = S (Z.to_nat single_type)).
    { apply Z.gtb_lt in Hgt. rewrite Z2Nat.inj_add by lia. cbn. lia. }
    rewrite Est.
    set (B := py_sum (firstn (Z.to_nat single_type) np)) in *.
    set (A := py_sum (skipn (S (Z.to_nat single_type)) np)) in *.
    assert (HB : 0 <= B * (c * itemsize d))
      by (apply Z.mul_nonneg_nonneg; lia).
    assert (HA : 0 <= A * (c * itemsize d))
      by (apply Z.mul_nonneg_nonneg; lia).
    intros H.
    assert (Hts : 0 <= BytesIO.tell
                        (BytesIO.seek_cur (B * (c * itemsize d)) s))
      by (cbn [BytesIO.seek_cur BytesIO.tell]; lia).
    pose proof (payload_returns true _ d c more ret n _ k ret' s' Hc Hn0
                  Hts HA H) as P.
    cbv zeta in P.
    cbn [BytesIO.seek_cur BytesIO.tell BytesIO.getvalue] in P.
    rewrite (Z.max_r 0 (BytesIO.tell s + B * (c * itemsize d))) in P by lia.
    destruct P as (P1 & P2 & P3 & P4 & P5).
    cbv zeta.
    split; [exact P1|]. split; [exact P2|]. split; [exact P3|].
    split; [rewrite P4; destruct more; lia|].
    split; [exact P5|]. lia.
  - unfold pure at 1. intros H.
    pose proof (payload_returns false 0 d c more ret (py_sum np) _ k ret' s'
                  Hc (py_sum_nonneg np Hnn) Ht ltac:(lia) H) as P.
    cbv zeta in P. destruct P as (P1 & P2 & P3 & P4 & P5).
    cbv zeta. rewrite Z.mul_0_l, Z.add_0_r.
    split; [exact P1|]. split; [exact P2|]. split; [exact P3|].
    split; [rewrite P4; destruct more; lia|].
    split; [exact P5|]. pose proof (py_sum_nonneg np Hnn). lia.
Qed.


(** An iteration over a block that is there, whenever it returns: the
    marker was read, a requested block gives the array of its record, and
    an iteration that goes on leaves the stream at the next record unless
    the buffer ended inside the payload. *)
Lemma block_body_returns hd single_type i b more ret s k ret' s'
    fmt fmt_64 c np :
  well_formed hd ->
  block_setup hd (mass_npart_of hd) i = Geometry fmt fmt_64 c np ->
  0 <= BytesIO.tell s ->
  block_body hd (mass_npart_of hd) single_type i b more ret s
  = (Returns (k, ret'), s') ->
  let buf := BytesIO.getvalue s in
  let p := BytesIO.tell s in
  let L := u32_at buf p in
  p + 4 <= Z.of_nat (length buf)
  /\ 0 <= L
  /\ BytesIO.getvalue s' = buf
  /\ ret' = (if b then ret ++ [Array (block_array hd single_type i buf p)]
             else ret)
  /\ k = (if b && negb more then Break else Continue)
  /\ (k = Continue ->
      BytesIO.tell s' = next_record buf p
      \/ (Z.of_nat (length buf) < BytesIO.tell s'
          /\ Z.of_nat (length buf) < p + 4 + L))
  /\ (k = Break -> p + 4 <= BytesIO.tell s' <= p + 4 + L).
Proof.
  intros Hwf Hs Ht Hb buf p L.
  destruct (block_setup_counts hd i _ _ _ _ Hwf Hs) as (Hnn & _ & Hc).
  destruct (block_setup_geometry _ _ _ _ _ _ _ Hs) as (Hf & Hc3 & Hnp).
  assert (Hi3 : (i =? 3)%nat && (py_sum (counts_of hd i) =? 0) = false).
  { destruct ((i =? 3)%nat && (py_sum (counts_of hd i) =? 0)) eqn:E;
      [|reflexivity].
    apply andb_prop in E. destruct E as [E1 E2].
    apply Nat.eqb_eq in E1. subst i. unfold counts_of in E2.
    cbn [Nat.eqb] in E2. unfold block_setup in Hs.
    cbn [Nat.ltb Nat.leb Nat.eqb] in Hs. rewrite E2 in Hs. discriminate Hs. }
  destruct (BytesIO.read 4 s) as [raw s1] eqn:Hr.
  pose proof (read_marker s raw s1 Ht Hr)
    as (Hfull & HLr & Hg & Htl & _ & _ & Hrem).
  pose proof (le_uint_nonneg raw) as HL0. fold buf p L in HLr.
  destruct (Nat.eq_dec (length raw) 4) as [Hl|Hl].
  2:{ rewrite (block_body_short_marker _ _ _ _ _ _ _ _ _ _ _ _ _ _ Hs Hr Hl)
        in Hb. discriminate Hb. }
  rewrite (block_body_prefix _ _ _ _ _ _ _ _ _ _ _ _ _ _ Hs Hr Hl) in Hb.
  assert (Hav : 4 <= BytesIO.remaining s) by (apply Hfull; exact Hl).
  rewrite remaining_eq in Hav by exact Ht. clear Hrem.
  rewrite Hl in Htl. change (Z.of_nat 4) with 4 in *.
  rewrite HLr in Hb, HL0.
  destruct (check_size fmt fmt_64 (c * py_sum np) L) as [d|e] eqn:Hd;
    [|discriminate Hb].
  pose proof (check_size_ok _ _ _ _ _ Hd) as HLd.
  assert (Hw : 0 < itemsize d) by (destruct d; cbn; lia).
  assert (Hdr : d = resolved_dtype i L (py_sum np * c)).
  { assert (Hi : itemsize fmt = 4 /\ itemsize fmt_64 = 8).
    { destruct (i =? 2)%nat; injection Hf as -> ->; now cbn. }
    destruct Hi as [Hi4 Hi8]. unfold resolved_dtype.
    destruct (Z.eqb_spec L (py_sum np * c * 4)) as [E|E].
    - rewrite check_size_narrow in Hd by lia. injection Hd as <-.
      destruct (i =? 2)%nat; now injection Hf as -> ->.
    - destruct (check_size_cases _ _ _ _ _ Hd) as [->| ->];
        [rewrite Hi4 in HLd; lia|].
      destruct (i =? 2)%nat; now injection Hf as -> ->. }
  fold buf p in Hav, Htl.
  split; [lia|]. split; [exact HL0|].
  unfold next_record. fold L.
  destruct b; cbn [negb andb] in Hb |- *.
  - apply read_block_returns in Hb; [|lia|exact Hnn|exact Hc].
    cbv zeta in Hb.
    set (spp := c * itemsize d) in *.
    set (B := if single_type >? -1
              then py_sum (firstn (Z.to_nat single_type) np) else 0) in *.
    set (T := if single_type >? -1
              then nth (Z.to_nat single_type) np 0 else py_sum np) in *.
    set (A := if single_type >? -1
              then py_sum (skipn (Z.to_nat (single_type + 1)) np) else 0)
      in *.
    rewrite Hg, Htl in Hb. fold buf in Hb.
    set (data := slice_bytes buf (p + 4 + B * spp) (T * spp)) in *.
    destruct Hb as (Hr' & Hk & Hg' & Ht' & Hfull3 & Hsum & HB & HT & HA).
    assert (Hspp : 0 < spp) by (subst spp; apply Z.mul_pos_pos; lia).
    assert (HBs : 0 <= B * spp) by (apply Z.mul_nonneg_nonneg; lia).
    assert (HTs : 0 <= T * spp) by (apply Z.mul_nonneg_nonneg; lia).
    assert (HAs : 0 <= A * spp) by (apply Z.mul_nonneg_nonneg; lia).
    assert (HLs : L = B * spp + T * spp + A * spp).
    { rewrite HLd. subst spp. rewrite <- Hsum. ring. }
    pose proof (slice_bytes_length buf (p + 4 + B * spp) (T * spp)
                  ltac:(lia) HTs) as Hlen.
    fold data in Hlen.
    split; [exact Hg'|].
    assert (Harr : block_array hd single_type i buf p
                   = mk_ndarray d
                       (if c >? 1 then [T; c]
                        else [Z.of_nat (length data) / itemsize d]) data).
    { unfold block_array. rewrite Hi3. unfold counts_of, components.
      rewrite <- Hnp, <- Hc3. cbv zeta. fold L. rewrite <- Hdr.
      fold spp B T data. rewrite Hc3.
      destruct (i <? 2)%nat; reflexivity. }
    rewrite Harr. split; [exact Hr'|].
    split; [rewrite Hk; destruct more; reflexivity|].
    split.
    + intros Ek. rewrite Hk in Ek. destruct more; [|discriminate Ek].
      fold p. lia.
    + intros Ek. rewrite Hk in Ek. destruct more; [discriminate Ek|].
      fold p. lia.
  - unfold skip_block, bind, seek, pure in Hb. injection Hb as <- <- <-.
    cbn [BytesIO.seek_cur BytesIO.getvalue BytesIO.tell].
    split; [exact Hg|]. split; [reflexivity|]. split; [reflexivity|].
    split; [|discriminate].
    intros _. left. rewrite Htl.
    assert (E : py_sum np * (c * itemsize d) = L) by (rewrite HLd; ring).
    rewrite E. fold p. lia.
Qed.



(** ** What a call hands back *)






(** ** The single-type selector *)




(** ** The mass block when every type has a fixed mass *)

(** A materialising iteration that goes on would, as the last requested
    one, hand back the same array and stop before the trailing marker. *)
Lemma read_block_more np single_type d c ret s k r s2 :
  Forall (Z.le 0) np ->
  0 < c ->
  read_block np single_type d c (c * itemsize d) true ret s
  = (Returns (k, r), s2) ->
  exists s1,
    read_block np single_type d c (c * itemsize d) false ret s
    = (Returns (Break, r), s1)
    /\ BytesIO.tell s1 + 4 <= BytesIO.tell s2.
Proof.
  intros Hnn Hc.
  assert (Hw : 0 < itemsize d) by (destruct d; cbn; lia).
  assert (Hgap : 0 <= py_sum (skipn (Z.to_nat (single_type + 1)) np)
                      * (c * itemsize d)).
  { apply Z.mul_nonneg_nonneg; [|apply Z.mul_nonneg_nonneg; lia].
    apply py_sum_nonneg. now apply Forall_firstn_skipn. }
  unfold read_block, bind, seek, read, lift, pure. cbn [negb].
  destruct (single_type >? -1).
  - destruct (index np single_type) as [n|e]; [|discriminate].
    destruct (BytesIO.read _ _) as [raw s1].
    destruct (frombuffer raw d) as [a|e]; [|discriminate].
    destruct (c >? 1).
    + destruct (set_shape _ _) as [a'|e]; [|discriminate].
      intros [= <- <- <-]. eexists. split; [reflexivity|].
      cbn [BytesIO.seek_cur BytesIO.tell]. lia.
    + intros [= <- <- <-]. eexists. split; [reflexivity|].
      cbn [BytesIO.seek_cur BytesIO.tell]. lia.
  - destruct (BytesIO.read _ _) as [raw s1].
    destruct (frombuffer raw d) as [a|e]; [|discriminate].
    destruct (c >? 1).
    + destruct (set_shape _ _) as [a'|e]; [|discriminate].
      intros [= <- <- <-]. eexists. split; [reflexivity|].
      cbn [BytesIO.seek_cur BytesIO.tell]. lia.
    + intros [= <- <- <-]. eexists. split; [reflexivity|].
      cbn [BytesIO.seek_cur BytesIO.tell]. lia.
Qed.

(** An iteration that returns while a later block is requested, against
    the same iteration with any other blocks requested after it. *)
Lemma block_body_either hd single_type i b ret s k r s2 fmt fmt_64 c np :
  well_formed hd ->
  block_setup hd (mass_npart_of hd) i = Geometry fmt fmt_64 c np ->
  block_body hd (mass_npart_of hd) single_type i b true ret s
  = (Returns (k, r), s2) ->
  k = Continue
  /\ forall more,
       exists s1,
         block_body hd (mass_npart_of hd) single_type i b more ret s
         = (Returns (if b && negb more then Break else Continue, r), s1)
         /\ (if b && negb more
             then BytesIO.tell s1 + 4 <= BytesIO.tell s2
             else s1 = s2).
Proof.
  intros Hwf Hs H.
  pose proof (block_body_continues _ _ _ _ _ _ _ _ _ _ _ _ _ _ Hs H) as ->.
  split; [reflexivity|].
  destruct (block_setup_counts hd i _ _ _ _ Hwf Hs) as (Hnn & _ & Hc).
  intros [|].
  - rewrite andb_false_r. exists s2. split; [exact H|reflexivity].
  - rewrite andb_true_r. destruct b.
    + destruct (BytesIO.read 4 s) as [raw s0] eqn:Hr.
      destruct (Nat.eq_dec (length raw) 4) as [Hl|Hl].
      2:{ rewrite (block_body_short_marker _ _ _ _ _ _ _ _ _ _ _ _ _ _
                     Hs Hr Hl) in H. discriminate H. }
      rewrite (block_body_prefix _ _ _ _ _ true _ _ _ _ _ _ _ _ Hs Hr Hl)
        in H.
      rewrite (block_body_prefix _ _ _ _ _ false _ _ _ _ _ _ _ _ Hs Hr Hl).
      destruct (check_size _ _ _ _) as [d|e]; [|discriminate H].
      cbn [negb] in H |- *. eapply read_block_more; eassumption.
    + exists s2. split; [|reflexivity]. rewrite <- H.
      unfold block_body. rewrite Hs. reflexivity.
Qed.

Lemma u32_at_nonneg buf p : 0 <= u32_at buf p.
Proof. apply le_uint_nonneg. Qed.

Lemma requested_with_mass rp rv ri :
  requested_from 0 [rp; rv; ri; true]
  = requested_from 0 [rp; rv; ri; false] ++ [3%nat].
Proof. destruct rp, rv, ri; reflexivity. Qed.

(** C4 (as the code has it): when all six type masses of the header are
    nonzero, the mass iteration appends an empty float32 array and touches
    the stream neither by a read nor by a seek; but a call that requests
    the mass block is the walk over the position, velocity and identifier
    blocks, each of them gone through up to and including its trailing
    marker, followed by that append.  On a stream that holds the three
    payloads such a call, when it returns, ends where the mass record's
    leading marker would be.  Whenever it returns, the same call without
    the mass block returns too, hands back the same items but for the empty
    array, and ends at least 4 bytes earlier. *)
Theorem fixed_mass_block :
  forall read_pos read_vel read_id single_type lgadget s,
    0 <= BytesIO.tell s ->
    200 <= BytesIO.remaining s ->
    let hd := decoded_header lgadget s in
    all_mass_fixed hd ->
    let buf := BytesIO.getvalue s in
    let mass_marker := record_offset buf (BytesIO.tell s + 264) 3 in
    let with_mass := read_gadget_snapshot read_pos read_vel read_id true
                       single_type lgadget s in
    let without := read_gadget_snapshot read_pos read_vel read_id false
                     single_type lgadget s in
    (forall st b more ret s0,
        block_body hd (mass_npart_of hd) st 3 b more ret s0
        = (Returns (Break, ret ++ [Array (empty_array float32)]), s0))
    /\ with_mass
       = match walk hd (mass_npart_of hd)
                 (selector_in_force single_type lgadget)
                 [read_pos; read_vel; read_id; true]
                 [(0%nat, read_pos); (1%nat, read_vel); (2%nat, read_id)]
                 [Header hd] (after_header s) with
         | (Returns l, s') =>
             (Returns (ret_tuple (l ++ [Array (empty_array float32)])), s')
         | (Raises e, s') => (Raises e, s')
         end
    /\ (forall r, fst with_mass = Returns r ->
          (mass_marker - 4 <= Z.of_nat (length buf) ->
           BytesIO.tell (snd with_mass) = mass_marker)
          /\ BytesIO.tell (snd without) + 4 <= BytesIO.tell (snd with_mass)
          /\ exists r0,
               fst without = Returns r0
               /\ r = ret_tuple
                        (match r0 with
                         | ret_header h => [Header h]
                         | ret_tuple l => l
                         end ++ [Array (empty_array float32)])).
Proof.
  intros rp rv ri st lg s Ht Hr hd Hfixed buf mass_marker with_mass without.
  pose proof (all_mass_fixed_sum hd Hfixed) as Hsum.
  pose proof (decoded_header_well_formed lg s) as Hwf. fold hd in Hwf.
  assert (Hmass : forall st b more ret s0,
             block_body hd (mass_npart_of hd) st 3 b more ret s0
             = (Returns (Break, ret ++ [Array (empty_array float32)]), s0)).
  { intros st' b more ret s0. unfold block_body, block_setup.
    cbn [Nat.ltb Nat.leb Nat.eqb]. now rewrite Hsum. }
  split; [exact Hmass|].
  set (mn := mass_npart_of hd) in *.
  set (t := selector_in_force st lg) in *.
  set (btr := [rp; rv; ri; true]).
  assert (Hmore : forall i, (i < 3)%nat -> py_any (skipn (S i) btr) = true).
  { intros i Hi. subst btr.
    destruct i as [|[|[|i]]]; cbn [skipn py_any]; [| | |lia];
      now rewrite ?orb_true_r. }
  assert (Hgeo : forall i, (i < 3)%nat ->
             exists fmt fmt_64 c np,
               block_setup hd mn i = Geometry fmt fmt_64 c np).
  { intros i Hi. unfold block_setup.
    destruct i as [|[|[|i]]]; [| | |lia];
      cbn [Nat.ltb Nat.leb Nat.eqb]; do 4 eexists; reflexivity. }
  destruct (Hgeo 0%nat ltac:(lia)) as (f0 & g0 & c0 & n0 & G0).
  destruct (Hgeo 1%nat ltac:(lia)) as (f1 & g1 & c1 & n1 & G1).
  destruct (Hgeo 2%nat ltac:(lia)) as (f2 & g2 & c2 & n2 & G2).
  assert (Hcall :
    with_mass
    = match walk hd mn t btr
              [(0%nat, rp); (1%nat, rv); (2%nat, ri)]
              [Header hd] (after_header s) with
      | (Returns l, s') =>
          (Returns (ret_tuple (l ++ [Array (empty_array float32)])), s')
      | (Raises e, s') => (Raises e, s')
      end).
  { subst with_mass. rewrite call_blocks; [|assumption|assumption|].
    2:{ cbn [py_any]. now rewrite !orb_true_r. }
    cbv zeta. fold hd mn t btr.
    unfold as_tuple. cbn [walk].
    rewrite !bind_apply.
    rewrite (Hmore 0%nat), (Hmore 1%nat), (Hmore 2%nat) by lia.
    destruct (block_body hd mn t 0 rp true [Header hd] (after_header s))
      as [[[k0 r0]|e0] s0] eqn:H0; [|reflexivity].
    rewrite (block_body_continues _ _ _ _ _ _ _ _ _ _ _ _ _ _ G0 H0).
    rewrite !bind_apply.
    destruct (block_body hd mn t 1 rv true r0 s0)
      as [[[k1 r1]|e1] s1] eqn:H1; [|reflexivity].
    rewrite (block_body_continues _ _ _ _ _ _ _ _ _ _ _ _ _ _ G1 H1).
    rewrite !bind_apply.
    destruct (block_body hd mn t 2 ri true r1 s1)
      as [[[k2 r2]|e2] s2] eqn:H2; [|reflexivity].
    rewrite (block_body_continues _ _ _ _ _ _ _ _ _ _ _ _ _ _ G2 H2).
    rewrite bind_apply. subst mn. rewrite Hmass. reflexivity. }
  split; [exact Hcall|].
  intros r Hret.
  (* the three iterations of the call that requests the mass block *)
  assert (Hrun : exists r0 s0 r1 s1 r2,
    block_body hd mn t 0 rp true [Header hd] (after_header s)
    = (Returns (Continue, r0), s0)
    /\ block_body hd mn t 1 rv true r0 s0 = (Returns (Continue, r1), s1)
    /\ block_body hd mn t 2 ri true r1 s1
       = (Returns (Continue, r2), snd with_mass)
    /\ r = ret_tuple (r2 ++ [Array (empty_array float32)])).
  { rewrite Hcall in Hret |- *. cbn [walk] in Hret |- *.
    rewrite !bind_apply in Hret |- *.
    rewrite (Hmore 0%nat) in Hret |- * by lia.
    destruct (block_body hd mn t 0 rp true [Header hd] (after_header s))
      as [[[k0 r0]|e0] s0] eqn:H0; [|discriminate Hret].
    pose proof (block_body_continues _ _ _ _ _ _ _ _ _ _ _ _ _ _ G0 H0)
      as ->.
    rewrite !bind_apply in Hret |- *.
    rewrite (Hmore 1%nat) in Hret |- * by lia.
    destruct (block_body hd mn t 1 rv true r0 s0)
      as [[[k1 r1]|e1] s1] eqn:H1; [|discriminate Hret].
    pose proof (block_body_continues _ _ _ _ _ _ _ _ _ _ _ _ _ _ G1 H1)
      as ->.
    rewrite !bind_apply in Hret |- *.
    rewrite (Hmore 2%nat) in Hret |- * by lia.
    destruct (block_body hd mn t 2 ri true r1 s1)
      as [[[k2 r2]|e2] s2] eqn:H2; [|discriminate Hret].
    pose proof (block_body_continues _ _ _ _ _ _ _ _ _ _ _ _ _ _ G2 H2)
      as ->.
    unfold pure in Hret |- *. cbn [fst snd] in Hret |- *.
    injection Hret as <-. exists r0, s0, r1, s1, r2. auto. }
  destruct Hrun as (r0 & s0 & r1 & s1 & r2 & H0 & H1 & H2 & Hres).
  set (sw := snd with_mass) in *.
  assert (Hta : 0 <= BytesIO.tell (after_header s))
    by (cbn [after_header BytesIO.tell]; lia).
  pose proof (block_body_returns _ _ _ _ _ _ _ _ _ _ _ _ _ _ Hwf G0 Hta H0)
    as R0.
  cbv zeta in R0. cbn [after_header BytesIO.getvalue BytesIO.tell] in R0.
  fold buf in R0.
  destruct R0 as (Hp0 & HL0 & Hg0 & Hret0 & _ & Hc0 & _).
  specialize (Hc0 eq_refl).
  assert (Ht0 : 0 <= BytesIO.tell s0).
  { unfold next_record in Hc0. lia. }
  pose proof (block_body_returns _ _ _ _ _ _ _ _ _ _ _ _ _ _ Hwf G1 Ht0 H1)
    as R1.
  cbv zeta in R1. rewrite Hg0 in R1.
  destruct R1 as (Hp1 & HL1 & Hg1 & Hret1 & _ & Hc1 & _).
  specialize (Hc1 eq_refl).
  assert (Ht1 : 0 <= BytesIO.tell s1).
  { unfold next_record in Hc1. lia. }
  pose proof (block_body_returns _ _ _ _ _ _ _ _ _ _ _ _ _ _ Hwf G2 Ht1 H2)
    as R2.
  cbv zeta in R2. rewrite Hg1 in R2.
  destruct R2 as (Hp2 & HL2 & Hg2 & Hret2 & _ & Hc2 & _).
  specialize (Hc2 eq_refl).
  split; [|].
  { (* the final position on a stream that holds the three payloads *)
    set (p0 := BytesIO.tell s + 264) in *.
    set (q1 := next_record buf p0) in *.
    change mass_marker with (next_record buf (next_record buf q1)).
    set (q2 := next_record buf q1) in *.
    set (q3 := next_record buf q2) in *.
    assert (Q1 : q1 = p0 + 4 + u32_at buf p0 + 4) by reflexivity.
    assert (Q2 : q2 = q1 + 4 + u32_at buf q1 + 4) by reflexivity.
    assert (Q3 : q3 = q2 + 4 + u32_at buf q2 + 4) by reflexivity.
    pose proof (u32_at_nonneg buf q1) as N1.
    pose proof (u32_at_nonneg buf q2) as N2.
    clearbody q1 q2 q3.
    intros Hfull.
    assert (E0 : BytesIO.tell s0 = q1)
      by (destruct Hc0 as [E|[_ E]]; [exact E|lia]).
    rewrite E0 in Hc1.
    assert (E1 : BytesIO.tell s1 = q2).
    { destruct Hc1 as [E|[_ E]]; [|lia].
      rewrite E. unfold next_record. lia. }
    rewrite E1 in Hc2.
    destruct Hc2 as [E|[_ E]]; [|lia].
    rewrite E. unfold next_record. lia. }
  (* the same call without the mass block *)
  destruct (block_body_either _ _ _ _ _ _ _ _ _ _ _ _ _ Hwf G0 H0) as [_ F0].
  destruct (block_body_either _ _ _ _ _ _ _ _ _ _ _ _ _ Hwf G1 H1) as [_ F1].
  destruct (block_body_either _ _ _ _ _ _ _ _ _ _ _ _ _ Hwf G2 H2) as [_ F2].
  assert (M01 : BytesIO.tell s0 <= BytesIO.tell s1)
    by (unfold next_record in Hc1; lia).
  assert (M12 : BytesIO.tell s1 <= BytesIO.tell sw)
    by (unfold next_record in Hc2; lia).
  assert (M0 : BytesIO.tell s + 264 + 8 <= BytesIO.tell s0)
    by (unfold next_record in Hc0; lia).
  clear Hc0 Hc1 Hc2 Hcall Hret.
  fold mn in F0, F1, F2.
  assert (Hnone : rp = false -> rv = false -> ri = false ->
            BytesIO.tell (snd without) + 4 <= BytesIO.tell sw
            /\ exists r0, fst without = Returns r0
                 /\ r = ret_tuple
                          (match r0 with
                           | ret_header h => [Header h]
                           | ret_tuple l => l
                           end ++ [Array (empty_array float32)])).
  { intros -> -> ->. subst without. unfold read_gadget_snapshot.
    rewrite bind_apply.
    rewrite (read_header_full st lg s Ht Hr). cbv zeta.
    fold (decoded_header lg s). fold hd.
    cbn [py_any orb negb]. unfold pure. cbn [fst snd BytesIO.tell].
    split; [lia|].
    eexists. split; [reflexivity|]. cbv iota.
    rewrite Hret2, Hret1, Hret0 in Hres. exact Hres. }
  destruct rp, rv, ri; try (apply Hnone; reflexivity); clear Hnone;
    subst without;
    rewrite call_blocks by first [assumption|reflexivity]; cbv zeta;
    fold hd mn t; unfold as_tuple; cbn [walk skipn py_any orb];
    cbv iota in Hret0, Hret1, Hret2;
    rewrite bind_apply;
    match goal with
    | |- context [block_body hd mn t 0 _ ?m [Header hd] (after_header s)] =>
        destruct (F0 m) as (sa & Ea & Ha)
    end;
    cbn [andb negb] in Ea, Ha; rewrite Ea; cbv beta iota;
    try (subst sa; rewrite bind_apply;
         match goal with
         | |- context [block_body hd mn t 1 _ ?m r0 s0] =>
             destruct (F1 m) as (sb & Eb & Hb)
         end;
         cbn [andb negb] in Eb, Hb; rewrite Eb; cbv beta iota;
         try (subst sb; rewrite bind_apply;
              match goal with
              | |- context [block_body hd mn t 2 _ ?m r1 s1] =>
                  destruct (F2 m) as (sc & Ec & Hc)
              end;
              cbn [andb negb] in Ec, Hc; rewrite Ec; cbv beta iota));
    unfold pure; cbn [fst snd];
    (split; [lia|]); (eexists; split; [reflexivity|]); cbv iota;
    first [exact Hres
          |rewrite Hret2 in Hres; exact Hres
          |rewrite Hret2, Hret1 in Hres; exact Hres].
Qed.

Lemma fixed_mass_block_witness :
  let s := BytesIO.open file57_fixed_mass in
  let with_mass := read_gadget_snapshot true false false true (-1) false s in
  let without := read_gadget_snapshot true false false false (-1) false s in
  0 <= BytesIO.tell s
  /\ 200 <= BytesIO.remaining s
  /\ all_mass_fixed (decoded_header false s)
  /\ (exists hd a,
        fst with_mass
        = Returns (ret_tuple [Header hd; Array a;
                              Array (empty_array float32)])
        /\ fst without = Returns (ret_tuple [Header hd; Array a]))
  /\ BytesIO.tell (snd with_mass) = record_offset file57_fixed_mass 264 3
  /\ BytesIO.tell (snd with_mass) = Z.of_nat (length file57_fixed_mass)
  /\ BytesIO.tell (snd without) + 4 <= BytesIO.tell (snd with_mass).
Proof.
  intros s with_mass without.
  assert (Ht : 0 <= BytesIO.tell s) by (cbn; lia).
  assert (Hr : 200 <= BytesIO.remaining s) by (vm_compute; discriminate).
  assert (Hf : all_mass_fixed (decoded_header false s)).
  { unfold all_mass_fixed.
    assert (E : mass (decoded_header false s)
                = repeat 0x3FF0000000000000 6) by (vm_compute; reflexivity).
    rewrite E. repeat constructor. }
  split; [exact Ht|]. split; [exact Hr|]. split; [exact Hf|].
  destruct (fixed_mass_block true false false (-1) false s Ht Hr Hf)
    as (_ & _ & H).
  cbv zeta in H. fold with_mass without in H.
  destruct (fst with_mass) as [r|e] eqn:Hrun;
    [|exfalso; vm_compute in Hrun; discriminate Hrun].
  destruct (H r eq_refl) as (Hpos & Hlt & r0 & Hr0 & Hres).
  assert (Hfull : record_offset (BytesIO.getvalue s) (BytesIO.tell s + 264) 3
                  - 4 <= Z.of_nat (length (BytesIO.getvalue s)))
    by (vm_compute; discriminate).
  specialize (Hpos Hfull).
  split.
  { assert (W : exists hd a,
               fst without = Returns (ret_tuple [Header hd; Array a]))
      by (do 2 eexists; vm_compute; reflexivity).
    destruct W as (hd & a & W). exists hd, a.
    rewrite W in Hr0. injection Hr0 as <-.
    split; [rewrite Hres; reflexivity|exact W]. }
  split; [exact Hpos|]. split; [|exact Hlt].
  rewrite Hpos. vm_compute. reflexivity.
Defined.

(** On [file57_fixed_mass], requesting positions and masses leaves the
    stream at offset 624, behind the identifier record; requesting the
    positions alone leaves it at offset 412, at the end of the position
    payload. *)
Lemma fixed_mass_block_counterexample :
  let s := BytesIO.open file57_fixed_mass in
  let with_mass := read_gadget_snapshot true false false true (-1) false s in
  let without := read_gadget_snapshot true false false false (-1) false s in
  all_mass_fixed (decoded_header false s)
  /\ (exists hd a, fst with_mass
                   = Returns (ret_tuple [Header hd; Array a;
                                         Array (empty_array float32)]))
  /\ BytesIO.tell (snd with_mass) = 624
  /\ BytesIO.tell (snd without) = 412
  /\ BytesIO.tell (snd with_mass) <> BytesIO.tell (snd without).
Proof.
  assert (H1 : BytesIO.tell
                 (snd (read_gadget_snapshot true false false true (-1) false
                         (BytesIO.open file57_fixed_mass))) = 624)
    by (vm_compute; reflexivity).
  assert (H2 : BytesIO.tell
                 (snd (read_gadget_snapshot true false false false (-1) false
                         (BytesIO.open file57_fixed_mass))) = 412)
    by (vm_compute; reflexivity).
  cbv zeta. rewrite H1, H2.
  split; [|split; [|repeat split; lia]].
  - unfold all_mass_fixed.
    assert (E : mass (decoded_header false (BytesIO.open file57_fixed_mass))
                = repeat 0x3FF0000000000000 6) by (vm_compute; reflexivity).
    rewrite E. repeat constructor.
  - do 2 eexists. vm_compute; reflexivity.
Qed.

(** ** Streams that end early *)

(** An identifier or mass payload that is cut short is handed back as far
    as it goes when it ends on a whole item, and refused by [frombuffer]
    otherwise. *)
Lemma read_block_short_items np single_type d more ret s :
  0 <= BytesIO.tell s ->
  Forall (Z.le 0) np ->
  ((single_type >? -1) = true -> (Z.to_nat single_type < length np)%nat) ->
  let before := if single_type >? -1
                then py_sum (firstn (Z.to_nat single_type) np) else 0 in
  let this := if single_type >? -1
              then nth (Z.to_nat single_type) np 0 else py_sum np in
  let avail := Z.max 0 (BytesIO.remaining s - before * itemsize d) in
  avail < this * itemsize d ->
  let run := read_block np single_type d 1 (1 * itemsize d) more ret s in
  if avail mod itemsize d =? 0
  then exists a,
         fst run = Returns (if more then Continue else Break,
                            ret ++ [Array a])
         /\ arr_dtype a = d
         /\ arr_shape a = [avail / itemsize d]
         /\ avail / itemsize d < this
         /\ Z.of_nat (length (arr_data a)) = avail
  else fst run
       = Raises (ValueError "buffer size must be a multiple of element size").
Proof.
  intros Ht Hnn Hin before this avail Hshort run.
  assert (Hw : 0 < itemsize d) by (destruct d; cbn; lia).
  assert (Hspans : 0 <= before /\ 0 <= this).
  { subst before this. destruct (Z.gtb_spec single_type (-1)).
    - specialize (Hin eq_refl).
      pose proof (spans_nonneg np (Z.to_nat single_type) Hnn Hin). lia.
    - pose proof (py_sum_nonneg np Hnn). lia. }
  destruct Hspans as (Hb & Hth).
  assert (Hbs : 0 <= before * itemsize d)
    by (apply Z.mul_nonneg_nonneg; lia).
  assert (Hrun : exists raw s2,
            Z.of_nat (length raw) = avail
            /\ run
               = (data <- lift (frombuffer raw d) ;;
                  let ret := ret ++ [Array data] in
                  if negb more then pure (Break, ret)
                  else
                    (if single_type >? -1 then
                       seek (py_sum (skipn (Z.to_nat (single_type + 1)) np)
                             * itemsize d)
                     else pure tt) ;;;
                    seek 4 ;;;
                    pure (Continue, ret)) s2).
  { subst run. rewrite Z.mul_1_l.
    unfold read_block. rewrite bind_apply.
    set (s0 := BytesIO.seek_cur (before * itemsize d) s).
    assert (Hsel :
      (if single_type >? -1
       then bind (seek (py_sum (firstn (Z.to_nat single_type) np)
                        * itemsize d))
                 (fun _ => lift (index np single_type))
       else pure (py_sum np)) s
      = (Returns this, if single_type >? -1 then s0 else s)).
    { subst this before s0. destruct (single_type >? -1) eqn:E.
      - now apply select_type; auto.
      - reflexivity. }
    rewrite Hsel. clear Hsel. cbv beta iota zeta.
    set (s1 := if single_type >? -1 then s0 else s).
    assert (H1 : 0 <= BytesIO.tell s1 /\ BytesIO.remaining s1 = avail).
    { subst s1 s0 avail before. destruct (single_type >? -1).
      - rewrite remaining_seek by lia. cbn [BytesIO.seek_cur BytesIO.tell].
        lia.
      - unfold BytesIO.remaining. lia. }
    destruct H1 as (Ht1 & Hr1). clearbody s1.
    rewrite bind_apply. unfold read at 1.
    destruct (BytesIO.read (this * itemsize d) s1) as [raw s2] eqn:Hread.
    pose proof (read_spec _ _ _ _ Hread ltac:(lia)) as (_ & Hlen & _).
    rewrite Hr1, Z.min_r in Hlen by lia.
    exists raw, s2. split; [exact Hlen|].
    rewrite (bind_apply (lift (frombuffer raw d))).
    unfold lift at 1 3.
    destruct (frombuffer raw d) as [a|e]; [|reflexivity].
    rewrite bind_apply. change (1 >? 1) with false. cbv iota.
    unfold pure at 1. reflexivity. }
  destruct Hrun as (raw & s2 & Hlen & ->).
  rewrite bind_apply. unfold lift at 1. unfold frombuffer. rewrite Hlen.
  destruct (Z.eqb_spec (avail mod itemsize d) 0) as [Hm|Hm].
  - exists (mk_ndarray d [avail / itemsize d] raw).
    split.
    { cbv zeta. unfold bind, seek, pure. destruct more; cbn [negb];
        [destruct (single_type >? -1)|]; reflexivity. }
    split; [reflexivity|]. split; [reflexivity|].
    split; [|exact Hlen].
    pose proof (Z_div_mod_eq_full avail (itemsize d)) as Hdm.
    rewrite Hm, Z.add_0_r in Hdm. nia.
  - reflexivity.
Qed.

(** A position or velocity payload that ends inside the part being
    read. *)
Lemma read_block_short_payload np single_type d more ret s :
  0 <= BytesIO.tell s ->
  Forall (Z.le 0) np ->
  -1 <= single_type < Z.of_nat (length np) ->
  let seen :=
    if single_type >? -1
    then py_sum (firstn (S (Z.to_nat single_type)) np)
    else py_sum np in
  let this :=
    if single_type >? -1
    then nth (Z.to_nat single_type) np 0
    else py_sum np in
  0 < this ->
  BytesIO.remaining s < seen * (3 * itemsize d) ->
  exists msg,
    fst (read_block np single_type d 3 (3 * itemsize d) more ret s)
    = Raises (ValueError msg)
    /\ numpy_error (ValueError msg).
Proof.
  intros Ht Hnn Hst seen this Hpos Hshort.
  assert (Hraise : exists msg,
            fst (read_block np single_type d 3 (3 * itemsize d) more ret s)
            = Raises (ValueError msg)).
  { apply read_block_short_triples; try assumption.
    + intros H. apply Z.gtb_lt in H. lia.
    + subst seen. destruct (Z.gtb_spec single_type (-1)) as [Hgt|Hle];
        [|exact Hshort].
      assert (Hin : (Z.to_nat single_type < length np)%nat) by lia.
      pose proof (nth_error_nth' np 0 Hin) as Hn.
      pose proof (firstn_skipn_middle (Z.to_nat single_type) np Hn) as Hmid.
      assert (E : py_sum (firstn (S (Z.to_nat single_type)) np)
                  = py_sum (firstn (Z.to_nat single_type) np)
                    + nth (Z.to_nat single_type) np 0).
      { rewrite <- Hmid at 1.
        rewrite firstn_app, py_sum_app, length_firstn.
        rewrite firstn_firstn.
        replace (Nat.min (S (Z.to_nat single_type)) (Z.to_nat single_type))
          with (Z.to_nat single_type) by lia.
        replace (S (Z.to_nat single_type)
                 - Nat.min (Z.to_nat single_type) (length np))%nat
          with 1%nat by lia.
        cbn [firstn py_sum]. lia. }
      rewrite <- E. exact Hshort. }
  destruct Hraise as (msg & Hmsg). exists msg. split; [exact Hmsg|].
  destruct (read_block_any np single_type d 3 more ret s _ _ Hnn
              ltac:(lia) Hst (surjective_pairing _)) as [_ He].
  apply He. exact Hmsg.
Qed.

(** A call that requests a block, on a stream that ends before the leading
    marker of the position record. *)
Lemma call_marker_short read_pos read_vel read_id read_mass single_type
    lgadget s :
  0 <= BytesIO.tell s ->
  200 <= BytesIO.remaining s ->
  BytesIO.remaining s < 268 ->
  py_any [read_pos; read_vel; read_id; read_mass] = true ->
  fst (read_gadget_snapshot read_pos read_vel read_id read_mass single_type
         lgadget s) = Raises (struct_error 4).
Proof.
  intros Ht Hr Hshort Hany.
  rewrite (call_blocks _ _ _ _ _ _ _ Ht Hr Hany). cbv zeta.
  unfold as_tuple. cbn [walk]. rewrite bind_apply.
  assert (Hta : 0 <= BytesIO.tell (after_header s))
    by (cbn [after_header BytesIO.tell]; lia).
  destruct (BytesIO.read 4 (after_header s)) as [raw s1] eqn:Hrd.
  pose proof (read_marker _ raw s1 Hta Hrd) as (Hfull & _).
  assert (Hl : length raw <> 4%nat).
  { intros E. apply Hfull in E.
    rewrite remaining_eq in E by exact Hta.
    rewrite remaining_eq in Hshort by exact Ht.
    cbn [after_header BytesIO.tell BytesIO.getvalue] in E. lia. }
  rewrite (block_body_short_marker _ _ _ 0 _ _ _ _ float32 float64 3
             (npart (decoded_header lgadget s)) raw s1 eq_refl Hrd Hl).
  reflexivity.
Qed.

(** A call that requests the positions, on a stream that ends inside the
    part of the position payload it reads. *)
Lemma call_positions_short read_vel read_id read_mass single_type lgadget s :
  0 <= BytesIO.tell s ->
  268 <= BytesIO.remaining s ->
  let buf := BytesIO.getvalue s in
  let hd := decoded_header lgadget s in
  let t := selector_in_force single_type lgadget in
  let L := u32_at buf (BytesIO.tell s + 264) in
  let N := py_sum (npart hd) in
  let w := if L =? 3 * N * 4 then 4 else 8 in
  L = 3 * N * w ->
  let seen :=
    if t >? -1 then py_sum (firstn (S (Z.to_nat t)) (npart hd)) else N in
  let this := if t >? -1 then nth (Z.to_nat t) (npart hd) 0 else N in
  0 < this ->
  BytesIO.remaining s < 268 + seen * (3 * w) ->
  exists msg,
    fst (read_gadget_snapshot true read_vel read_id read_mass single_type
           lgadget s) = Raises (ValueError msg)
    /\ numpy_error (ValueError msg).
Proof.
  intros Ht Hr buf hd t L N w HL seen this Hpos Hshort.
  pose proof (decoded_header_well_formed lgadget s) as Hwf. fold hd in Hwf.
  destruct Hwf as (Hlen & _ & Hnn).
  assert (Hr200 : 200 <= BytesIO.remaining s) by lia.
  rewrite (call_blocks true read_vel read_id read_mass single_type lgadget
             s Ht Hr200 eq_refl).
  cbv zeta.
  fold hd t. unfold as_tuple. cbn [walk]. rewrite bind_apply.
  assert (Hta : 0 <= BytesIO.tell (after_header s))
    by (cbn [after_header BytesIO.tell]; lia).
  destruct (BytesIO.read 4 (after_header s)) as [raw s1] eqn:Hrd.
  pose proof (read_marker _ raw s1 Hta Hrd)
    as (Hfull & HLr & _ & Htl & _ & _ & Hrem).
  cbn [after_header BytesIO.tell BytesIO.getvalue] in HLr.
  fold buf L in HLr.
  assert (Hra : BytesIO.remaining (after_header s)
                = BytesIO.remaining s - 264).
  { rewrite !remaining_eq by assumption.
    rewrite remaining_eq in Hr by exact Ht.
    cbn [after_header BytesIO.tell BytesIO.getvalue]. lia. }
  assert (Hl : length raw = 4%nat) by (apply Hfull; lia).
  rewrite Hl, Hra in Hrem. rewrite Hl in Htl.
  change (Z.of_nat 4) with 4 in *.
  rewrite (block_body_prefix _ _ _ 0 _ _ _ _ float32 float64 3 (npart hd)
             raw s1 eq_refl Hrd Hl).
  rewrite HLr. fold N.
  set (d := if L =? 3 * N * 4 then float32 else float64).
  assert (Hd : check_size float32 float64 (3 * N) L = Returns d
               /\ itemsize d = w).
  { subst d w. destruct (Z.eqb_spec L (3 * N * 4)) as [E|E].
    - split; [|reflexivity]. apply check_size_narrow. exact E.
    - split; [|reflexivity]. apply check_size_wide; [exact E|exact HL]. }
  destruct Hd as [-> Hw]. cbn [negb].
  assert (Hst : -1 <= t < Z.of_nat (length (npart hd))).
  { rewrite Hlen. subst t. unfold selector_in_force.
    pose proof (in_range6_bounds (if lgadget then 1 else single_type)).
    change (Z.of_nat 6) with 6. lia. }
  destruct (read_block_short_payload (npart hd) t d
              (py_any (skipn 1 [true; read_vel; read_id; read_mass]))
              [Header hd] s1 ltac:(lia) Hnn Hst)
    as (msg & Hmsg & Hnum).
  - exact Hpos.
  - rewrite Hw. fold N seen. lia.
  - exists msg. split; [|exact Hnum].
    destruct (read_block _ _ _ _ _ _ _ _) as [[x|e] s2];
      cbn [fst] in Hmsg |- *;
      [discriminate Hmsg|injection Hmsg as ->; reflexivity].
Qed.

(** C8 (as the code has it): a stream that ends before the 196 bytes of
    header fields, or before the 4 bytes of the leading marker of a block
    the loop goes into, makes the call fail with [struct.error]; one that
    ends inside the part of a position or velocity payload that is being
    read makes it fail with a [ValueError] of numpy.  There is no
    end-of-stream error: the seeks that skip a block go past the end of the
    stream without failing, and an identifier or mass payload that is cut
    short comes back as a shorter array when it ends on a whole item, and
    fails in [frombuffer] otherwise. *)
Theorem truncated_stream_errors :
  (forall read_pos read_vel read_id read_mass single_type lgadget s,
      0 <= BytesIO.tell s ->
      BytesIO.remaining s < 200 ->
      fst (read_gadget_snapshot read_pos read_vel read_id read_mass
             single_type lgadget s) = Raises (struct_error 196))
  /\ (forall hd mass_npart single_type blocks_to_read i b rest ret s
            fmt fmt_64 c np,
        block_setup hd mass_npart i = Geometry fmt fmt_64 c np ->
        0 <= BytesIO.tell s ->
        BytesIO.remaining s < 4 ->
        fst (walk hd mass_npart single_type blocks_to_read
               ((i, b) :: rest) ret s) = Raises (struct_error 4))
  /\ (forall read_pos read_vel read_id read_mass single_type lgadget s,
        0 <= BytesIO.tell s ->
        200 <= BytesIO.remaining s ->
        BytesIO.remaining s < 268 ->
        py_any [read_pos; read_vel; read_id; read_mass] = true ->
        fst (read_gadget_snapshot read_pos read_vel read_id read_mass
               single_type lgadget s) = Raises (struct_error 4))
  /\ (forall np single_type d more ret s,
        0 <= BytesIO.tell s ->
        Forall (Z.le 0) np ->
        -1 <= single_type < Z.of_nat (length np) ->
        let seen :=
          if single_type >? -1
          then py_sum (firstn (S (Z.to_nat single_type)) np)
          else py_sum np in
        let this :=
          if single_type >? -1
          then nth (Z.to_nat single_type) np 0
          else py_sum np in
        0 < this ->
        BytesIO.remaining s < seen * (3 * itemsize d) ->
        exists msg,
          fst (read_block np single_type d 3 (3 * itemsize d) more ret s)
          = Raises (ValueError msg)
          /\ numpy_error (ValueError msg))
  /\ (forall read_vel read_id read_mass single_type lgadget s,
        0 <= BytesIO.tell s ->
        268 <= BytesIO.remaining s ->
        let buf := BytesIO.getvalue s in
        let hd := decoded_header lgadget s in
        let t := selector_in_force single_type lgadget in
        let L := u32_at buf (BytesIO.tell s + 264) in
        let N := py_sum (npart hd) in
        let w := if L =? 3 * N * 4 then 4 else 8 in
        L = 3 * N * w ->
        let seen :=
          if t >? -1 then py_sum (firstn (S (Z.to_nat t)) (npart hd))
          else N in
        let this := if t >? -1 then nth (Z.to_nat t) (npart hd) 0 else N in
        0 < this ->
        BytesIO.remaining s < 268 + seen * (3 * w) ->
        exists msg,
          fst (read_gadget_snapshot true read_vel read_id read_mass
                 single_type lgadget s) = Raises (ValueError msg)
          /\ numpy_error (ValueError msg))
  /\ (forall hd mass_npart single_type i more ret s fmt fmt_64 c np,
        block_setup hd mass_npart i = Geometry fmt fmt_64 c np ->
        0 <= BytesIO.tell s ->
        4 <= BytesIO.remaining s ->
        let buf := BytesIO.getvalue s in
        let L := u32_at buf (BytesIO.tell s) in
        L = c * py_sum np * itemsize fmt
        \/ L = c * py_sum np * itemsize fmt_64 ->
        let run := block_body hd mass_npart single_type i false more ret s in
        fst run = Returns (Continue, ret)
        /\ BytesIO.tell (snd run) = next_record buf (BytesIO.tell s)
        /\ (BytesIO.remaining s < 4 + L + 4 ->
            Z.of_nat (length buf) < BytesIO.tell (snd run)))
  /\ (forall np single_type d more ret s,
        0 <= BytesIO.tell s ->
        Forall (Z.le 0) np ->
        -1 <= single_type < Z.of_nat (length np) ->
        let before :=
          if single_type >? -1
          then py_sum (firstn (Z.to_nat single_type) np)
          else 0 in
        let this :=
          if single_type >? -1
          then nth (Z.to_nat single_type) np 0
          else py_sum np in
        let avail :=
          Z.max 0 (BytesIO.remaining s - before * itemsize d) in
        avail < this * itemsize d ->
        let run :=
          read_block np single_type d 1 (1 * itemsize d) more ret s in
        if avail mod itemsize d =? 0
        then exists a,
               fst run = Returns (if more then Continue else Break,
                                  ret ++ [Array a])
               /\ arr_dtype a = d
               /\ arr_shape a = [avail / itemsize d]
               /\ avail / itemsize d < this
               /\ Z.of_nat (length (arr_data a)) = avail
        else fst run
             = Raises (ValueError
                         "buffer size must be a multiple of element size")).
Proof.
  split; [exact call_header_short|].
  split; [|split; [exact call_marker_short|
           split; [exact read_block_short_payload|
           split; [exact call_positions_short|split]]]].
  - intros hd mn st btr i b rest ret s fmt fmt_64 c np Hs Ht Hrem.
    cbn [walk]. rewrite bind_apply.
    destruct (BytesIO.read 4 s) as [raw s1] eqn:Hr.
    pose proof (read_marker s raw s1 Ht Hr) as (Hfull & _).
    assert (Hl : length raw <> 4%nat) by (intros E; apply Hfull in E; lia).
    now rewrite (block_body_short_marker hd mn st i b _ ret s
                   fmt fmt_64 c np raw s1 Hs Hr Hl).
  - intros hd mn st i more ret s fmt fmt_64 c np Hs Ht Hrem buf L HL run.
    destruct (BytesIO.read 4 s) as [raw s1] eqn:Hr.
    pose proof (read_marker s raw s1 Ht Hr)
      as (Hfull & HLr & Hg & Htl & _).
    fold buf L in HLr.
    assert (Hl : length raw = 4%nat) by (apply Hfull; exact Hrem).
    rewrite Hl in Htl. change (Z.of_nat 4) with 4 in Htl.
    pose proof (le_uint_nonneg raw) as HL0. rewrite HLr in HL0.
    subst run.
    rewrite (block_body_prefix _ _ _ _ _ _ _ _ _ _ _ _ _ _ Hs Hr Hl).
    rewrite HLr.
    assert (Hd : exists d,
              check_size fmt fmt_64 (c * py_sum np) L = Returns d
              /\ L = py_sum np * (c * itemsize d)).
    { destruct (Z.eq_dec L (c * py_sum np * itemsize fmt)) as [E|E].
      - exists fmt. split; [now apply check_size_narrow|]. rewrite E. ring.
      - destruct HL as [HL|HL]; [contradiction|].
        exists fmt_64. split; [now apply check_size_wide|]. rewrite HL.
        ring. }
    destruct Hd as (d & -> & HLd). cbn [negb].
    unfold skip_block, bind, seek, pure. cbn [fst snd].
    split; [reflexivity|].
    rewrite <- HLd. cbn [BytesIO.seek_cur BytesIO.tell].
    rewrite Htl. unfold next_record. fold L.
    split; [lia|].
    rewrite remaining_eq by exact Ht. fold buf. lia.
  - intros np st d more ret s Ht Hnn Hst.
    apply read_block_short_items; try assumption.
    intros H. apply Z.gtb_lt in H. lia.
Qed.

Lemma truncated_stream_errors_witness :
  let s := BytesIO.open (truncated 300 file57) in
  let np := [5; 7; 0; 0; 0; 0] in
  let s1 := BytesIO.mk (truncated 300 file57) 268 268 in
  let s2 := BytesIO.mk (truncated 580 file57_fixed_mass) 572 572 in
  0 <= BytesIO.tell s1
  /\ Forall (Z.le 0) np
  /\ 0 < py_sum np
  /\ BytesIO.remaining s1 < py_sum np * (3 * itemsize float32)
  /\ (exists msg,
        fst (read_block np (-1) float32 3 (3 * itemsize float32) false [] s1)
        = Raises (ValueError msg)
        /\ numpy_error (ValueError msg))
  /\ fst (read_gadget_snapshot true false false false (-1) false s)
     = Raises (ValueError
                 "cannot reshape array of size 8 into shape (12,3)")
  /\ 0 <= BytesIO.tell s2
  /\ Z.max 0 (BytesIO.remaining s2 - 0 * itemsize uint32)
     < py_sum np * itemsize uint32
  /\ (exists a,
        fst (read_block np (-1) uint32 1 (1 * itemsize uint32) false [] s2)
        = Returns (Break, [Array a])
        /\ arr_shape a = [2]).
Proof.
  intros s np s1 s2.
  assert (Ht : 0 <= BytesIO.tell s1) by (cbn; lia).
  assert (Hnn : Forall (Z.le 0) np) by (repeat constructor; lia).
  assert (Hr : BytesIO.remaining s1 < py_sum np * (3 * itemsize float32))
    by (vm_compute; reflexivity).
  assert (Hp : 0 < py_sum np) by (cbn; lia).
  assert (Ht2 : 0 <= BytesIO.tell s2) by (cbn; lia).
  assert (Hr2 : Z.max 0 (BytesIO.remaining s2 - 0 * itemsize uint32)
                < py_sum np * itemsize uint32)
    by (vm_compute; reflexivity).
  split; [exact Ht|]. split; [exact Hnn|]. split; [exact Hp|].
  split; [exact Hr|].
  destruct truncated_stream_errors as (_ & _ & _ & H & _ & _ & H5).
  split; [exact (H np (-1) float32 false [] s1 Ht Hnn ltac:(cbn; lia)
                   Hp Hr)|].
  split; [vm_compute; reflexivity|].
  split; [exact Ht2|]. split; [exact Hr2|].
  pose proof (H5 np (-1) uint32 false [] s2 Ht2 Hnn ltac:(cbn; lia) Hr2)
    as W.
  cbv zeta in W.
  change (Z.max 0 (BytesIO.remaining s2 - 0 * itemsize uint32)) with 8 in W.
  change (8 mod itemsize uint32 =? 0) with true in W. cbv iota in W.
  destruct W as (a & W1 & _ & W3 & _).
  exists a. split; [exact W1|exact W3].
Defined.

(** [file57_fixed_mass] cut off 8 bytes into the identifier payload, at
    offset 580 of 624.  A call that requests the identifiers and the masses
    returns, with 2 identifiers where the header counts 12; a call that
    requests the masses alone seeks past the end of the stream and returns
    as well. *)
Lemma truncated_stream_errors_counterexample :
  let s := BytesIO.open (truncated 580 file57_fixed_mass) in
  Z.of_nat (length (BytesIO.getvalue s)) = 580
  /\ Z.of_nat (length file57_fixed_mass) = 624
  /\ py_sum (npart (decoded_header false s)) = 12
  /\ (exists hd a,
        fst (read_gadget_snapshot false false true true (-1) false s)
        = Returns (ret_tuple [Header hd; Array a;
                              Array (empty_array float32)])
        /\ arr_shape a = [2])
  /\ (exists hd,
        fst (read_gadget_snapshot false false false true (-1) false s)
        = Returns (ret_tuple [Header hd; Array (empty_array float32)]))
  /\ BytesIO.tell
       (snd (read_gadget_snapshot false false false true (-1) false s))
     = 624.
Proof.
  cbv zeta.
  split; [vm_compute; reflexivity|]. split; [vm_compute; reflexivity|].
  split; [vm_compute; reflexivity|]. split; [|split].
  - do 2 eexists. split; [vm_compute; reflexivity|reflexivity].
  - eexists. vm_compute; reflexivity.
  - vm_compute; reflexivity.
Qed.
